(** * aioftp server core: a shallow embedding of [aioftp/server.py]

    The development follows the source file top to bottom: the pure path
    layer ([pathlib] as the server uses it), [Permission] and [User], the
    reply writer of [BaseServer], the precondition gates, and the command
    handlers of [Server].  The connection dictionary is a finite map from
    strings to dynamically typed values; handlers are computations in a
    state-and-exception monad over the connection, the outside world
    (file system and sockets), the bytes written so far and the tasks
    handed to the event loop. *)

From Stdlib Require Import ZArith Lia List Ascii String DecimalString DecimalPos.
From stdpp Require Import base option list strings gmap.

Local Open Scope string_scope.
Local Open Scope list_scope.
Local Open Scope nat_scope.

(** ** Python values the server manipulates *)

(** Exceptions the modelled code can raise. *)
Inductive exn : Type :=
| KeyError (key : string)
| ValueError (msg : string)
| TypeError (msg : string)
| OSError (strerror : string)
| UnknownPathType (path : string)
| NotImplementedError.

(** The result of evaluating a Python expression or call. *)
Inductive outcome (A : Type) : Type :=
| Done (a : A)
| Raise (e : exn).
Arguments Done {A} a.
Arguments Raise {A} e.

Definition outcome_bind {A B : Type} (o : outcome A) (k : A -> outcome B)
  : outcome B :=
  match o with
  | Done a => k a
  | Raise e => Raise e
  end.

(** ** [pathlib.PurePosixPath]

    A path is kept the way [pathlib] keeps it: the root ([""], ["/"] or
    ["//"]) and the list [_parts], whose first element is the root when the
    path is absolute.  POSIX paths have no drive. *)
Module pathlib.

Record Path : Type := mkPath { p_root : string; p_parts : list string }.

Definition nonempty (s : string) : bool :=
  match s with EmptyString => false | String _ _ => true end.

Definition string_eqb (a b : string) : bool := String.eqb a b.

(** [str.lstrip(part, "/")] *)
Fixpoint str_lstrip (s : string) : string :=
  match s with
  | String c s' => if Ascii.eqb c "/" then str_lstrip s' else s
  | EmptyString => EmptyString
  end.

(** [str.split(s, sep)] for a one-character separator. *)
Fixpoint str_split (sep : ascii) (s : string) : list string :=
  match s with
  | EmptyString => [EmptyString]
  | String c s' =>
      if Ascii.eqb c sep then EmptyString :: str_split sep s'
      else match str_split sep s' with
           | w :: ws => String c w :: ws
           | [] => [String c EmptyString]
           end
  end.

(** [str.join(sep, l)] *)
Fixpoint str_join (sep : string) (l : list string) : string :=
  match l with
  | [] => EmptyString
  | [x] => x
  | x :: l' => x +:+ sep +:+ str_join sep l'
  end.

(** [_PosixFlavour.splitroot]: exactly two leading slashes are kept as
    the root ["//"], any other number collapses to ["/"]. *)
Definition splitroot (part : string) : string * string :=
  match part with
  | String c _ =>
      if Ascii.eqb c "/" then
        let stripped := str_lstrip part in
        if Nat.eqb (String.length part - String.length stripped) 2
        then ("//", stripped) else ("/", stripped)
      else ("", part)
  | EmptyString => ("", part)
  end.

Definition is_component (x : string) : bool :=
  nonempty x && negb (string_eqb x ".").

(** [pathlib.Path(s)] on a string: empty and ["."] components are
    dropped, [".."] is kept. *)
Definition of_str (s : string) : Path :=
  let '(root, rel) := splitroot s in
  let comps := List.filter is_component (str_split "/" rel) in
  {| p_root := root;
     p_parts := (if nonempty root then [root] else []) ++ comps |}.

Definition is_absolute (p : Path) : bool := nonempty (p_root p).

(** [p.parts] *)
Definition parts (p : Path) : list string := p_parts p.

(** [a / b] ([join_parsed_parts] without drives). *)
Definition truediv (a b : Path) : Path :=
  if nonempty (p_root b) then b
  else {| p_root := p_root a; p_parts := p_parts a ++ p_parts b |}.

(** [abs_parts] of [relative_to]: [[drv, root] + parts[1:]] for a rooted
    path, [parts] otherwise. *)
Definition abs_parts (p : Path) : list string :=
  if nonempty (p_root p) then "" :: p_root p :: tail (p_parts p)
  else p_parts p.

Definition list_eqb (a b : list string) : bool :=
  bool_decide (a = b).

Definition str (p : Path) : string :=
  let s := if nonempty (p_root p)
           then p_root p +:+ str_join "/" (tail (p_parts p))
           else str_join "/" (p_parts p) in
  if nonempty s then s else ".".

(** [self.relative_to(other)]: [ValueError] unless [other]'s absolute
    parts are a prefix of [self]'s; the empty path is only a prefix of
    relative paths. *)
Definition relative_to (self other : Path) : outcome Path :=
  let abs := abs_parts self in
  let to_abs := abs_parts other in
  let n := List.length to_abs in
  if (if Nat.eqb n 0 then nonempty (p_root self)
      else negb (list_eqb (firstn n abs) to_abs))
  then Raise (ValueError ("'" +:+ str self +:+ "' does not start with '"
                         +:+ str other +:+ "'"))
  else Done {| p_root := if Nat.eqb n 1 then p_root self else "";
               p_parts := skipn n abs |}.

(** [p.parent] *)
Definition parent (p : Path) : Path :=
  if Nat.eqb (List.length (p_parts p)) 1 && nonempty (p_root p) then p
  else {| p_root := p_root p; p_parts := removelast (p_parts p) |}.

(** [p.name] *)
Definition name (p : Path) : string :=
  if Nat.eqb (List.length (p_parts p)) (if nonempty (p_root p) then 1 else 0)
  then "" else List.last (p_parts p) "".

End pathlib.
Export pathlib.

(** Either a string or an already built path: what [pathlib.Path(x)]
    accepts in the server ([cdup] hands a path to [cwd]). *)
Inductive pathlike : Type :=
| PStr (s : string)
| PPath (p : Path).

Definition Path_ (x : pathlike) : Path :=
  match x with
  | PStr s => of_str s
  | PPath p => p
  end.

(** ** class Permission *)

Record Permission : Type := mkPermission {
  perm_path : Path;
  readable : bool;
  writable : bool;
}.

(** [Permission.__init__(path, *, readable, writable)] *)
Definition Permission_init (path : pathlike) (r w : bool) : Permission :=
  {| perm_path := Path_ path; readable := r; writable := w |}.

(** [Permission()] *)
Definition Permission_default : Permission :=
  Permission_init (PStr "/") true true.

(** [Permission.is_parent] *)
Definition is_parent (self : Permission) (other : Path) : bool :=
  match relative_to other (perm_path self) with
  | Done _ => true
  | Raise _ => false
  end.

(** ** class User *)

Record User : Type := mkUser {
  login : option string;
  password : option string;
  base_path : Path;
  home_path : Path;
  permissions : list Permission;
}.

(** [User.__init__]: an absent or empty permission list becomes
    [[Permission()]]. *)
Definition User_init (login password : option string)
    (base_path home_path : pathlike) (perms : option (list Permission)) : User :=
  {| login := login;
     password := password;
     base_path := Path_ base_path;
     home_path := Path_ home_path;
     permissions := match perms with
                    | None | Some [] => [Permission_default]
                    | Some l => l
                    end |}.

(** The builtin [min(iterable, key=..., default=...)]: the first element
    is the candidate, a later one replaces it only when its key is
    strictly smaller. *)
Fixpoint min_scan {A : Type} (key : A -> outcome nat)
    (best : A) (bestval : nat) (l : list A) : outcome A :=
  match l with
  | [] => Done best
  | x :: l' =>
      outcome_bind (key x) (fun v =>
        if Nat.ltb v bestval then min_scan key x v l'
        else min_scan key best bestval l')
  end.

Definition py_min {A : Type} (l : list A) (key : A -> outcome nat)
    (default : A) : outcome A :=
  match l with
  | [] => Done default
  | x :: l' => outcome_bind (key x) (fun v => min_scan key x v l')
  end.

(** The key of [get_permissions]: [len(path.relative_to(p.path).parts)]. *)
Definition remaining (path : Path) (p : Permission) : outcome nat :=
  outcome_bind (relative_to path (perm_path p))
    (fun r => Done (List.length (parts r))).

(** [User.get_permissions] *)
Definition get_permissions (self : User) (path : Path) : outcome Permission :=
  let parents := List.filter (fun p => is_parent p path) (permissions self) in
  py_min parents (remaining path) Permission_default.

(** ** The connection dictionary and the world around it *)

(** What [asyncio.start_server] returns, seen through
    [sockets[0].getsockname()]: the address the listener is bound to. *)
Record Listener : Type := mkListener {
  sock_host : string;
  sock_port : Z;
}.

(** Values stored in the connection dictionary. *)
Inductive value : Type :=
| VNone
| VBool (b : bool)
| VInt (z : Z)
| VStr (s : string)
| VPath (p : Path)
| VUser (u : User)
| VStreams (reader writer : nat)
| VServer (l : Listener)
| VPathIO
| VLoop.

(** The three [stat] fields listed in [Server.path_facts], already
    rendered as text. *)
Record stat_result : Type := mkStat {
  st_size : string;
  st_mtime : string;
  st_ctime : string;
}.

(** The collaborators of the server that live outside [server.py]: the
    path-I/O capability ([pathio.AsyncPathIO] by default) and the socket
    layer behind [asyncio.start_server].  [path_io_mkdir] stands for
    [mkdir(path, parents=True)], the only way the server calls it; the
    queries [exists], [is_file] and [is_dir] answer without raising. *)
Record Env (World : Type) : Type := mkEnv {
  path_io_exists : Path -> World -> bool;
  path_io_is_file : Path -> World -> bool;
  path_io_is_dir : Path -> World -> bool;
  path_io_stat : Path -> World -> outcome stat_result;
  path_io_list : Path -> World -> outcome (list Path);
  path_io_mkdir : Path -> World -> outcome unit * World;
  path_io_rmdir : Path -> World -> outcome unit * World;
  net_start_server : value -> World -> outcome Listener * World;
}.
Arguments path_io_exists {World} _ _ _.
Arguments path_io_is_file {World} _ _ _.
Arguments path_io_is_dir {World} _ _ _.
Arguments path_io_stat {World} _ _ _.
Arguments path_io_list {World} _ _ _.
Arguments path_io_mkdir {World} _ _ _.
Arguments path_io_rmdir {World} _ _ _.
Arguments net_start_server {World} _ _ _.

(** What a stream writer has been asked to do. *)
Inductive event : Type :=
| Write (writer : nat) (data : string)
| Close (writer : nat).

(** A coroutine handed to the event loop by [asyncio.async]: the only one
    is [mlsd_writer], a closure over [path_io] and the real path to list. *)
Inductive task : Type :=
| MlsdWriter (path_io : value) (real_path : Path).

Record State (World : Type) : Type := mkState {
  connection : gmap string value;
  world : World;
  wire : list event;
  tasks : list task;
}.
Arguments mkState {World} _ _ _ _.
Arguments connection {World} _.
Arguments world {World} _.
Arguments wire {World} _.
Arguments tasks {World} _.

(** ** The handler monad: state plus exceptions.  A raised exception keeps
    the state reached so far, as a Python exception keeps the mutations
    made before it. *)
Definition M (World : Type) (A : Type) : Type :=
  State World -> outcome A * State World.

Global Instance M_ret {World : Type} : MRet (M World) :=
  fun A a st => (Done a, st).

Global Instance M_bind {World : Type} : MBind (M World) :=
  fun A B k m st =>
    match m st with
    | (Done a, st') => k a st'
    | (Raise e, st') => (Raise e, st')
    end.

Definition raise {World A : Type} (e : exn) : M World A :=
  fun st => (Raise e, st).

Definition lift {World A : Type} (o : outcome A) : M World A :=
  fun st => (o, st).

(** [for x in l: body(x)] *)
Fixpoint for_ {World A : Type} (l : list A) (body : A -> M World unit)
  : M World unit :=
  match l with
  | [] => mret tt
  | x :: l' => body x ;; for_ l' body
  end.

Section connection.
Context {World : Type}.
Local Abbreviation M := (M World).

(** [name in connection] *)
Definition contains (name : string) : M bool :=
  fun st => (Done (bool_decide (is_Some (connection st !! name))), st).

(** [connection[name]] *)
Definition getitem (name : string) : M value :=
  fun st => match connection st !! name with
            | Some v => (Done v, st)
            | None => (Raise (KeyError name), st)
            end.

(** [connection[name] = v] *)
Definition setitem (name : string) (v : value) : M unit :=
  fun st => (Done tt, mkState (<[name := v]> (connection st))
                              (world st) (wire st) (tasks st)).

(** [connection.pop(name)] *)
Definition pop (name : string) : M value :=
  fun st => match connection st !! name with
            | Some v => (Done v, mkState (delete name (connection st))
                                         (world st) (wire st) (tasks st))
            | None => (Raise (KeyError name), st)
            end.

(** [writer.write(data)], [writer.close()] *)
Definition emit (e : event) : M unit :=
  fun st => (Done tt, mkState (connection st) (world st)
                              (wire st ++ [e]) (tasks st)).

(** [asyncio.async(coro, loop=...)] *)
Definition spawn (t : task) : M unit :=
  fun st => (Done tt, mkState (connection st) (world st) (wire st)
                              (tasks st ++ [t])).

(** A read-only query of the world. *)
Definition ask {A : Type} (q : World -> A) : M A :=
  fun st => (Done (q (world st)), st).

(** A read-only query of the world that may raise. *)
Definition query {A : Type} (q : World -> outcome A) : M A :=
  fun st => (q (world st), st).

(** A call that may change the world and may raise. *)
Definition call {A : Type} (f : World -> outcome A * World) : M A :=
  fun st => let '(o, w) := f (world st) in
            (o, mkState (connection st) w (wire st) (tasks st)).

(** The dictionary is only ever filled by the server, so each key holds a
    value of one class.  Where a value of another class turns up the
    model raises [TypeError]. *)
Definition as_user (v : value) : M User :=
  match v with VUser u => mret u | _ => raise (TypeError "not a User") end.

Definition as_path (v : value) : M Path :=
  match v with VPath p => mret p | _ => raise (TypeError "not a Path") end.

Definition as_path_io (v : value) : M unit :=
  match v with VPathIO => mret tt | _ => raise (TypeError "not a path io") end.

Definition as_streams (v : value) : M (nat * nat) :=
  match v with
  | VStreams r w => mret (r, w)
  | _ => raise (TypeError "not a reader/writer pair")
  end.

Definition as_server (v : value) : M Listener :=
  match v with VServer l => mret l | _ => raise (TypeError "not a server") end.

End connection.

(** The characters the server writes that have no plain literal here. *)
Definition dquote : string := String "034" EmptyString.
Definition LF : string := String "010" EmptyString.
Definition CRLF : string := String "013" (String "010" EmptyString).

(** ** class BaseServer: the reply writer *)

(** The reply text a handler returns: one string or a list of strings. *)
Inductive info : Type :=
| IStr (s : string)
| IList (l : list string).

(** Modelled from the spec: [common.wrap_with_container] is not part of
    [server.py]; "a single string becomes [string]", a sequence is kept. *)
Definition wrap_with_container (lines : info) : list string :=
  match lines with
  | IStr s => [s]
  | IList l => l
  end.

(** [*body, tail = lines]: fails on the empty sequence. *)
Fixpoint unpack_body_tail (lines : list string) : option (list string * string) :=
  match lines with
  | [] => None
  | [x] => Some ([], x)
  | x :: l => match unpack_body_tail l with
              | Some (body, tail) => Some (x :: body, tail)
              | None => None
              end
  end.

(** [head, *body, tail = lines]: needs two elements. *)
Definition unpack_head_body_tail (lines : list string)
  : option (string * list string * string) :=
  match lines with
  | [] => None
  | head :: l => match unpack_body_tail l with
                 | Some (body, tail) => Some (head, body, tail)
                 | None => None
                 end
  end.

Section base_server.
Context {World : Type}.
Local Abbreviation M := (M World).

(** [BaseServer.write_line]; the log call is not modelled. *)
Definition write_line (reader writer : nat) (line : string) : M unit :=
  emit (Write writer (line +:+ CRLF)).

(** [BaseServer.write_response] *)
Definition write_response (reader writer : nat) (code : string)
    (lines : info) (list : bool) : M unit :=
  let lines := wrap_with_container lines in
  let write := write_line reader writer in
  if list then
    match unpack_head_body_tail lines with
    | Some (head, body, tail) =>
        write (code +:+ "-" +:+ head) ;;
        for_ body (fun line => write (" " +:+ line)) ;;
        write (code +:+ " " +:+ tail)
    | None => raise (ValueError "need more than 1 value to unpack")
    end
  else
    match unpack_body_tail lines with
    | Some (body, tail) =>
        for_ body (fun line => write (code +:+ "-" +:+ line)) ;;
        write (code +:+ " " +:+ tail)
    | None => raise (ValueError "need more than 0 values to unpack")
    end.

End base_server.

(** ** Handler results and decorators *)

(** What a handler coroutine returns: [None] when it falls off its end, or
    the tuple [(ok, code, info)] with an optional fourth [list] flag. *)
Inductive pyret : Type :=
| PyNone
| Reply (ok : bool) (code : string) (lines : info) (list : option bool).

Section decorators.
Context {World : Type}.
Local Abbreviation M := (M World).

(** The loop of [fields_required]'s wrapper: the message of the first
    field that is not in the connection. *)
Fixpoint first_missing (fields : list (string * string)) : M (option string) :=
  match fields with
  | [] => mret None
  | (name, message) :: fields' =>
      present ← contains name;
      if negb present then mret (Some message) else first_missing fields'
  end.

(** The decorator built by [fields_required] for the given fields. *)
Definition fields_required {R : Type} (fields : list (string * string))
    (f : R -> M pyret) (rest : R) : M pyret :=
  missing ← first_missing fields;
  match missing with
  | Some message =>
      mret (Reply true "503"
              (IStr ("bad sequence of commands (" +:+ message +:+ ")")) None)
  | None => f rest
  end.

(** The loop of [unpack_keywords]'s wrapper over the keyword-only
    parameters of [f], in the order of its signature. *)
Fixpoint unpack (names : list string) : M (list value) :=
  match names with
  | [] => mret []
  | name :: names' =>
      v ← getitem name;
      vs ← unpack names';
      mret (v :: vs)
  end.

(** [unpack_keywords(f)]: [f] receives the unpacked values in the order
    of [names]. *)
Definition unpack_keywords {R A : Type} (names : list string)
    (f : list value -> R -> M A) (rest : R) : M A :=
  unpacked ← unpack names;
  f unpacked rest.

Definition user_required {R : Type} : (R -> M pyret) -> R -> M pyret :=
  fields_required [("user", "no user (use USER firstly)")].

Definition login_required {R : Type} : (R -> M pyret) -> R -> M pyret :=
  fields_required [("logged", "not logged in")].

Definition passive_required {R : Type} : (R -> M pyret) -> R -> M pyret :=
  fields_required
    [("passive_server", "no listen socket created (use PASV firstly)");
     ("passive_connection", "no passive connection created (connect firstly)")].

End decorators.

(** ** Builtins used by [pasv] *)

(** [str(n)] for an integer. *)
Definition str_of_Z (z : Z) : string := NilZero.string_of_int (Z.to_int z).

Definition is_space (c : ascii) : bool :=
  let n := nat_of_ascii c in
  (Nat.leb 9 n && Nat.leb n 13) || (Nat.leb 28 n && Nat.leb n 32).

Fixpoint lstrip_space (s : string) : string :=
  match s with
  | String c s' => if is_space c then lstrip_space s' else s
  | EmptyString => EmptyString
  end.

Fixpoint rstrip_space (s : string) : string :=
  match s with
  | String c s' =>
      match rstrip_space s' with
      | EmptyString => if is_space c then EmptyString else String c EmptyString
      | t => String c t
      end
  | EmptyString => EmptyString
  end.

(** [int(s)] on ASCII text: surrounding whitespace is dropped, one sign is
    allowed, the rest must be decimal digits. *)
Definition int_of_str (s : string) : outcome Z :=
  let t := rstrip_space (lstrip_space s) in
  let '(neg, digits) :=
    match t with
    | String c t' =>
        if Ascii.eqb c "-" then (true, t')
        else if Ascii.eqb c "+" then (false, t')
        else (false, t)
    | EmptyString => (false, t)
    end in
  match NilZero.uint_of_string digits with
  | Some d => Done (if neg then Z.opp (Z.of_uint d) else Z.of_uint d)
  | None => Raise (ValueError ("invalid literal for int() with base 10: '"
                               +:+ s +:+ "'"))
  end.

(** [tuple(map(int, l))] *)
Fixpoint map_int (l : list string) : outcome (list Z) :=
  match l with
  | [] => Done []
  | x :: l' =>
      outcome_bind (int_of_str x) (fun n =>
      outcome_bind (map_int l') (fun ns => Done (n :: ns)))
  end.

(** The numbers [pasv] advertises for the address [(host, port)]. *)
Definition pasv_nums (host : string) (port : Z) : outcome (list Z) :=
  outcome_bind (map_int (str_split "." host)) (fun octets =>
    Done (octets ++ [Z.shiftr port 8; Z.land port 255])).

(** [str.format("({})", str.join(",", map(str, nums)))] *)
Definition pasv_text (nums : list Z) : string :=
  "(" +:+ str_join "," (map str_of_Z nums) +:+ ")".

(** ** class Server *)

Record Server : Type := mkServer {
  users : list User;
  host : value;
  port : Z;
  timeout : value;
}.

(** [User()] *)
Definition User_default : User :=
  User_init None None (PStr ".") (PStr "/") None.

(** [Server.__init__]: [users or [User()]]. *)
Definition Server_init (users : list User) (timeout : value) : Server :=
  {| users := match users with [] => [User_default] | _ => users end;
     host := VNone; port := 0; timeout := timeout |}.

(** [x is None] *)
Definition is_None {A : Type} (o : option A) : bool :=
  match o with None => true | Some _ => false end.

(** [user.login == rest], [user.password == rest] *)
Definition eq_str (o : option string) (rest : string) : bool :=
  match o with
  | Some s => String.eqb s rest
  | None => false
  end.

(** The [for user in self.users] loop of [Server.user]; reaching the end
    of the list or the [break] returns [current_user]. *)
Fixpoint user_scan (users : list User) (rest : string)
    (current_user : option User) : option User :=
  match users with
  | [] => current_user
  | user :: users' =>
      if is_None (login user) && is_None current_user
      then user_scan users' rest (Some user)
      else if eq_str (login user) rest then Some user
      else user_scan users' rest current_user
  end.

Section server.
Context {World : Type} (env : Env World).
Local Abbreviation M := (M World).

(** The keyword arguments a wrapped function expects. *)
Definition bad_keywords {A : Type} : M A :=
  raise (TypeError "missing keyword-only argument").

(** [Server.get_paths] *)
Definition get_paths (self : Server) : pathlike -> M (Path * Path) :=
  unpack_keywords ["user"] (fun kw path =>
    match kw with
    | [user] =>
        let virtual_path := Path_ path in
        virtual_path ←
          (if negb (is_absolute virtual_path) then
             current_directory ← getitem "current_directory";
             current_directory ← as_path current_directory;
             mret (truediv current_directory virtual_path)
           else mret virtual_path);
        user ← as_user user;
        relative ← lift (relative_to virtual_path (of_str "/"));
        let real_path := truediv (base_path user) relative in
        mret (real_path, virtual_path)
    | _ => bad_keywords
    end).

(** [Server.greeting] *)
Definition greeting (self : Server) (rest : string) : M pyret :=
  mret (Reply true "220" (IStr "welcome") None).

(** [Server.user] *)
Definition user (self : Server) (rest : string) : M pyret :=
  let current_user := user_scan (users self) rest None in
  '(ok, code, info) ←
    match current_user with
    | None => mret (false, "530", "no such username")
    | Some current_user =>
        if is_None (login current_user) then
          setitem "logged" (VBool true) ;;
          setitem "current_directory" (VPath (home_path current_user)) ;;
          setitem "user" (VUser current_user) ;;
          mret (true, "230", "anonymous login")
        else
          setitem "user" (VUser current_user) ;;
          mret (true, "331", "require password")
    end;
  mret (Reply ok code (IStr info) None).

(** [Server.pass_] *)
Definition pass_ (self : Server) : string -> M pyret :=
  user_required (unpack_keywords ["user"] (fun kw rest =>
    match kw with
    | [user] =>
        user ← as_user user;
        '(code, info) ←
          (if eq_str (password user) rest then
             setitem "logged" (VBool true) ;;
             setitem "current_directory" (VPath (home_path user)) ;;
             setitem "user" (VUser user) ;;
             mret ("230", "normal login")
           else mret ("530", "wrong password"));
        mret (Reply true code (IStr info) None)
    | _ => bad_keywords
    end)).

(** [Server.quit] *)
Definition quit (self : Server) (rest : string) : M pyret :=
  mret (Reply false "221" (IStr "bye") None).

(** [Server.pwd] *)
Definition pwd (self : Server) : string -> M pyret :=
  login_required (unpack_keywords ["current_directory"] (fun kw rest =>
    match kw with
    | [current_directory] =>
        current_directory ← as_path current_directory;
        mret (Reply true "257"
                (IStr (dquote +:+ str current_directory +:+ dquote)) None)
    | _ => bad_keywords
    end)).

(** [Server.cwd] *)
Definition cwd (self : Server) : pathlike -> M pyret :=
  login_required (unpack_keywords ["user"; "path_io"] (fun kw rest =>
    match kw with
    | [user; path_io] =>
        '(real_path, virtual_path) ← get_paths self rest;
        as_path_io path_io ;;
        '(code, info) ←
          (path_exists ← ask (path_io_exists env real_path);
           if negb path_exists then mret ("550", "path does not exists")
           else
             path_is_dir ← ask (path_io_is_dir env real_path);
             if negb path_is_dir then mret ("550", "path is not a directory")
             else
               user ← as_user user;
               permissions ← lift (get_permissions user virtual_path);
               if readable permissions then
                 setitem "current_directory" (VPath virtual_path) ;;
                 mret ("250", "")
               else mret ("550", "permission denied"));
        mret (Reply true code (IStr info) None)
    | _ => bad_keywords
    end)).

(** [Server.cdup] *)
Definition cdup (self : Server) : string -> M pyret :=
  login_required (unpack_keywords ["current_directory"] (fun kw rest =>
    match kw with
    | [current_directory] =>
        current_directory ← as_path current_directory;
        cwd self (PPath (parent current_directory))
    | _ => bad_keywords
    end)).

(** [Server.mkd] *)
Definition mkd (self : Server) : string -> M pyret :=
  login_required (unpack_keywords ["user"; "path_io"] (fun kw rest =>
    match kw with
    | [user; path_io] =>
        '(real_path, virtual_path) ← get_paths self (PStr rest);
        as_path_io path_io ;;
        '(code, info) ←
          (path_exists ← ask (path_io_exists env real_path);
           if (path_exists : bool) then mret ("550", "path already exists")
           else
             user ← as_user user;
             permissions ← lift (get_permissions user virtual_path);
             if writable permissions then
               call (path_io_mkdir env real_path) ;;
               mret ("257", "")
             else mret ("550", "permission denied"));
        mret (Reply true code (IStr info) None)
    | _ => bad_keywords
    end)).

(** [try: yield from path_io.rmdir(real_path) ... except OSError as e] *)
Definition try_rmdir (real_path : Path) : M (string * string) :=
  fun st =>
    match call (path_io_rmdir env real_path) st with
    | (Done _, st') => (Done ("257", ""), st')
    | (Raise (OSError strerror), st') =>
        (Done ("550", "os error: " +:+ strerror), st')
    | (Raise e, st') => (Raise e, st')
    end.

(** [Server.rmd]: the body assigns [code] and [info] on every path and
    ends without a [return] statement. *)
Definition rmd (self : Server) : string -> M pyret :=
  login_required (unpack_keywords ["user"; "path_io"] (fun kw rest =>
    match kw with
    | [user; path_io] =>
        '(real_path, virtual_path) ← get_paths self (PStr rest);
        as_path_io path_io ;;
        '(code, info) ←
          (path_exists ← ask (path_io_exists env real_path);
           if negb path_exists then mret ("550", "path does not exists")
           else
             path_is_dir ← ask (path_io_is_dir env real_path);
             if negb path_is_dir then mret ("550", "path is not a directory")
             else
               user ← as_user user;
               permissions ← lift (get_permissions user virtual_path);
               if writable permissions then try_rmdir real_path
               else mret ("550", "permission denied"));
        mret PyNone
    | _ => bad_keywords
    end)).

(** [Server.build_mlsx_string]; the facts are written in the order they
    were put into [stats]. *)
Definition build_mlsx_string (self : Server) : Path -> M string :=
  unpack_keywords ["path_io"] (fun kw path =>
    match kw with
    | [path_io] =>
        as_path_io path_io ;;
        path_is_file ← ask (path_io_is_file env path);
        type_ ←
          (if (path_is_file : bool) then mret "file"
           else
             path_is_dir ← ask (path_io_is_dir env path);
             if (path_is_dir : bool) then mret "dir"
             else raise (UnknownPathType (str path)));
        raw_stats ← query (path_io_stat env path);
        let stats := [("Type", type_); ("Size", st_size raw_stats);
                      ("Modify", st_mtime raw_stats);
                      ("Create", st_ctime raw_stats)] in
        let s := fold_left (fun s '(fact, value) =>
                              s +:+ fact +:+ "=" +:+ value +:+ ";")
                           stats "" in
        mret (s +:+ " " +:+ name path)
    | _ => bad_keywords
    end).

(** [with contextlib.closing(writer): body] *)
Definition closing {A : Type} (writer : nat) (body : M A) : M A :=
  fun st =>
    let '(o, st') := body st in
    (o, mkState (connection st') (world st') (wire st' ++ [Close writer])
                (tasks st')).

(** The coroutine [mlsd_writer] inside [Server.mlsd], run later by the
    event loop; [path_io] and [real_path] are the variables it closes
    over. *)
Definition mlsd_writer (self : Server) (path_io : value) (real_path : Path)
  : M unit :=
  passive_connection ← pop "passive_connection";
  '(data_reader, data_writer) ← as_streams passive_connection;
  closing data_writer
    (as_path_io path_io ;;
     paths ← query (path_io_list env real_path);
     for_ paths (fun path =>
       s ← build_mlsx_string self path;
       emit (Write data_writer (s +:+ LF)))) ;;
  command_connection ← getitem "command_connection";
  '(reader, writer) ← as_streams command_connection;
  write_response reader writer "200" (IStr "mlsd data transer done") false.

(** [Server.mlsd] *)
Definition mlsd (self : Server) : string -> M pyret :=
  login_required (passive_required
    (unpack_keywords ["user"; "path_io"] (fun kw rest =>
      match kw with
      | [user; path_io] =>
          '(real_path, virtual_path) ← get_paths self (PStr rest);
          user ← as_user user;
          permissions ← lift (get_permissions user virtual_path);
          '(code, info) ←
            (if readable permissions then
               loop ← getitem "loop";
               spawn (MlsdWriter path_io real_path) ;;
               mret ("150", "mlsd transer started")
             else mret ("550", "permission denied"));
          mret (Reply true code (IStr info) None)
      | _ => bad_keywords
      end))).

(** [Server.mlst] *)
Definition mlst (self : Server) : string -> M pyret :=
  login_required (unpack_keywords ["user"; "path_io"] (fun kw rest =>
    match kw with
    | [user; path_io] =>
        '(real_path, virtual_path) ← get_paths self (PStr rest);
        user ← as_user user;
        permissions ← lift (get_permissions user virtual_path);
        '(code, info, list) ←
          (if readable permissions then
             s ← build_mlsx_string self real_path;
             mret ("250", IList ["start"; s; "end"], true)
           else mret ("550", IStr "permission denied", false));
        mret (Reply true code info (Some list))
    | _ => bad_keywords
    end)).

(** [Server.rnfr], [rnto], [dele], [stor], [retr], [abor]: the body is
    [pass]. *)
Definition stub (self : Server) : string -> M pyret :=
  login_required (fun rest => mret PyNone).

Definition rnfr := stub.
Definition rnto := stub.
Definition dele := stub.
Definition stor := stub.
Definition retr := stub.
Definition abor := stub.

(** [Server.type] *)
Definition type (self : Server) : string -> M pyret :=
  login_required (fun rest =>
    '(code, info) ←
      (if String.eqb rest "I" then
         setitem "transfer_type" (VStr rest) ;;
         mret ("200", "")
       else mret ("502", "type '" +:+ rest +:+ "' not implemented"));
    mret (Reply true code (IStr info) None)).

(** The accept callback [handler] inside [Server.pasv]. *)
Definition pasv_handler (reader writer : nat) : M unit :=
  present ← contains "passive_connection";
  if (present : bool) then emit (Close writer)
  else setitem "passive_connection" (VStreams reader writer).

(** [Server.pasv] *)
Definition pasv (self : Server) : string -> M pyret :=
  login_required (fun rest =>
    present ← contains "passive_server";
    '(code, info) ←
      (if negb present then
         server_host ← getitem "server_host";
         passive_server ← call (net_start_server env server_host);
         setitem "passive_server" (VServer passive_server) ;;
         mret ("227", ["listen socket created"])
       else mret ("227", ["listen socket already exists"]));
    passive_server ← getitem "passive_server";
    passive_server ← as_server passive_server;
    let '(host, port) := (sock_host passive_server, sock_port passive_server) in
    nums ← lift (pasv_nums host port);
    let info := info ++ [pasv_text nums] in
    mret (Reply true code (IList info) None)).

(** The handlers a command line can reach through
    [getattr(self, cmd)]. *)
Inductive command : Type :=
| GREETING | USER | PASS | QUIT | PWD | CWD | CDUP | MKD | RMD | MLSD
| MLST | RNFR | RNTO | DELE | STOR | RETR | TYPE | PASV | ABOR.

Definition handler (self : Server) (cmd : command) : string -> M pyret :=
  match cmd with
  | GREETING => greeting self
  | USER => user self
  | PASS => pass_ self
  | QUIT => quit self
  | PWD => pwd self
  | CWD => fun rest => cwd self (PStr rest)
  | CDUP => cdup self
  | MKD => mkd self
  | RMD => rmd self
  | MLSD => mlsd self
  | MLST => mlst self
  | RNFR => rnfr self
  | RNTO => rnto self
  | DELE => dele self
  | STOR => stor self
  | RETR => retr self
  | TYPE => type self
  | PASV => pasv self
  | ABOR => abor self
  end.

End server.

(** ** The dispatcher's loop body *)

Section dispatcher.
Context {World : Type}.

(** The statements of [BaseServer.dispatcher] that follow [parse_command]
    inside its loop.  [getattr_] stands for the attribute lookup on the
    server object: [hasattr(self, cmd)] holds when it finds something to
    call.  The result is the value [ok] has when the loop tests it
    again. *)
Definition dispatch_command
    (getattr_ : string -> option (string -> M World pyret))
    (reader writer : nat) (cmd rest : string) (ok : bool) : M World bool :=
  let cmd := if String.eqb cmd "pass" then "pass_" else cmd in
  match getattr_ cmd with
  | Some method =>
      result ← method rest;
      match result with
      | PyNone => raise (TypeError "'NoneType' object is not iterable")
      | Reply ok code lines None =>
          write_response reader writer code lines false ;; mret ok
      | Reply ok code lines (Some list) =>
          write_response reader writer code lines list ;; mret ok
      end
  | None =>
      write_response reader writer "502"
        (IStr ("'" +:+ cmd +:+ "' not implemented")) false ;;
      mret ok
  end.

End dispatcher.

(** The dictionary [BaseServer.dispatcher] builds for a new connection. *)
Definition new_connection (self : Server) (client_host : string)
    (client_port : Z) (reader writer : nat) : gmap string value :=
  <["client_host" := VStr client_host]>
  (<["client_port" := VInt client_port]>
  (<["server_host" := host self]>
  (<["server_port" := VInt (port self)]>
  (<["command_connection" := VStreams reader writer]>
  (<["timeout" := timeout self]>
  (<["path_io" := VPathIO]>
  (<["loop" := VLoop]> ∅))))))).

(** ** A small concrete world, used to run the handlers on examples *)
Module toy.

Global Instance Path_eq_dec : EqDecision Path.
Proof. solve_decision. Defined.

(** Directories and files by real path, and the next port the socket
    layer hands out on the loopback address. *)
Record World : Type := mkWorld {
  dirs : list Path;
  files : list Path;
  next_port : Z;
}.

Definition mem (p : Path) (l : list Path) : bool := bool_decide (p ∈ l).

Definition env : Env World :=
  {| path_io_exists := fun p w => mem p (dirs w) || mem p (files w);
     path_io_is_file := fun p w => mem p (files w);
     path_io_is_dir := fun p w => mem p (dirs w);
     path_io_stat := fun p w =>
       if mem p (dirs w) || mem p (files w)
       then Done (mkStat "0" "0.0" "0.0")
       else Raise (OSError "No such file or directory");
     path_io_list := fun p w =>
       if mem p (dirs w)
       then Done (List.filter (fun q => bool_decide (parent q = p)
                                        && negb (bool_decide (q = p)))
                              (dirs w ++ files w))
       else Raise (OSError "Not a directory");
     path_io_mkdir := fun p w =>
       if mem p (dirs w) || mem p (files w)
       then (Raise (OSError "File exists"), w)
       else (Done tt, mkWorld (p :: dirs w) (files w) (next_port w));
     path_io_rmdir := fun p w =>
       if mem p (dirs w)
       then (Done tt, mkWorld (List.filter (fun q => negb (bool_decide (q = p)))
                                           (dirs w))
                              (files w) (next_port w))
       else (Raise (OSError "No such file or directory"), w);
     net_start_server := fun h w =>
       (Done (mkListener "127.0.0.1" (next_port w)),
        mkWorld (dirs w) (files w) (next_port w + 1)) |}.

(** A tree with the directories [.], [./pub], [./tmp] and the file
    [./pub/f]. *)
Definition world0 : World :=
  mkWorld [of_str "."; of_str "pub"; of_str "tmp"] [of_str "pub/f"] 50000.

Definition alice : User :=
  User_init (Some "alice") (Some "secret") (PStr ".") (PStr "/")
    (Some [Permission_init (PStr "/") true true;
           Permission_init (PStr "/pub") true false]).

Definition anonymous : User :=
  User_init None None (PStr ".") (PStr "/")
    (Some [Permission_init (PStr "/") true false]).

Definition server_named : Server := Server_init [alice] VNone.
Definition server_both : Server := Server_init [anonymous; alice] VNone.

Definition fresh (self : Server) : State World :=
  mkState (new_connection self "10.0.0.7" 40000 0 1) world0 [] [].

(** The state after [alice] has logged in. *)
Definition logged_in : State World :=
  snd (pass_ server_named "secret"
         (snd (user server_named "alice" (fresh server_named)))).

(** The state after [alice] has then moved into [/pub]. *)
Definition in_pub : State World :=
  snd (cwd env server_named (PStr "pub") logged_in).

(** The state after [alice] has logged in and asked for passive mode. *)
Definition listening : State World :=
  snd (pasv env server_named "" logged_in).

(** The state once a client has connected to the passive listener. *)
Definition connected : State World :=
  snd (pasv_handler 7 8 listening).

(** The world once [./tmp] is gone. *)
Definition world_without_tmp : World :=
  mkWorld [of_str "."; of_str "pub"] [of_str "pub/f"] 50000.

(** A handler body that must not run. *)
Definition unreachable_body : string -> M World pyret :=
  fun rest => raise NotImplementedError.

(** A user that has no password, and a server that knows only that
    user. *)
Definition carol : User :=
  User_init (Some "carol") None (PStr ".") (PStr "/") None.

Definition server_carol : Server := Server_init [carol] VNone.

(** The command methods of a [Server], by attribute name.  The table
    answers for the names of the command methods and for names under
    which the server object has no attribute at all; the other attributes
    of the object ([close], [users], [get_paths], ...) are not in it, and
    it is not to be read at their names. *)
Definition method_names : list (string * command) :=
  [("greeting", GREETING); ("user", USER); ("pass_", PASS); ("quit", QUIT);
   ("pwd", PWD); ("cwd", CWD); ("cdup", CDUP); ("mkd", MKD); ("rmd", RMD);
   ("mlsd", MLSD); ("mlst", MLST); ("rnfr", RNFR); ("rnto", RNTO);
   ("dele", DELE); ("stor", STOR); ("retr", RETR); ("type", TYPE);
   ("pasv", PASV); ("abor", ABOR)].

Definition methods (self : Server) (name : string)
  : option (string -> M World pyret) :=
  match List.find (fun nc => String.eqb (fst nc) name) method_names with
  | Some (_, cmd) => Some (handler env self cmd)
  | None => None
  end.

End toy.

(** ** Vocabulary of the statements *)

(** [s.startswith(p)] *)
Definition starts_with (p s : string) : bool := String.prefix p s.

(** The data of the [write] calls in a list of events, in order. *)
Definition written_lines (es : list event) : list string :=
  flat_map (fun e => match e with Write _ d => [d] | Close _ => [] end) es.

(** RFC 959 framing of a reply: the last line opens with the code and a
    space, every line before it with the code and a hyphen. *)
Definition framed (code : string) (written : list string) : Prop :=
  ∃ earlier final,
    written = earlier ++ [final] ∧
    starts_with (code +:+ " ") final = true ∧
    Forall (fun l => starts_with (code +:+ "-") l = true) earlier.

(** The connection is authenticated: the key [logged] is present. *)
Definition authenticated {World : Type} (st : State World) : Prop :=
  is_Some (connection st !! "logged").

(** A computation never leaves a state satisfying [P], whether it returns
    or raises. *)
Definition keeps {World A : Type} (P : State World -> Prop) (m : M World A)
  : Prop :=
  ∀ st, P st -> P (snd (m st)).

(** Every reply tuple a computation returns carries [ok = True]. *)
Definition continues {World : Type} (m : M World pyret) : Prop :=
  ∀ st ok code lines list st',
    m st = (Done (Reply ok code lines list), st') -> ok = true.

(** The 503 reply of a gate. *)
Definition bad_sequence (message : string) : pyret :=
  Reply true "503" (IStr ("bad sequence of commands (" +:+ message +:+ ")")) None.

(** [r], found at position [i] of [l], is the first among the elements
    accepted by [P] that minimises [f]. *)
Definition first_minimum {A : Type} (P : A -> bool) (f : A -> nat)
    (l : list A) (i : nat) (r : A) : Prop :=
  l !! i = Some r ∧ P r = true ∧
  ∀ j x, l !! j = Some x -> P x = true -> f r ≤ f x ∧ (j < i -> f r < f x).

(** The number of components of [path] below the permission's path. *)
Definition depth_below (path : Path) (p : Permission) : nat :=
  List.length (skipn (List.length (abs_parts (perm_path p))) (abs_parts path)).

(** The state after some more events on the wire. *)
Definition add_wire {World : Type} (es : list event) (st : State World)
  : State World :=
  mkState (connection st) (world st) (wire st ++ es) (tasks st).

(** The state after one more key of the connection is set. *)
Definition set_key {World : Type} (name : string) (v : value)
    (st : State World) : State World :=
  mkState (<[name := v]> (connection st)) (world st) (wire st) (tasks st).





(** The shape of every connection the server builds and updates: the
    path-I/O capability is in place, [user] and [current_directory] hold
    values of their classes, and [logged] comes with both. *)
Definition well_formed {World : Type} (st : State World) : Prop :=
  connection st !! "path_io" = Some VPathIO ∧
  (∀ v, connection st !! "user" = Some v -> ∃ u, v = VUser u) ∧
  (∀ v, connection st !! "current_directory" = Some v -> ∃ p, v = VPath p) ∧
  (is_Some (connection st !! "logged") ->
   is_Some (connection st !! "user") ∧
   is_Some (connection st !! "current_directory")).

(** A computation leaves the observation [f] of the state as it was,
    whether it returns or raises. *)
Definition preserves {World A X : Type} (f : State World -> X)
    (m : M World A) : Prop :=
  ∀ st, f (snd (m st)) = f st.

(** A computation never returns a reply tuple. *)
Definition returns_no_tuple {World : Type} (m : M World pyret) : Prop :=
  ∀ st r st', m st = (Done r, st') -> r = PyNone.

(** The keys of the connection each handler assigns to. *)
Definition writes (cmd : command) (key : string) : bool :=
  match cmd with
  | USER | PASS =>
      bool_decide (key = "logged") || bool_decide (key = "current_directory")
      || bool_decide (key = "user")
  | CWD | CDUP => bool_decide (key = "current_directory")
  | TYPE => bool_decide (key = "transfer_type")
  | PASV => bool_decide (key = "passive_server")
  | _ => false
  end.

(** An absolute path under the root ["/"]. *)
Definition rooted (p : Path) : Prop :=
  ∃ names, p = {| p_root := "/"; p_parts := "/" :: names |}.

(** The current directory, when there is one, is a rooted path, and so is
    the home of the stored user. *)
Definition directories_rooted {World : Type} (st : State World) : Prop :=
  (∀ v, connection st !! "current_directory" = Some v ->
        ∃ p, v = VPath p ∧ rooted p) ∧
  (∀ u, connection st !! "user" = Some (VUser u) -> rooted (home_path u)).

(** The keys [BaseServer.dispatcher] puts into a new connection. *)
Definition dispatcher_keys : list string :=
  ["client_host"; "client_port"; "server_host"; "server_port";
   "command_connection"; "timeout"; "path_io"; "loop"].

(** ** Permission resolution *)

Section min_of_filter.
Context {A : Type} (P : A -> bool) (key : A -> outcome nat) (f : A -> nat).

Lemma first_minimum_skip x l i r :
  P x = false -> first_minimum P f l i r -> first_minimum P f (x :: l) (S i) r.
Proof.
  intros Hx (Hi & Hr & Hmin). split; [done|]. split; [done|].
  intros [|j] y Hj Hy; simpl in Hj.
  - congruence.
  - destruct (Hmin j y Hj Hy) as [Hle Hlt]. split; [done|]. intros ?; apply Hlt; lia.
Qed.

Lemma first_minimum_later x l i r :
  f r < f x -> first_minimum P f l i r -> first_minimum P f (x :: l) (S i) r.
Proof.
  intros Hx (Hi & Hr & Hmin). split; [done|]. split; [done|].
  intros [|j] y Hj Hy; simpl in Hj.
  - injection Hj as <-. lia.
  - destruct (Hmin j y Hj Hy) as [Hle Hlt]. split; [done|]. intros ?; apply Hlt; lia.
Qed.

Lemma min_scan_filter l :
  (∀ x, x ∈ l -> P x = true -> key x = Done (f x)) ->
  ∀ best bestval,
  ∃ r, min_scan key best bestval (List.filter P l) = Done r ∧
       ((r = best ∧ ∀ x, x ∈ l -> P x = true -> bestval ≤ f x) ∨
        (∃ i, first_minimum P f l i r ∧ f r < bestval)).
Proof.
  induction l as [|x l IH]; intros Hkey best bestval; simpl.
  - exists best. split; [done|]. left. split; [done|]. intros x Hx. by apply elem_of_nil in Hx.
  - assert (Hkey' : ∀ y, y ∈ l -> P y = true -> key y = Done (f y)).
    { intros y Hy. apply Hkey. by apply list_elem_of_further. }
    destruct (P x) eqn:HPx; simpl.
    + rewrite (Hkey x (list_elem_of_here _ _) HPx). simpl.
      destruct (Nat.ltb_spec (f x) bestval) as [Hlt|Hge].
      * destruct (IH Hkey' x (f x)) as (r & Hr & Hcase).
        exists r. split; [done|]. right.
        destruct Hcase as [[-> Hall]|(i & Hfm & Hlt')].
        -- exists 0. split; [|done]. split; [done|]. split; [done|].
           intros [|j] y Hj Hy; simpl in Hj.
           ++ injection Hj as <-. lia.
           ++ split; [|lia]. apply Hall; [|done]. by eapply list_elem_of_lookup_2.
        -- exists (S i). split; [|lia]. by apply first_minimum_later.
      * destruct (IH Hkey' best bestval) as (r & Hr & Hcase).
        exists r. split; [done|].
        destruct Hcase as [[-> Hall]|(i & Hfm & Hlt')].
        -- left. split; [done|]. intros y Hy HPy.
           apply elem_of_cons in Hy as [->|Hy]; [lia|by apply Hall].
        -- right. exists (S i). split; [|done]. apply first_minimum_later; [lia|done].
    + destruct (IH Hkey' best bestval) as (r & Hr & Hcase).
      exists r. split; [done|].
      destruct Hcase as [[-> Hall]|(i & Hfm & Hlt')].
      * left. split; [done|]. intros y Hy HPy.
        apply elem_of_cons in Hy as [->|Hy]; [congruence|by apply Hall].
      * right. exists (S i). split; [|done]. by apply first_minimum_skip.
Qed.

Lemma py_min_filter l default :
  (∀ x, x ∈ l -> P x = true -> key x = Done (f x)) ->
  ∃ r, py_min (List.filter P l) key default = Done r ∧
       ((r = default ∧ ∀ x, x ∈ l -> P x = false) ∨
        (∃ i, first_minimum P f l i r)).
Proof.
  induction l as [|x l IH]; intros Hkey; simpl.
  - exists default. split; [done|]. left. split; [done|]. intros x Hx. by apply elem_of_nil in Hx.
  - assert (Hkey' : ∀ y, y ∈ l -> P y = true -> key y = Done (f y)).
    { intros y Hy. apply Hkey. by apply list_elem_of_further. }
    destruct (P x) eqn:HPx; simpl.
    + rewrite (Hkey x (list_elem_of_here _ _) HPx). simpl.
      destruct (min_scan_filter l Hkey' x (f x)) as (r & Hr & Hcase).
      exists r. split; [done|]. right.
      destruct Hcase as [[-> Hall]|(i & Hfm & Hlt')].
      * exists 0. split; [done|]. split; [done|].
        intros [|j] y Hj Hy; simpl in Hj.
        -- injection Hj as <-. lia.
        -- split; [|lia]. apply Hall; [|done]. by eapply list_elem_of_lookup_2.
      * exists (S i). by apply first_minimum_later.
    + destruct (IH Hkey') as (r & Hr & Hcase).
      exists r. split; [done|].
      destruct Hcase as [[-> Hall]|(i & Hfm)].
      * left. split; [done|]. intros y Hy.
        apply elem_of_cons in Hy as [->|Hy]; [done|by apply Hall].
      * right. exists (S i). by apply first_minimum_skip.
Qed.

End min_of_filter.

Lemma remaining_of_parent path p :
  is_parent p path = true -> remaining path p = Done (depth_below path p).
Proof.
  unfold is_parent, remaining, depth_below, relative_to.
  destruct (if Nat.eqb _ 0 then _ else _); [discriminate|done].
Qed.

Lemma remaining_is_parent path p k :
  remaining path p = Done k -> is_parent p path = true.
Proof.
  unfold is_parent, remaining. by destruct (relative_to _ _).
Qed.

Lemma get_permissions_total (self : User) (path : Path) :
  ∃ perm, get_permissions self path = Done perm.
Proof.
  unfold get_permissions.
  destruct (py_min_filter (fun p => is_parent p path) (remaining path)
              (depth_below path) (permissions self) Permission_default)
    as (r & Hr & _).
  { intros x _ Hx. by apply remaining_of_parent. }
  by exists r.
Qed.


(** ** Precondition gates *)

Section gates.
Context {World R : Type}.
Implicit Types (f : R -> M World pyret) (st : State World).

Lemma contains_absent name st :
  connection st !! name = None -> contains name st = (Done false, st).
Proof. unfold contains. intros ->. done. Qed.

Lemma contains_present name v st :
  connection st !! name = Some v -> contains name st = (Done true, st).
Proof. unfold contains. intros ->. done. Qed.

Lemma first_missing_found pre name message post st :
  (∀ n m, (n, m) ∈ pre -> is_Some (connection st !! n)) ->
  connection st !! name = None ->
  first_missing (pre ++ (name, message) :: post) st = (Done (Some message), st).
Proof.
  induction pre as [|[n m] pre IH]; intros Hpre Hname; simpl.
  - unfold mbind, M_bind. by rewrite (contains_absent _ _ Hname).
  - destruct (Hpre n m) as [v Hv]; [apply list_elem_of_here|].
    unfold mbind, M_bind. rewrite (contains_present _ _ _ Hv). simpl.
    apply IH; [|done]. intros n' m' Hin. apply (Hpre n' m'). by apply list_elem_of_further.
Qed.

Lemma first_missing_none fields st :
  (∀ n m, (n, m) ∈ fields -> is_Some (connection st !! n)) ->
  first_missing fields st = (Done None, st).
Proof.
  induction fields as [|[n m] fields IH]; intros Hall; simpl; [done|].
  destruct (Hall n m) as [v Hv]; [apply list_elem_of_here|].
  unfold mbind, M_bind. rewrite (contains_present _ _ _ Hv). simpl.
  apply IH. intros n' m' Hin. apply (Hall n' m'). by apply list_elem_of_further.
Qed.

(** A gate answers with the message of the first absent field, whatever
    the wrapped function is, and leaves the state as it found it. *)
Lemma fields_required_missing pre name message post f rest st :
  (∀ n m, (n, m) ∈ pre -> is_Some (connection st !! n)) ->
  connection st !! name = None ->
  fields_required (pre ++ (name, message) :: post) f rest st
  = (Done (bad_sequence message), st).
Proof.
  intros Hpre Hname. unfold fields_required, mbind, M_bind.
  by rewrite (first_missing_found _ _ _ _ _ Hpre Hname).
Qed.

(** With every field present the gate is transparent. *)
Lemma fields_required_pass fields f rest st :
  (∀ n m, (n, m) ∈ fields -> is_Some (connection st !! n)) ->
  fields_required fields f rest st = f rest st.
Proof.
  intros Hall. unfold fields_required, mbind, M_bind.
  by rewrite (first_missing_none _ _ Hall).
Qed.

Lemma login_required_pass f rest st :
  authenticated st -> login_required f rest st = f rest st.
Proof.
  intros Hl. apply fields_required_pass. intros n m Hin.
  apply list_elem_of_singleton in Hin. by injection Hin as -> ->.
Qed.

(** C8. Each of the three gates, applied to any handler body [f], answers
    a connection that lacks a required key with
    [(True, "503", "bad sequence of commands (<message>)")] for its own
    message (for [passive_required]: the listener's message when
    [passive_server] is absent, the connection's message when only
    [passive_connection] is); the result is the same for every [f], so
    the body is not run, and the state is returned unchanged. *)
Theorem gates_short_circuit f rest st :
  (connection st !! "user" = None ->
   user_required f rest st
   = (Done (Reply true "503"
              (IStr "bad sequence of commands (no user (use USER firstly))")
              None), st)) ∧
  (connection st !! "logged" = None ->
   login_required f rest st
   = (Done (Reply true "503"
              (IStr "bad sequence of commands (not logged in)") None), st)) ∧
  (connection st !! "passive_server" = None ->
   passive_required f rest st
   = (Done (Reply true "503"
              (IStr "bad sequence of commands (no listen socket created (use PASV firstly))")
              None), st)) ∧
  (is_Some (connection st !! "passive_server") ->
   connection st !! "passive_connection" = None ->
   passive_required f rest st
   = (Done (Reply true "503"
              (IStr "bad sequence of commands (no passive connection created (connect firstly))")
              None), st)).
Proof.
  repeat split.
  - intros H.
    apply (fields_required_missing [] "user" "no user (use USER firstly)" []
             f rest st); [|done].
    intros n m Hin. by apply elem_of_nil in Hin.
  - intros H.
    apply (fields_required_missing [] "logged" "not logged in" [] f rest st);
      [|done].
    intros n m Hin. by apply elem_of_nil in Hin.
  - intros H.
    apply (fields_required_missing [] "passive_server"
             "no listen socket created (use PASV firstly)" [_] f rest st);
      [|done].
    intros n m Hin. by apply elem_of_nil in Hin.
  - intros Hs H.
    apply (fields_required_missing [_] "passive_connection"
             "no passive connection created (connect firstly)" [] f rest st);
      [|done].
    intros n m Hin. apply list_elem_of_singleton in Hin. by injection Hin as -> ->.
Qed.

End gates.

(** ** Running the handlers *)

Section handlers.
Context {World : Type} (env : Env World).
Implicit Types (st : State World) (self : Server).

Lemma getitem_present name v st :
  connection st !! name = Some v -> getitem name st = (Done v, st).
Proof. unfold getitem. by intros ->. Qed.

Lemma getitem_absent name st :
  connection st !! name = None -> getitem name st = (Raise (KeyError name), st).
Proof. unfold getitem. by intros ->. Qed.

(** [get_paths] only reads the connection. *)
Lemma get_paths_state self path st : snd (get_paths self path st) = st.
Proof.
  unfold get_paths, unpack_keywords, unpack, mbind, M_bind, mret, M_ret.
  unfold getitem at 1.
  destruct (connection st !! "user") as [u|]; [|done]. simpl.
  destruct (negb (is_absolute (Path_ path))); simpl.
  - unfold getitem. destruct (connection st !! "current_directory") as [cd|]; [|done].
    destruct cd; simpl; try done.
    destruct u; simpl; try done. unfold lift.
    by destruct (relative_to _ _).
  - destruct u; simpl; try done. unfold lift.
    by destruct (relative_to _ _).
Qed.

Lemma get_paths_run self path st real virtual :
  fst (get_paths self path st) = Done (real, virtual) ->
  get_paths self path st = (Done (real, virtual), st).
Proof.
  intros H. pose proof (get_paths_state self path st) as Hst.
  destruct (get_paths self path st) as [o st1]. simpl in *. by subst.
Qed.

(** The body of [cwd] once the gate and the keyword unpacking are
    through. *)
Lemma cwd_run self rest st v u :
  connection st !! "logged" = Some v ->
  connection st !! "user" = Some (VUser u) ->
  connection st !! "path_io" = Some VPathIO ->
  cwd env self rest st =
  match get_paths self rest st with
  | (Done (real, virtual), _) =>
      if negb (path_io_exists env real (world st))
      then (Done (Reply true "550" (IStr "path does not exists") None), st)
      else if negb (path_io_is_dir env real (world st))
      then (Done (Reply true "550" (IStr "path is not a directory") None), st)
      else match get_permissions u virtual with
           | Done perm =>
               if readable perm
               then (Done (Reply true "250" (IStr "") None),
                     mkState (<["current_directory" := VPath virtual]>
                                (connection st))
                             (world st) (wire st) (tasks st))
               else (Done (Reply true "550" (IStr "permission denied") None), st)
           | Raise e => (Raise e, st)
           end
  | (Raise e, _) => (Raise e, st)
  end.
Proof.
  intros Hl Hu Hp. unfold cwd.
  rewrite login_required_pass by (by eexists).
  unfold unpack_keywords, unpack, mbind, M_bind, mret, M_ret.
  rewrite (getitem_present _ _ _ Hu), (getitem_present _ _ _ Hp). simpl.
  pose proof (get_paths_state self rest st) as Hst.
  destruct (get_paths self rest st) as [[[real virtual]|e] st1]; simpl in Hst; subst st1;
    [|done].
  unfold ask. simpl.
  destruct (path_io_exists env real (world st)); simpl; [|done].
  destruct (path_io_is_dir env real (world st)); simpl; [|done].
  unfold lift. destruct (get_permissions u virtual) as [perm|e]; simpl; [|done].
  by destruct (readable perm).
Qed.


(** C9. In a logged-in connection whose current directory is [cd],
    [cdup] returns the reply and the state that [cwd] returns on the
    same state for the argument [cd.parent]. *)
Theorem cdup_is_cwd_of_parent self rest st v cd :
  connection st !! "logged" = Some v ->
  connection st !! "current_directory" = Some (VPath cd) ->
  cdup env self rest st = cwd env self (PPath (parent cd)) st.
Proof.
  intros Hl Hcd. unfold cdup.
  rewrite login_required_pass by (by eexists).
  unfold unpack_keywords, unpack, mbind, M_bind, mret, M_ret.
  by rewrite (getitem_present _ _ _ Hcd).
Qed.

End handlers.

(** ** The reply writer *)

Lemma starts_with_app (p s : string) : starts_with p (p +:+ s) = true.
Proof.
  unfold starts_with. induction p as [|a p IH]; simpl; [by destruct s|].
  by destruct (ascii_dec a a).
Qed.

Lemma append_assoc (a b c : string) : (a +:+ b) +:+ c = a +:+ (b +:+ c).
Proof.
  induction a as [|x a IH]; [done|].
  change (String x ((a +:+ b) +:+ c) = String x (a +:+ (b +:+ c))).
  by rewrite IH.
Qed.

Lemma starts_with_line (p line ending : string) :
  starts_with p ((p +:+ line) +:+ ending) = true.
Proof. rewrite append_assoc. apply starts_with_app. Qed.

Lemma unpack_body_tail_app (body : list string) (tail : string) :
  unpack_body_tail (body ++ [tail]) = Some (body, tail).
Proof.
  induction body as [|x body IH]; simpl; [done|].
  rewrite IH. by destruct (body ++ [tail]) eqn:E; [destruct body|].
Qed.

Lemma unpack_body_tail_nonempty (l : list string) :
  l ≠ [] -> ∃ body tail, l = body ++ [tail].
Proof.
  intros Hl. destruct (exists_last Hl) as (body & tail & ->). by exists body, tail.
Qed.

Section writer.
Context {World : Type}.
Implicit Types st : State World.

Lemma add_wire_nil st : add_wire [] st = st.
Proof. destruct st. unfold add_wire. simpl. by rewrite app_nil_r. Qed.

Lemma add_wire_app es es' st :
  add_wire es' (add_wire es st) = add_wire (es ++ es') st.
Proof. unfold add_wire. simpl. by rewrite app_assoc. Qed.

Lemma write_line_run reader writer line st :
  write_line reader writer line st
  = (Done tt, add_wire [Write writer (line +:+ CRLF)] st).
Proof. done. Qed.

(** A loop of [write] calls puts one line per element on the wire. *)
Lemma for_write_lines reader writer (g : string -> string) body st :
  for_ body (fun line => write_line reader writer (g line)) st
  = (Done tt, add_wire (map (fun l => Write writer (g l +:+ CRLF)) body) st).
Proof.
  revert st. induction body as [|x body IH]; intros st; simpl.
  - by rewrite add_wire_nil.
  - unfold mbind, M_bind. rewrite write_line_run, IH, add_wire_app. done.
Qed.

(** With no line at all, or with the multi-line flag and fewer than two
    lines, the unpacking assignment raises and nothing is written. *)
Lemma write_response_too_few reader writer code lines (list : bool) st :
  List.length (wrap_with_container lines) < (if list then 2 else 1) ->
  ∃ msg, write_response reader writer code lines list st
         = (Raise (ValueError msg), st).
Proof.
  unfold write_response.
  destruct list, (wrap_with_container lines) as [|x [|y l]]; simpl; intros H;
    try lia; by eexists.
Qed.

(** C3 (amended). When [write_response] is given at least one line and
    the multi-line flag is off, it writes one line per given line, the
    last one opening with the code and a space and every earlier one
    with the code and a hyphen.  When the flag is on and at least two
    lines are given, the first line opens with the code and a hyphen,
    the last with the code and a space, and every line in between opens
    with a single space in place of the code. *)
Theorem write_response_framing reader writer code lines list st :
  let given := wrap_with_container lines in
  (list = false -> given ≠ [] ->
   ∃ written,
     write_response reader writer code lines list st
     = (Done tt, add_wire (map (Write writer) written) st) ∧
     List.length written = List.length given ∧
     framed code written) ∧
  (list = true -> 2 ≤ List.length given ->
   ∃ first interior final,
     write_response reader writer code lines list st
     = (Done tt, add_wire (map (Write writer) (first :: interior ++ [final])) st) ∧
     List.length (first :: interior ++ [final]) = List.length given ∧
     starts_with (code +:+ "-") first = true ∧
     Forall (fun l => starts_with " " l = true) interior ∧
     starts_with (code +:+ " ") final = true).
Proof.
  intros given. split.
  - intros -> Hne.
    destruct (unpack_body_tail_nonempty given Hne) as (body & tail & Hgiven).
    exists (map (fun l => (code +:+ "-" +:+ l) +:+ CRLF) body
            ++ [(code +:+ " " +:+ tail) +:+ CRLF]).
    unfold write_response. fold given. rewrite Hgiven, unpack_body_tail_app.
    unfold mbind, M_bind. rewrite for_write_lines, write_line_run, add_wire_app.
    split; [|split].
    + by rewrite map_app, map_map.
    + by rewrite !length_app, length_map.
    + eexists _, _. split; [done|]. split.
      * rewrite <- (append_assoc code " " tail). apply starts_with_line.
      * apply Forall_forall. intros l Hl. apply list_elem_of_In, in_map_iff in Hl.
        destruct Hl as (x & <- & _).
        rewrite <- (append_assoc code "-" x). apply starts_with_line.
  - intros -> Hlen.
    destruct given as [|head rest] eqn:Hgiven; simpl in Hlen; [lia|].
    assert (Hne : rest ≠ []) by (destruct rest; simpl in Hlen; [lia|done]).
    destruct (unpack_body_tail_nonempty rest Hne) as (body & tail & Hrest).
    exists ((code +:+ "-" +:+ head) +:+ CRLF),
           (map (fun l => (" " +:+ l) +:+ CRLF) body),
           ((code +:+ " " +:+ tail) +:+ CRLF).
    unfold write_response. fold given. rewrite Hgiven, Hrest. simpl.
    rewrite unpack_body_tail_app.
    unfold mbind, M_bind.
    rewrite write_line_run, for_write_lines, write_line_run, !add_wire_app.
    split; [|split; [|split; [|split]]].
    + simpl. by rewrite map_app, map_map.
    + simpl. by rewrite !length_app, length_map.
    + rewrite <- (append_assoc code "-" head). apply starts_with_line.
    + apply Forall_forall. intros l Hl. apply list_elem_of_In, in_map_iff in Hl.
      destruct Hl as (x & <- & _). apply starts_with_line.
    + rewrite <- (append_assoc code " " tail). apply starts_with_line.
Qed.

End writer.

(** ** USER: the scan over the configured users *)

Lemma user_scan_fallback (users : list User) (rest : string) (fallback : User) :
  user_scan users rest (Some fallback)
  = match List.find (fun u => eq_str (login u) rest) users with
    | Some u => Some u
    | None => Some fallback
    end.
Proof.
  induction users as [|x users IH]; simpl; [done|].
  rewrite andb_false_r. by destruct (eq_str (login x) rest).
Qed.

Lemma user_scan_find (users : list User) (rest : string) :
  user_scan users rest None
  = match List.find (fun u => eq_str (login u) rest) users with
    | Some u => Some u
    | None => List.find (fun u => is_None (login u)) users
    end.
Proof.
  induction users as [|x users IH]; simpl; [done|].
  destruct (login x) as [s|]; simpl.
  - by destruct (String.eqb s rest).
  - apply user_scan_fallback.
Qed.

Lemma user_scan_break (before after : list User) (u : User) (rest : string)
    (current_user : option User) :
  eq_str (login u) rest = true ->
  Forall (fun x => eq_str (login x) rest = false) before ->
  user_scan (before ++ u :: after) rest current_user = Some u.
Proof.
  intros Hu Hbefore. revert current_user.
  induction Hbefore as [|x before Hx _ IH]; intros current_user; simpl.
  - rewrite Hu. destruct (login u); [|done]. done.
  - rewrite Hx. by destruct (is_None (login x) && is_None current_user).
Qed.

Section user_handler.
Context {World : Type}.
Implicit Types (st : State World) (self : Server).

Lemma user_run self rest st :
  user self rest st =
  match user_scan (users self) rest None with
  | None => (Done (Reply false "530" (IStr "no such username") None), st)
  | Some u =>
      if is_None (login u)
      then (Done (Reply true "230" (IStr "anonymous login") None),
            set_key "user" (VUser u)
              (set_key "current_directory" (VPath (home_path u))
                 (set_key "logged" (VBool true) st)))
      else (Done (Reply true "331" (IStr "require password") None),
            set_key "user" (VUser u) st)
  end.
Proof.
  unfold user. destruct (user_scan (users self) rest None) as [u|]; [|done].
  by destruct (is_None (login u)).
Qed.

(** C6. The scan of [user] selects the first configured user whose login
    equals the argument; when there is none it selects the first user
    with [login=None], kept as the fallback; a user whose login equals
    the argument is selected whatever the fallback was and whatever
    follows it in the list.  With no user selected the reply is
    [530 no such username] with [ok = False] and the state untouched;
    with an anonymous user selected the handler sets [logged],
    [current_directory] (to the user's home) and [user] and replies
    [230 anonymous login]; with a named user selected it sets [user]
    only and replies [331 require password]. *)
Theorem user_selects_and_replies self rest st :
  let named := List.find (fun u => eq_str (login u) rest) (users self) in
  let fallback := List.find (fun u => is_None (login u)) (users self) in
  let selected := match named with Some u => Some u | None => fallback end in
  user_scan (users self) rest None = selected ∧
  (∀ before u after current_user,
     eq_str (login u) rest = true ->
     Forall (fun x => eq_str (login x) rest = false) before ->
     user_scan (before ++ u :: after) rest current_user = Some u) ∧
  user self rest st =
  match selected with
  | None => (Done (Reply false "530" (IStr "no such username") None), st)
  | Some u =>
      match login u with
      | None =>
          (Done (Reply true "230" (IStr "anonymous login") None),
           mkState (<["user" := VUser u]>
                      (<["current_directory" := VPath (home_path u)]>
                         (<["logged" := VBool true]> (connection st))))
                   (world st) (wire st) (tasks st))
      | Some _ =>
          (Done (Reply true "331" (IStr "require password") None),
           mkState (<["user" := VUser u]> (connection st))
                   (world st) (wire st) (tasks st))
      end
  end.
Proof.
  intros named fallback selected.
  assert (Hscan : user_scan (users self) rest None = selected)
    by apply user_scan_find.
  split; [done|]. split.
  - intros before u after current_user. apply user_scan_break.
  - rewrite user_run, Hscan. destruct selected as [u|]; [|done].
    by destruct (login u).
Qed.

End user_handler.

(** ** Decimal text: [int(str(n)) == n] and splitting a joined list *)
















(** ** PASV: the advertised address *)


Section pasv_handler.
Context {World : Type} (env : Env World).
Implicit Types (st : State World) (self : Server).

(** The tail of [pasv], from the lookup of the listener on. *)
Lemma pasv_tail_run self st info (listener : Listener) r st' :
  connection st !! "passive_server" = Some (VServer listener) ->
  (passive_server ← getitem "passive_server";
   passive_server ← as_server passive_server;
   let '(host, port) := (sock_host passive_server, sock_port passive_server) in
   nums ← lift (pasv_nums host port);
   let info := info ++ [pasv_text nums] in
   mret (Reply true "227" (IList info) None)) st = (Done r, st') ->
  st' = st ∧
  ∃ octets,
    map_int (str_split "." (sock_host listener)) = Done octets ∧
    r = Reply true "227"
          (IList (info ++ [pasv_text (octets ++ [Z.shiftr (sock_port listener) 8;
                                                 Z.land (sock_port listener) 255])]))
          None.
Proof.
  intros Hps. unfold mbind, M_bind. rewrite (getitem_present _ _ _ Hps). simpl.
  unfold lift, pasv_nums.
  destruct (map_int (str_split "." (sock_host listener))) as [octets|e]; simpl;
    [|discriminate].
  unfold mret, M_ret. intros [= <- <-]. split; [done|]. by exists octets.
Qed.


End pasv_handler.

(** ** RMD *)

Section rmd_handler.
Context {World : Type} (env : Env World).
Implicit Types (st : State World) (self : Server).

(** C1 (the code as it is). In a logged-in connection, when the target
    exists, is a directory, the selected permission is writable and
    [path_io.rmdir] succeeds, [rmd] removes the directory and returns
    [None]: the pair [("257", "")] is assigned and no tuple is
    returned. *)
Theorem rmd_success_returns_None self rest st v u real virtual perm w' :
  connection st !! "logged" = Some v ->
  connection st !! "user" = Some (VUser u) ->
  connection st !! "path_io" = Some VPathIO ->
  fst (get_paths self (PStr rest) st) = Done (real, virtual) ->
  path_io_exists env real (world st) = true ->
  path_io_is_dir env real (world st) = true ->
  get_permissions u virtual = Done perm ->
  writable perm = true ->
  path_io_rmdir env real (world st) = (Done tt, w') ->
  rmd env self rest st
  = (Done PyNone, mkState (connection st) w' (wire st) (tasks st)).
Proof.
  intros Hl Hu Hp Hpaths Hex Hdir Hperm Hw Hrm. unfold rmd.
  rewrite login_required_pass by (by eexists).
  unfold unpack_keywords, unpack, mbind, M_bind, mret, M_ret.
  rewrite (getitem_present _ _ _ Hu), (getitem_present _ _ _ Hp). simpl.
  rewrite (get_paths_run _ _ _ _ _ Hpaths). simpl.
  unfold ask. simpl. rewrite Hex. simpl. rewrite Hdir. simpl.
  unfold lift. rewrite Hperm. simpl. rewrite Hw.
  unfold try_rmdir, call. simpl. by rewrite Hrm.
Qed.

End rmd_handler.

(** ** The continue flag *)

Section continue_flag.
Context {World : Type} (env : Env World).
Implicit Types (st : State World) (self : Server).

Lemma continues_bind {A : Type} (m : M World A) (k : A -> M World pyret) :
  (∀ a, continues (k a)) -> continues (m ≫= k).
Proof.
  intros Hk st ok code lines list st'. unfold mbind, M_bind.
  destruct (m st) as [[a|e] st1]; [apply Hk|discriminate].
Qed.

Lemma continues_ret_true code lines list :
  continues (World:=World) (mret (Reply true code lines list)).
Proof. intros st ok c l o st'. unfold mret, M_ret. by intros [= <- _ _ _ _]. Qed.

Lemma continues_ret_None : continues (World:=World) (mret PyNone).
Proof. intros st ok c l o st'. unfold mret, M_ret. discriminate. Qed.

Lemma continues_raise e : continues (World:=World) (raise e).
Proof. intros st ok c l o st'. unfold raise. discriminate. Qed.

Lemma continues_fields_required {R : Type} fields (f : R -> M World pyret) rest :
  continues (f rest) -> continues (fields_required fields f rest).
Proof.
  intros Hf. unfold fields_required. apply continues_bind.
  intros [message|]; [apply continues_ret_true|done].
Qed.

Lemma continues_unpack_keywords {R : Type} names
    (f : list value -> R -> M World pyret) rest :
  (∀ kw, continues (f kw rest)) -> continues (unpack_keywords names f rest).
Proof. intros Hf. unfold unpack_keywords. by apply continues_bind. Qed.

Ltac continues_step :=
  first
    [ apply continues_ret_true
    | apply continues_ret_None
    | apply continues_raise
    | apply continues_fields_required
    | apply continues_unpack_keywords; intros ?
    | apply continues_bind; intros ?
    | match goal with
      | |- continues (match ?x with _ => _ end) => destruct x
      end ].

Ltac continues_all :=
  unfold user_required, login_required, passive_required, bad_keywords;
  repeat continues_step.

Lemma continues_cwd self rest : continues (cwd env self rest).
Proof. unfold cwd. continues_all. Qed.

(** Every handler but [quit] and [user] returns [ok = True] in each
    tuple it returns. *)
Lemma continues_handler self cmd rest :
  cmd ≠ QUIT -> cmd ≠ USER -> continues (handler env self cmd rest).
Proof.
  intros Hq Hu. destruct cmd; try done; simpl;
    unfold greeting, pass_, pwd, cdup, mkd, rmd, mlsd, mlst,
           rnfr, rnto, dele, stor, retr, abor, stub, type, pasv;
    try apply continues_cwd; continues_all.
Qed.

(** C2 (amended). [quit] always returns [(False, "221", "bye")].  [user]
    returns [ok = True] when its scan selects a user, and
    [(False, "530", "no such username")], with the state untouched, when
    the argument matches no configured user and there is no anonymous
    user.  Every tuple returned by any other handler carries
    [ok = True]. *)
Theorem continue_flag self cmd rest st :
  (cmd = QUIT ->
   handler env self cmd rest st
   = (Done (Reply false "221" (IStr "bye") None), st)) ∧
  (cmd = USER ->
   match user_scan (users self) rest None with
   | None =>
       handler env self cmd rest st
       = (Done (Reply false "530" (IStr "no such username") None), st)
   | Some _ =>
       ∃ code lines, fst (handler env self cmd rest st)
                     = Done (Reply true code lines None)
   end) ∧
  (cmd ≠ QUIT -> cmd ≠ USER ->
   ∀ ok code lines list st',
     handler env self cmd rest st = (Done (Reply ok code lines list), st') ->
     ok = true).
Proof.
  split; [|split].
  - by intros ->.
  - intros ->. simpl. rewrite user_run.
    destruct (user_scan (users self) rest None) as [u|]; [|done].
    destruct (is_None (login u)); by eexists _, _.
  - intros Hq Hu ok code lines list st'. by apply continues_handler.
Qed.

End continue_flag.

(** ** Invariants of the connection *)

Section keeps.
Context {World : Type}.
Implicit Types (st : State World) (P : State World -> Prop).

Lemma keeps_bind {A B : Type} P (m : M World A) (k : A -> M World B) :
  keeps P m -> (∀ a, keeps P (k a)) -> keeps P (m ≫= k).
Proof.
  intros Hm Hk st HP. unfold mbind, M_bind. specialize (Hm st HP).
  destruct (m st) as [[a|e] st1]; simpl in *; [by apply Hk|done].
Qed.

Lemma keeps_same {A : Type} P (m : M World A) :
  (∀ st, snd (m st) = st) -> keeps P m.
Proof. intros Hm st HP. by rewrite Hm. Qed.

Lemma keeps_ret {A : Type} P (a : A) : keeps (World:=World) P (mret a).
Proof. by apply keeps_same. Qed.

Lemma keeps_raise {A : Type} P e : keeps (World:=World) (A:=A) P (raise e).
Proof. by apply keeps_same. Qed.

Lemma keeps_lift {A : Type} P (o : outcome A) : keeps (World:=World) P (lift o).
Proof. by apply keeps_same. Qed.

Lemma keeps_contains P name : keeps (World:=World) P (contains name).
Proof. by apply keeps_same. Qed.

Lemma keeps_getitem P name : keeps (World:=World) P (getitem name).
Proof. apply keeps_same. intros st. unfold getitem. by destruct (_ !! _). Qed.

Lemma keeps_ask {A : Type} P (q : World -> A) : keeps P (ask q).
Proof. by apply keeps_same. Qed.

Lemma keeps_query {A : Type} P (q : World -> outcome A) : keeps P (query q).
Proof. by apply keeps_same. Qed.

Lemma keeps_first_missing P fields : keeps (World:=World) P (first_missing fields).
Proof.
  induction fields as [|[n m] fields IH]; simpl; [apply keeps_ret|].
  apply keeps_bind; [apply keeps_contains|]. intros []; [done|apply keeps_ret].
Qed.

Lemma keeps_fields_required {R : Type} P fields (f : R -> M World pyret) rest :
  keeps P (f rest) -> keeps P (fields_required fields f rest).
Proof.
  intros Hf. unfold fields_required. apply keeps_bind; [apply keeps_first_missing|].
  intros [message|]; [apply keeps_ret|done].
Qed.

Lemma keeps_unpack P names : keeps (World:=World) P (unpack names).
Proof.
  induction names as [|n names IH]; simpl; [apply keeps_ret|].
  apply keeps_bind; [apply keeps_getitem|]. intros v.
  apply keeps_bind; [done|]. intros vs. apply keeps_ret.
Qed.

Lemma keeps_unpack_keywords {R A : Type} P names
    (f : list value -> R -> M World A) rest :
  (∀ kw, keeps P (f kw rest)) -> keeps P (unpack_keywords names f rest).
Proof.
  intros Hf. unfold unpack_keywords. apply keeps_bind; [apply keeps_unpack|done].
Qed.

Lemma keeps_for {A : Type} P (l : list A) (body : A -> M World unit) :
  (∀ x, keeps P (body x)) -> keeps P (for_ l body).
Proof.
  intros Hbody. induction l as [|x l IH]; simpl; [apply keeps_ret|].
  apply keeps_bind; [apply Hbody|by intros _].
Qed.

Lemma keeps_get_paths P (self : Server) path : keeps P (get_paths self path).
Proof. apply keeps_same. apply get_paths_state. Qed.

End keeps.

(** A property of the connection dictionary that survives the few updates
    the handlers make survives every handler, the background writer of
    [mlsd] and the accept callback of [pasv]. *)
Section invariants.
Context {World : Type} (env : Env World) (P : State World -> Prop).
Implicit Types (st : State World) (self : Server).

Hypothesis P_connection :
  ∀ st st', connection st' = connection st -> P st -> P st'.
Hypothesis P_current_directory :
  ∀ p, keeps P (setitem "current_directory" (VPath p)).
Hypothesis P_transfer_type :
  ∀ s, keeps P (setitem "transfer_type" (VStr s)).
Hypothesis P_passive_server :
  ∀ l, keeps P (setitem "passive_server" (VServer l)).
Hypothesis P_passive_connection :
  ∀ r w, keeps P (setitem "passive_connection" (VStreams r w)).
Hypothesis P_user : ∀ u, keeps P (setitem "user" (VUser u)).
Hypothesis P_pop : keeps P (pop "passive_connection").
Hypothesis P_login :
  ∀ u st, P st ->
    P (set_key "user" (VUser u)
         (set_key "current_directory" (VPath (home_path u))
            (set_key "logged" (VBool true) st))).

Lemma kept_emit e : keeps P (emit e).
Proof. intros st Hst. by apply (P_connection st). Qed.

Lemma kept_spawn t : keeps P (spawn t).
Proof. intros st Hst. by apply (P_connection st). Qed.

Lemma kept_call {A : Type} (f : World -> outcome A * World) : keeps P (call f).
Proof.
  intros st Hst. unfold call. destruct (f (world st)). by apply (P_connection st).
Qed.

Lemma kept_closing {A : Type} writer (body : M World A) :
  keeps P body -> keeps P (closing writer body).
Proof.
  intros Hbody st Hst. unfold closing. specialize (Hbody st Hst).
  destruct (body st) as [o st1]. simpl in *. by apply (P_connection st1).
Qed.

Lemma kept_try_rmdir real_path : keeps P (try_rmdir env real_path).
Proof.
  intros st Hst. unfold try_rmdir.
  pose proof (kept_call (path_io_rmdir env real_path) st Hst).
  destruct (call _ st) as [[?|[]] ?]; done.
Qed.

(** The three assignments of a successful login, as one step. *)
Lemma kept_login {A : Type} u (a : A) :
  keeps P (setitem "logged" (VBool true) ;;
           setitem "current_directory" (VPath (home_path u)) ;;
           setitem "user" (VUser u) ;;
           mret a).
Proof. intros st Hst. by apply P_login. Qed.

Ltac kept_step :=
  first
    [ apply keeps_ret | apply keeps_raise | apply keeps_lift
    | apply keeps_contains | apply keeps_getitem | apply keeps_ask
    | apply keeps_query | apply keeps_get_paths
    | apply kept_login
    | apply P_current_directory | apply P_transfer_type
    | apply P_passive_server | apply P_passive_connection
    | apply P_user | apply P_pop
    | apply kept_emit | apply kept_spawn | apply kept_call
    | apply kept_try_rmdir
    | apply keeps_fields_required
    | apply keeps_unpack_keywords; intros ?
    | apply kept_closing
    | apply keeps_for; intros ?
    | apply keeps_bind; [|intros ?]
    | match goal with
      | |- keeps _ (match ?x with _ => _ end) => destruct x
      end
    | progress unfold as_user, as_path, as_path_io, as_streams, as_server ].

Ltac kept_all :=
  unfold user_required, login_required, passive_required, bad_keywords,
         as_user, as_path, as_path_io, as_streams, as_server, write_line;
  repeat kept_step.

Lemma kept_write_response reader writer code lines list :
  keeps P (write_response reader writer code lines list).
Proof. unfold write_response. kept_all. Qed.

Lemma kept_build_mlsx_string self path :
  keeps P (build_mlsx_string env self path).
Proof. unfold build_mlsx_string. kept_all. Qed.

Lemma kept_cwd self rest : keeps P (cwd env self rest).
Proof. unfold cwd. kept_all. Qed.

Lemma kept_user self rest : keeps P (user self rest).
Proof. unfold user. kept_all. Qed.

Lemma kept_handler self cmd rest : keeps P (handler env self cmd rest).
Proof.
  destruct cmd; simpl;
    unfold greeting, pass_, quit, pwd, cdup, mkd, rmd, mlsd, mlst,
           rnfr, rnto, dele, stor, retr, abor, stub, type, pasv;
    try apply kept_cwd; try apply kept_user; kept_all;
    try apply kept_cwd; try apply kept_build_mlsx_string.
Qed.

Lemma kept_mlsd_writer self path_io real_path :
  keeps P (mlsd_writer env self path_io real_path).
Proof.
  unfold mlsd_writer. kept_all;
    try apply kept_build_mlsx_string; try apply kept_write_response.
Qed.

Lemma kept_pasv_handler reader writer : keeps P (pasv_handler reader writer).
Proof. unfold pasv_handler. kept_all. Qed.

End invariants.

(** ** The [logged] key is never removed *)

Section logged_kept.
Context {World : Type} (env : Env World).
Implicit Types (st : State World) (self : Server).

Lemma authenticated_connection st st' :
  connection st' = connection st -> authenticated st -> authenticated st'.
Proof. unfold authenticated. by intros ->. Qed.

Lemma authenticated_setitem name v :
  keeps (World:=World) authenticated (setitem name v).
Proof.
  intros st Hst. unfold authenticated, setitem. simpl.
  apply lookup_insert_is_Some. destruct (decide (name = "logged")); [by left|by right].
Qed.

Lemma authenticated_pop name :
  name ≠ "logged" -> keeps (World:=World) authenticated (pop name).
Proof.
  intros Hne st Hst. unfold authenticated, pop.
  destruct (connection st !! name); simpl; [|done].
  by rewrite lookup_delete_ne.
Qed.

Lemma authenticated_login (u : User) st :
  authenticated st ->
  authenticated (set_key "user" (VUser u)
                   (set_key "current_directory" (VPath (home_path u))
                      (set_key "logged" (VBool true) st))).
Proof.
  intros Hst.
  apply (authenticated_setitem "user" (VUser u)),
        (authenticated_setitem "current_directory" (VPath (home_path u))),
        (authenticated_setitem "logged" (VBool true)), Hst.
Qed.

Lemma authenticated_handler self cmd rest :
  keeps authenticated (handler env self cmd rest).
Proof.
  apply kept_handler;
    first [ exact authenticated_connection
          | exact authenticated_login
          | by apply authenticated_pop
          | intros; apply authenticated_setitem ].
Qed.

Lemma authenticated_mlsd_writer self path_io real_path :
  keeps authenticated (mlsd_writer env self path_io real_path).
Proof.
  apply kept_mlsd_writer;
    first [ exact authenticated_connection
          | exact authenticated_login
          | by apply authenticated_pop
          | intros; apply authenticated_setitem ].
Qed.

Lemma authenticated_pasv_handler reader writer :
  keeps (World:=World) authenticated (pasv_handler reader writer).
Proof.
  apply kept_pasv_handler;
    first [ exact authenticated_connection
          | exact authenticated_login
          | by apply authenticated_pop
          | intros; apply authenticated_setitem ].
Qed.

Lemma pass_wrong_password self rest st u :
  connection st !! "user" = Some (VUser u) ->
  eq_str (password u) rest = false ->
  pass_ self rest st
  = (Done (Reply true "530" (IStr "wrong password") None), st).
Proof.
  intros Hu Hpw. unfold pass_, user_required.
  rewrite fields_required_pass.
  - unfold unpack_keywords, unpack, mbind, M_bind, mret, M_ret.
    rewrite (getitem_present _ _ _ Hu). simpl. by rewrite Hpw.
  - intros n m Hin. apply list_elem_of_singleton in Hin.
    injection Hin as -> ->. by eexists.
Qed.

(** C10. From a state whose connection holds [logged], every command
    handler, for every argument, ends (by return or by exception) in a
    state whose connection still holds [logged]; so do the background
    [mlsd_writer], the only code that removes a key, and the accept
    callback of [pasv].  In particular [user] for a named user replies
    [331 require password], overwrites [user] and keeps [logged], and
    [pass_] with a wrong password replies [530 wrong password] and
    changes nothing. *)
Theorem logged_is_never_removed self st :
  authenticated st ->
  (∀ cmd rest, authenticated (snd (handler env self cmd rest st))) ∧
  (∀ path_io real_path,
     authenticated (snd (mlsd_writer env self path_io real_path st))) ∧
  (∀ reader writer, authenticated (snd (pasv_handler reader writer st))) ∧
  (∀ rest u name,
     user_scan (users self) rest None = Some u -> login u = Some name ->
     ∃ st', user self rest st
            = (Done (Reply true "331" (IStr "require password") None), st') ∧
            connection st' !! "user" = Some (VUser u) ∧
            authenticated st') ∧
  (∀ rest u,
     connection st !! "user" = Some (VUser u) ->
     eq_str (password u) rest = false ->
     pass_ self rest st
     = (Done (Reply true "530" (IStr "wrong password") None), st)).
Proof.
  intros Hst. repeat split.
  - intros cmd rest. by apply authenticated_handler.
  - intros path_io real_path. by apply authenticated_mlsd_writer.
  - intros reader writer. by apply authenticated_pasv_handler.
  - intros rest u name Hscan Hname. eexists. rewrite user_run, Hscan, Hname. simpl.
    split; [done|]. split; [apply lookup_insert_eq|].
    by apply (authenticated_setitem "user" (VUser u) st).
  - intros rest u. apply pass_wrong_password.
Qed.

End logged_kept.

(** ** Connections stay well formed *)

Section well_formed_kept.
Context {World : Type} (env : Env World).
Implicit Types (st : State World) (self : Server).

Lemma well_formed_new self client_host client_port reader writer
    (w : World) es ts :
  well_formed (mkState (new_connection self client_host client_port reader writer)
                       w es ts).
Proof.
  unfold well_formed, new_connection. simpl.
  split; [by simplify_map_eq|]. split; [|split].
  - intros v Hv. by simplify_map_eq.
  - intros v Hv. by simplify_map_eq.
  - intros [v Hv]. by simplify_map_eq.
Qed.

Lemma well_formed_connection st st' :
  connection st' = connection st -> well_formed st -> well_formed st'.
Proof. unfold well_formed. by intros ->. Qed.

Lemma well_formed_set name v st :
  well_formed st ->
  name ≠ "path_io" -> name ≠ "logged" ->
  (name = "user" -> ∃ u, v = VUser u) ->
  (name = "current_directory" -> ∃ p, v = VPath p) ->
  well_formed (set_key name v st).
Proof.
  intros (Hio & Hu & Hcd & Hl) Hn1 Hn2 Hnu Hncd. unfold well_formed. simpl.
  split; [by rewrite lookup_insert_ne|]. split; [|split].
  - intros x. destruct (decide (name = "user")) as [->|Hne].
    + rewrite lookup_insert_eq. intros [= <-]. by apply Hnu.
    + rewrite lookup_insert_ne by done. apply Hu.
  - intros x. destruct (decide (name = "current_directory")) as [->|Hne].
    + rewrite lookup_insert_eq. intros [= <-]. by apply Hncd.
    + rewrite lookup_insert_ne by done. apply Hcd.
  - rewrite lookup_insert_ne by done. intros Hlog.
    destruct (Hl Hlog) as [Hu' Hcd']. split; apply lookup_insert_is_Some.
    + destruct (decide (name = "user")); [by left|by right].
    + destruct (decide (name = "current_directory")); [by left|by right].
Qed.

Lemma well_formed_setitem name v :
  name ≠ "path_io" -> name ≠ "logged" ->
  (name = "user" -> ∃ u, v = VUser u) ->
  (name = "current_directory" -> ∃ p, v = VPath p) ->
  keeps (World:=World) well_formed (setitem name v).
Proof. intros ? ? ? ? st Hst. by apply well_formed_set. Qed.

Lemma well_formed_pop :
  keeps (World:=World) well_formed (pop "passive_connection").
Proof.
  intros st (Hio & Hu & Hcd & Hl). unfold pop.
  destruct (connection st !! "passive_connection"); simpl; [|done].
  unfold well_formed. simpl. by rewrite !lookup_delete_ne.
Qed.

Lemma well_formed_login (u : User) st :
  well_formed st ->
  well_formed (set_key "user" (VUser u)
                 (set_key "current_directory" (VPath (home_path u))
                    (set_key "logged" (VBool true) st))).
Proof.
  intros (Hio & _). unfold well_formed. simpl.
  split; [by simplify_map_eq|]. split; [|split].
  - intros v Hv. simplify_map_eq. by eexists.
  - intros v Hv. simplify_map_eq. by eexists.
  - intros _. split; eexists; by simplify_map_eq.
Qed.

Ltac well_formed_side :=
  first [ exact well_formed_connection
        | exact well_formed_login
        | exact well_formed_pop
        | intros; apply well_formed_setitem; try done; intros; by eexists ].

(** Every handler, the background writer and the accept callback leave a
    well-formed connection well formed. *)
Lemma well_formed_handler self cmd rest :
  keeps well_formed (handler env self cmd rest).
Proof. apply kept_handler; well_formed_side. Qed.

Lemma well_formed_mlsd_writer self path_io real_path :
  keeps well_formed (mlsd_writer env self path_io real_path).
Proof. apply kept_mlsd_writer; well_formed_side. Qed.

Lemma well_formed_pasv_handler reader writer :
  keeps (World:=World) well_formed (pasv_handler reader writer).
Proof. apply kept_pasv_handler; well_formed_side. Qed.

(** On a well-formed connection the handlers that touch neither the file
    system nor the sockets always answer with a reply tuple. *)
Lemma handler_replies self cmd rest st :
  well_formed st ->
  cmd = GREETING ∨ cmd = USER ∨ cmd = PASS ∨ cmd = QUIT ∨ cmd = PWD ∨ cmd = TYPE ->
  ∃ ok code lines list st',
    handler env self cmd rest st = (Done (Reply ok code lines list), st').
Proof.
  intros (Hio & Hu & Hcd & Hl) Hcmd.
  destruct Hcmd as [->|[->|[->|[->|[->| ->]]]]]; simpl.
  - by eexists _, _, _, _, _.
  - rewrite user_run. destruct (user_scan _ _ _) as [u|]; [|by eexists _, _, _, _, _].
    destruct (is_None (login u)); by eexists _, _, _, _, _.
  - unfold pass_, user_required.
    destruct (connection st !! "user") as [v|] eqn:Hv.
    + destruct (Hu v eq_refl) as [u ->].
      rewrite fields_required_pass.
      * unfold unpack_keywords, unpack, mbind, M_bind, mret, M_ret.
        rewrite (getitem_present _ _ _ Hv). simpl.
        destruct (eq_str (password u) rest); by eexists _, _, _, _, _.
      * intros n m Hin. apply list_elem_of_singleton in Hin.
        injection Hin as -> ->. by eexists.
    + eexists _, _, _, _, _.
      apply (fields_required_missing [] "user" "no user (use USER firstly)" []);
        [|done].
      intros n m Hin. by apply elem_of_nil in Hin.
  - by eexists _, _, _, _, _.
  - unfold pwd. destruct (connection st !! "logged") as [v|] eqn:Hv.
    + destruct (Hl ltac:(by eexists)) as [_ [cd Hcd']].
      destruct (Hcd cd Hcd') as [p ->].
      rewrite login_required_pass by (by eexists).
      unfold unpack_keywords, unpack, mbind, M_bind, mret, M_ret.
      rewrite (getitem_present _ _ _ Hcd'). simpl. by eexists _, _, _, _, _.
    + eexists _, _, _, _, _.
      apply (fields_required_missing [] "logged" "not logged in" []); [|done].
      intros n m Hin. by apply elem_of_nil in Hin.
  - unfold type. destruct (connection st !! "logged") as [v|] eqn:Hv.
    + rewrite login_required_pass by (by eexists).
      unfold mbind, M_bind, mret, M_ret.
      destruct (String.eqb rest "I"); simpl; by eexists _, _, _, _, _.
    + eexists _, _, _, _, _.
      apply (fields_required_missing [] "logged" "not logged in" []); [|done].
      intros n m Hin. by apply elem_of_nil in Hin.
Qed.

End well_formed_kept.

(** ** Path resolution succeeds on rooted current directories *)

Lemma of_str_shape (s : string) :
  ∃ root comps,
    of_str s = {| p_root := root;
                  p_parts := (if nonempty root then [root] else []) ++ comps |} ∧
    (root = "" ∨ root = "/" ∨ root = "//").
Proof.
  unfold of_str, splitroot. destruct s as [|c s].
  - eexists "", _. split; [reflexivity|]. by left.
  - destruct (Ascii.eqb c "/").
    + destruct (Nat.eqb _ 2).
      * eexists "//", _. split; [reflexivity|]. right. by right.
      * eexists "/", _. split; [reflexivity|]. right. by left.
    + eexists "", _. split; [reflexivity|]. by left.
Qed.

Section resolution.
Context {World : Type}.
Implicit Types (st : State World) (self : Server).

(** With a user selected and a current directory rooted at ["/"], every
    string argument that does not begin with exactly two slashes resolves:
    an absolute argument is the virtual path itself, a relative one is
    joined to the current directory, and the real path is the virtual one
    re-rooted at the user's base. *)
Lemma get_paths_resolves self s st u names :
  connection st !! "user" = Some (VUser u) ->
  connection st !! "current_directory"
  = Some (VPath {| p_root := "/"; p_parts := "/" :: names |}) ->
  p_root (of_str s) ≠ "//" ->
  ∃ comps,
    fst (get_paths self (PStr s) st)
    = Done (truediv (base_path u) {| p_root := ""; p_parts := comps |},
            {| p_root := "/"; p_parts := "/" :: comps |}).
Proof.
  intros Hu Hcd Hroot.
  unfold get_paths, unpack_keywords, unpack, mbind, M_bind, mret, M_ret.
  rewrite (getitem_present _ _ _ Hu). simpl.
  destruct (of_str_shape s) as (root & comps & Hs & Hcase).
  rewrite Hs in *. simpl in Hroot. unfold is_absolute. simpl.
  destruct Hcase as [->| [->| ->]]; [| |done]; simpl.
  - rewrite (getitem_present _ _ _ Hcd). simpl. by exists (names ++ comps).
  - by exists comps.
Qed.

End resolution.

(** ** The gates as the handlers wear them *)

Section gated_handlers.
Context {World : Type} (env : Env World).
Implicit Types (st : State World) (self : Server).

(** The commands decorated with [login_required]. *)
Lemma handler_needs_login self cmd rest st :
  connection st !! "logged" = None ->
  cmd ≠ GREETING -> cmd ≠ USER -> cmd ≠ PASS -> cmd ≠ QUIT ->
  handler env self cmd rest st = (Done (bad_sequence "not logged in"), st).
Proof.
  intros Hl Hg Hu Hp Hq.
  destruct cmd; try done; simpl;
    apply (fields_required_missing [] "logged" "not logged in" []); try done;
    intros n m Hin; by apply elem_of_nil in Hin.
Qed.

(** [PASS] is decorated with [user_required]. *)
Lemma handler_pass_needs_user self rest st :
  connection st !! "user" = None ->
  handler env self PASS rest st
  = (Done (bad_sequence "no user (use USER firstly)"), st).
Proof.
  intros Hu. simpl.
  apply (fields_required_missing [] "user" "no user (use USER firstly)" []);
    [|done].
  intros n m Hin. by apply elem_of_nil in Hin.
Qed.

(** [MLSD] is decorated with [login_required] and then
    [passive_required]. *)
Lemma handler_mlsd_needs_passive self rest st :
  authenticated st ->
  (connection st !! "passive_server" = None ->
   handler env self MLSD rest st
   = (Done (bad_sequence "no listen socket created (use PASV firstly)"), st)) ∧
  (is_Some (connection st !! "passive_server") ->
   connection st !! "passive_connection" = None ->
   handler env self MLSD rest st
   = (Done (bad_sequence "no passive connection created (connect firstly)"), st)).
Proof.
  intros Hl. simpl. unfold mlsd. rewrite login_required_pass by done. split.
  - intros Hs.
    apply (fields_required_missing [] "passive_server"
             "no listen socket created (use PASV firstly)" [_]); [|done].
    intros n m Hin. by apply elem_of_nil in Hin.
  - intros Hs Hc.
    apply (fields_required_missing [_] "passive_connection"
             "no passive connection created (connect firstly)" []); [|done].
    intros n m Hin. apply list_elem_of_singleton in Hin. by injection Hin as -> ->.
Qed.

End gated_handlers.

(** ** The dispatcher: what reaches the wire *)

Section dispatching.
Context {World : Type} (env : Env World).
Implicit Types (st : State World) (self : Server).

Lemma write_response_plain reader writer code lines body tail st :
  wrap_with_container lines = body ++ [tail] ->
  write_response reader writer code lines false st
  = (Done tt,
     add_wire (map (fun l => Write writer ((code +:+ "-" +:+ l) +:+ CRLF)) body
               ++ [Write writer ((code +:+ " " +:+ tail) +:+ CRLF)]) st).
Proof.
  intros Hl. unfold write_response. rewrite Hl, unpack_body_tail_app.
  unfold mbind, M_bind. by rewrite for_write_lines, write_line_run, add_wire_app.
Qed.

Lemma write_response_multi reader writer code lines head body tail st :
  wrap_with_container lines = head :: body ++ [tail] ->
  write_response reader writer code lines true st
  = (Done tt,
     add_wire (Write writer ((code +:+ "-" +:+ head) +:+ CRLF)
               :: map (fun l => Write writer ((" " +:+ l) +:+ CRLF)) body
               ++ [Write writer ((code +:+ " " +:+ tail) +:+ CRLF)]) st).
Proof.
  intros Hl. unfold write_response. rewrite Hl. simpl.
  rewrite unpack_body_tail_app. unfold mbind, M_bind.
  by rewrite write_line_run, for_write_lines, write_line_run, !add_wire_app.
Qed.

(** X1. When the method found for a command returns a tuple
    [(ok, code, text)] with a single string, the dispatcher writes the one
    line [code text CRLF] to the command writer, after whatever the
    method did, and the loop goes on exactly when [ok] is true.  The
    command [pass] is looked up as [pass_]. *)
Theorem dispatch_single_line getattr_ reader writer cmd rest ok0 method
    ok code text st st' :
  getattr_ (if String.eqb cmd "pass" then "pass_" else cmd) = Some method ->
  method rest st = (Done (Reply ok code (IStr text) None), st') ->
  dispatch_command getattr_ reader writer cmd rest ok0 st
  = (Done ok, add_wire [Write writer ((code +:+ " " +:+ text) +:+ CRLF)] st').
Proof.
  intros Hget Hrun. unfold dispatch_command. rewrite Hget.
  unfold mbind at 1, M_bind at 1. rewrite Hrun.
  unfold mbind, M_bind.
  by rewrite (write_response_plain reader writer code (IStr text) [] text st').
Qed.

(** X2. For a command under which the server object has no attribute the
    dispatcher writes [502 '<cmd>' not implemented], changes nothing else
    and leaves the loop flag as it was. *)
Theorem dispatch_unknown_command getattr_ reader writer cmd rest ok st :
  getattr_ (if String.eqb cmd "pass" then "pass_" else cmd) = None ->
  dispatch_command getattr_ reader writer cmd rest ok st
  = (Done ok,
     add_wire [Write writer
                 (("502" +:+ " " +:+ "'"
                   +:+ (if String.eqb cmd "pass" then "pass_" else cmd)
                   +:+ "' not implemented") +:+ CRLF)] st).
Proof.
  intros Hget. unfold dispatch_command. rewrite Hget.
  unfold mbind, M_bind.
  erewrite (write_response_plain _ _ _ _ []); [reflexivity|reflexivity].
Qed.

(** X3. In an authenticated connection each of the reserved commands
    ([rnfr], [rnto], [dele], [stor], [retr], [abor]) returns [None]; the
    dispatcher cannot unpack it and raises [TypeError] with nothing
    written and the state as it was. *)
Theorem dispatch_reserved_command_raises getattr_ reader writer self cmd name
    rest ok st :
  authenticated st ->
  (cmd, name) ∈ [(RNFR, "rnfr"); (RNTO, "rnto"); (DELE, "dele");
                 (STOR, "stor"); (RETR, "retr"); (ABOR, "abor")] ->
  getattr_ name = Some (handler env self cmd) ->
  dispatch_command getattr_ reader writer name rest ok st
  = (Raise (TypeError "'NoneType' object is not iterable"), st).
Proof.
  intros Hauth Hin Hget.
  assert (Hstub : handler env self cmd rest st = (Done PyNone, st)).
  { repeat (apply elem_of_cons in Hin as [[= -> ->]|Hin]);
      try (by apply elem_of_nil in Hin);
      simpl; unfold rnfr, rnto, dele, stor, retr, abor, stub;
      by rewrite login_required_pass. }
  assert (Hname : (if String.eqb name "pass" then "pass_" else name) = name).
  { repeat (apply elem_of_cons in Hin as [[= -> ->]|Hin]);
      try (by apply elem_of_nil in Hin); done. }
  unfold dispatch_command. rewrite Hname, Hget.
  unfold mbind, M_bind. by rewrite Hstub.
Qed.

End dispatching.

(** ** What the handlers leave alone *)

Section footprint.
Context {World : Type} (env : Env World).
Context {X : Type} (f : State World -> X).
Implicit Types (st : State World) (self : Server).

Lemma preserves_bind {A B : Type} (m : M World A) (k : A -> M World B) :
  preserves f m -> (∀ a, preserves f (k a)) -> preserves f (m ≫= k).
Proof.
  intros Hm Hk st. unfold mbind, M_bind. specialize (Hm st).
  destruct (m st) as [[a|e] st1]; simpl in *; [by rewrite Hk|done].
Qed.

Lemma preserves_same {A : Type} (m : M World A) :
  (∀ st, snd (m st) = st) -> preserves f m.
Proof. intros Hm st. by rewrite Hm. Qed.

Lemma preserves_ret {A : Type} (a : A) : preserves f (mret a).
Proof. by apply preserves_same. Qed.

Lemma preserves_raise {A : Type} e : preserves f (raise (A:=A) e).
Proof. by apply preserves_same. Qed.

Lemma preserves_lift {A : Type} (o : outcome A) : preserves f (lift o).
Proof. by apply preserves_same. Qed.

Lemma preserves_contains name : preserves f (contains name).
Proof. by apply preserves_same. Qed.

Lemma preserves_getitem name : preserves f (getitem name).
Proof. apply preserves_same. intros st. unfold getitem. by destruct (_ !! _). Qed.

Lemma preserves_ask {A : Type} (q : World -> A) : preserves f (ask q).
Proof. by apply preserves_same. Qed.

Lemma preserves_query {A : Type} (q : World -> outcome A) : preserves f (query q).
Proof. by apply preserves_same. Qed.

Lemma preserves_get_paths self path : preserves f (get_paths self path).
Proof. apply preserves_same. apply get_paths_state. Qed.

Lemma preserves_setitem name v :
  (∀ st, f (set_key name v st) = f st) -> preserves f (setitem name v).
Proof. intros H st. apply H. Qed.

Lemma preserves_emit e :
  (∀ st, f (add_wire [e] st) = f st) -> preserves f (emit e).
Proof. intros H st. apply H. Qed.

Lemma preserves_spawn t :
  (∀ st, f (mkState (connection st) (world st) (wire st) (tasks st ++ [t])) = f st) ->
  preserves f (spawn t).
Proof. intros H st. apply H. Qed.

Lemma preserves_call {A : Type} (g : World -> outcome A * World) :
  (∀ st w, f (mkState (connection st) w (wire st) (tasks st)) = f st) ->
  preserves f (call g).
Proof. intros H st. unfold call. destruct (g (world st)). apply H. Qed.

Lemma preserves_try_rmdir real_path :
  (∀ st w, f (mkState (connection st) w (wire st) (tasks st)) = f st) ->
  preserves f (try_rmdir env real_path).
Proof.
  intros H st. unfold try_rmdir.
  pose proof (preserves_call (path_io_rmdir env real_path) H st) as Hc.
  destruct (call _ st) as [[?|[]] ?]; done.
Qed.

Lemma preserves_first_missing fields : preserves f (first_missing fields).
Proof.
  induction fields as [|[n m] fields IH]; simpl; [apply preserves_ret|].
  apply preserves_bind; [apply preserves_contains|].
  intros []; [done|apply preserves_ret].
Qed.

Lemma preserves_fields_required {R : Type} fields
    (g : R -> M World pyret) rest :
  preserves f (g rest) -> preserves f (fields_required fields g rest).
Proof.
  intros Hg. unfold fields_required.
  apply preserves_bind; [apply preserves_first_missing|].
  intros [message|]; [apply preserves_ret|done].
Qed.

Lemma preserves_unpack names : preserves f (unpack names).
Proof.
  induction names as [|n names IH]; simpl; [apply preserves_ret|].
  apply preserves_bind; [apply preserves_getitem|]. intros v.
  apply preserves_bind; [done|]. intros vs. apply preserves_ret.
Qed.

Lemma preserves_unpack_keywords {R A : Type} names
    (g : list value -> R -> M World A) rest :
  (∀ kw, preserves f (g kw rest)) -> preserves f (unpack_keywords names g rest).
Proof.
  intros Hg. unfold unpack_keywords.
  apply preserves_bind; [apply preserves_unpack|done].
Qed.

Lemma preserves_for {A : Type} (l : list A) (body : A -> M World unit) :
  (∀ x, preserves f (body x)) -> preserves f (for_ l body).
Proof.
  intros Hbody. induction l as [|x l IH]; simpl; [apply preserves_ret|].
  apply preserves_bind; [apply Hbody|by intros _].
Qed.

End footprint.

(** One step through a handler; [side] settles what an update of the
    state does to the observation. *)
Ltac preserves_step side :=
  first
    [ apply preserves_ret | apply preserves_raise | apply preserves_lift
    | apply preserves_contains | apply preserves_getitem | apply preserves_ask
    | apply preserves_query | apply preserves_get_paths
    | apply preserves_setitem; side
    | apply preserves_emit; side
    | apply preserves_spawn; side
    | apply preserves_call; side
    | apply preserves_try_rmdir; side
    | apply preserves_fields_required
    | apply preserves_unpack_keywords; intros ?
    | apply preserves_for; intros ?
    | apply preserves_bind; [|intros ?]
    | match goal with
      | |- preserves _ (match ?x with _ => _ end) => destruct x
      end
    | progress unfold as_user, as_path, as_path_io, as_streams, as_server ].

Ltac preserves_all side :=
  unfold user_required, login_required, passive_required, bad_keywords,
         as_user, as_path, as_path_io, as_streams, as_server, write_line;
  repeat preserves_step side.

Ltac unfold_handlers :=
  unfold greeting, user, pass_, quit, pwd, cwd, cdup, mkd, rmd, mlsd, mlst,
         rnfr, rnto, dele, stor, retr, abor, stub, type, pasv.

Section handler_footprint.
Context {World : Type} (env : Env World).
Implicit Types (st : State World) (self : Server).

(** X4. No handler writes to a socket: whatever a handler does, by return
    or by exception, the events on the wire are those that were there.
    The reply a handler returns is written by the dispatcher; the
    background [mlsd_writer], which is no handler, writes its own. *)
Theorem handlers_never_write self cmd rest st :
  wire (snd (handler env self cmd rest st)) = wire st.
Proof.
  revert st. change (preserves wire (handler env self cmd rest)).
  destruct cmd; simpl; unfold_handlers; unfold cwd;
    preserves_all ltac:(intros; reflexivity).
Qed.

(** X5. Only [mkd], [rmd] and [pasv] act on the world outside the
    connection; every other handler leaves the file system and the
    sockets as they were.  Only [mlsd] hands a task to the event loop. *)
Theorem handlers_read_only self cmd rest st :
  (cmd ≠ MKD -> cmd ≠ RMD -> cmd ≠ PASV ->
   world (snd (handler env self cmd rest st)) = world st) ∧
  (cmd ≠ MLSD -> tasks (snd (handler env self cmd rest st)) = tasks st).
Proof.
  split.
  - intros H1 H2 H3. revert st.
    change (preserves world (handler env self cmd rest)).
    destruct cmd; try done; simpl; unfold_handlers; unfold cwd;
      preserves_all ltac:(intros; reflexivity).
  - intros H1. revert st.
    change (preserves tasks (handler env self cmd rest)).
    destruct cmd; try done; simpl; unfold_handlers; unfold cwd;
      preserves_all ltac:(intros; reflexivity).
Qed.

Lemma handler_preserves_key self cmd rest key :
  writes cmd key = false ->
  preserves (fun st => connection st !! key) (handler env self cmd rest).
Proof.
  intros Hw.
  destruct cmd; simpl in Hw;
    repeat (apply orb_false_iff in Hw as [Hw ?]);
    repeat match goal with
           | H : bool_decide _ = false |- _ => apply bool_decide_eq_false in H
           end;
    simpl; unfold_handlers; unfold cwd;
    preserves_all ltac:(intros; simpl;
                        first [reflexivity | apply lookup_insert_ne; congruence]).
Qed.

(** X6. A handler changes no key of the connection but those it assigns
    to: [user] and [pass_] may set [logged], [current_directory] and
    [user]; [cwd] and [cdup] may set [current_directory]; [type] may set
    [transfer_type]; [pasv] may set [passive_server]; the other handlers
    change no key.  The keys the dispatcher filled in, and
    [passive_connection], are changed by no handler. *)
Theorem handlers_write_set self cmd rest st key :
  (writes cmd key = false ->
   connection (snd (handler env self cmd rest st)) !! key
   = connection st !! key) ∧
  (key ∈ "passive_connection" :: dispatcher_keys ->
   connection (snd (handler env self cmd rest st)) !! key
   = connection st !! key).
Proof.
  split.
  - intros Hw. by apply (handler_preserves_key self cmd rest key Hw st).
  - intros Hin.
    assert (Hw : writes cmd key = false).
    { unfold dispatcher_keys in Hin.
      repeat (apply elem_of_cons in Hin as [->|Hin]); try by destruct cmd.
      by apply elem_of_nil in Hin. }
    by apply (handler_preserves_key self cmd rest key Hw st).
Qed.

End handler_footprint.

(** ** Logging in *)

Section logging_in.
Context {World : Type} (env : Env World).
Implicit Types (st : State World) (self : Server).

Lemma pass_run self rest st u :
  connection st !! "user" = Some (VUser u) ->
  pass_ self rest st =
  if eq_str (password u) rest
  then (Done (Reply true "230" (IStr "normal login") None),
        set_key "user" (VUser u)
          (set_key "current_directory" (VPath (home_path u))
             (set_key "logged" (VBool true) st)))
  else (Done (Reply true "530" (IStr "wrong password") None), st).
Proof.
  intros Hu. unfold pass_, user_required.
  rewrite fields_required_pass.
  - unfold unpack_keywords, unpack, mbind, M_bind, mret, M_ret.
    rewrite (getitem_present _ _ _ Hu). simpl.
    by destruct (eq_str (password u) rest).
  - intros n m Hin. apply list_elem_of_singleton in Hin.
    injection Hin as -> ->. by eexists.
Qed.

Lemma eq_str_true (o : option string) (rest : string) :
  eq_str o rest = true <-> o = Some rest.
Proof.
  destruct o as [s|]; simpl; [|done].
  rewrite String.eqb_eq. split; [by intros ->|by intros [= ->]].
Qed.

Lemma pass_state self rest st :
  snd (pass_ self rest st) = st ∨
  ∃ u, connection st !! "user" = Some (VUser u) ∧ password u = Some rest.
Proof.
  destruct (connection st !! "user") as [v|] eqn:Hv.
  - destruct v as [| | | | |u| | | |];
      try (left; unfold pass_, user_required;
           rewrite fields_required_pass;
           [ unfold unpack_keywords, unpack, mbind, M_bind, mret, M_ret;
             by rewrite (getitem_present _ _ _ Hv)
           | intros n m Hin; apply list_elem_of_singleton in Hin;
             injection Hin as -> ->; by eexists ]).
    rewrite (pass_run self rest st u Hv).
    destruct (eq_str (password u) rest) eqn:Hpw; [|by left].
    right. exists u. split; [done|]. by apply eq_str_true.
  - left. unfold pass_, user_required.
    rewrite (fields_required_missing [] "user" "no user (use USER firstly)" []);
      [done| |done].
    intros n m Hin. by apply elem_of_nil in Hin.
Qed.

(** X7. A connection that is not authenticated becomes authenticated in
    two ways only: [user] selecting the anonymous user, or [pass_] with
    the argument equal to the password of the user stored by an earlier
    [user].  No other handler, and no other argument, sets [logged]. *)
Theorem only_login_authenticates self cmd rest st :
  ¬ authenticated st ->
  authenticated (snd (handler env self cmd rest st)) ->
  (cmd = USER ∧
   ∃ u, user_scan (users self) rest None = Some u ∧ login u = None) ∨
  (cmd = PASS ∧
   ∃ u, connection st !! "user" = Some (VUser u) ∧ password u = Some rest).
Proof.
  intros Hno Hyes.
  assert (Hl : connection st !! "logged" = None).
  { destruct (connection st !! "logged") eqn:E; [|done].
    exfalso. apply Hno. unfold authenticated. rewrite E. by eexists. }
  destruct cmd;
    try (exfalso; rewrite (handler_needs_login env self _ rest st Hl) in Hyes
           by done; by apply Hno);
    try (exfalso; by apply Hno).
  - left. split; [done|]. simpl in Hyes. rewrite user_run in Hyes.
    destruct (user_scan (users self) rest None) as [u|]; [|done].
    exists u. split; [done|].
    destruct (login u) as [name|]; [|done]. simpl in Hyes.
    exfalso. apply Hno. unfold authenticated in *. simpl in Hyes.
    by rewrite lookup_insert_ne in Hyes.
  - right. split; [done|]. simpl in Hyes.
    destruct (pass_state self rest st) as [Hsame|Hu]; [|done].
    rewrite Hsame in Hyes. done.
Qed.

(** X8. [USER] for a named user followed by [PASS]: the first reply is
    [331 require password] and does not authenticate; [PASS] with that
    user's password then replies [230 normal login] and leaves [logged]
    set, the user stored and [current_directory] at the user's home;
    [PASS] with any other argument replies [530 wrong password] and
    changes nothing. *)
Theorem user_then_pass self name pw rest st u :
  user_scan (users self) name None = Some u ->
  is_Some (login u) ->
  password u = Some pw ->
  let st1 := snd (user self name st) in
  fst (user self name st) = Done (Reply true "331" (IStr "require password") None) ∧
  (authenticated st1 <-> authenticated st) ∧
  (∃ st2,
     pass_ self pw st1
     = (Done (Reply true "230" (IStr "normal login") None), st2) ∧
     connection st2 !! "logged" = Some (VBool true) ∧
     connection st2 !! "user" = Some (VUser u) ∧
     connection st2 !! "current_directory" = Some (VPath (home_path u))) ∧
  (rest ≠ pw ->
   pass_ self rest st1
   = (Done (Reply true "530" (IStr "wrong password") None), st1)).
Proof.
  intros Hscan [l Hl] Hpw st1. subst st1. rewrite user_run, Hscan, Hl. simpl.
  assert (Hu : connection (set_key "user" (VUser u) st) !! "user"
               = Some (VUser u)) by apply lookup_insert_eq.
  split; [done|]. split; [|split].
  - unfold authenticated. simpl. by rewrite lookup_insert_ne.
  - eexists. rewrite (pass_run self pw _ u Hu), Hpw. simpl.
    rewrite String.eqb_refl. split; [done|]. simpl.
    by simplify_map_eq.
  - intros Hne. rewrite (pass_run self rest _ u Hu), Hpw. simpl.
    destruct (String.eqb_spec pw rest) as [->|]; done.
Qed.

(** X9. A user configured without a password cannot log in: once such a
    user is stored by [user], [pass_] answers [530 wrong password] to
    every argument and changes nothing. *)
Theorem pass_without_password self rest st u :
  connection st !! "user" = Some (VUser u) ->
  password u = None ->
  pass_ self rest st
  = (Done (Reply true "530" (IStr "wrong password") None), st).
Proof.
  intros Hu Hpw. by rewrite (pass_run self rest st u Hu), Hpw.
Qed.

End logging_in.

(** ** MKD and RMD: when the file system is touched *)

Section directories.
Context {World : Type} (env : Env World).
Implicit Types (st : State World) (self : Server).

(** The state once the world has become [w]. *)
Local Abbreviation with_world st w :=
  (mkState (connection st) w (wire st) (tasks st)).

(** X10. In a logged-in connection where the argument resolves to
    [(real, virtual)], [mkd] answers [550 path already exists] for an
    existing path whatever the permissions are; for a new path it answers
    [550 permission denied] without calling [mkdir] when the selected
    permission is not writable, and otherwise calls [mkdir] and answers
    [257]; an exception raised by [mkdir] is not caught and leaves
    [mkd]. *)
Theorem mkd_checks_in_order self rest st v u real virtual :
  connection st !! "logged" = Some v ->
  connection st !! "user" = Some (VUser u) ->
  connection st !! "path_io" = Some VPathIO ->
  fst (get_paths self (PStr rest) st) = Done (real, virtual) ->
  ∃ perm, get_permissions u virtual = Done perm ∧
    mkd env self rest st =
    if path_io_exists env real (world st)
    then (Done (Reply true "550" (IStr "path already exists") None), st)
    else if writable perm
    then match path_io_mkdir env real (world st) with
         | (Done _, w) => (Done (Reply true "257" (IStr "") None), with_world st w)
         | (Raise e, w) => (Raise e, with_world st w)
         end
    else (Done (Reply true "550" (IStr "permission denied") None), st).
Proof.
  intros Hl Hu Hp Hpaths.
  destruct (get_permissions_total u virtual) as (perm & Hperm).
  exists perm. split; [done|]. unfold mkd.
  rewrite login_required_pass by (by eexists).
  unfold unpack_keywords, unpack, mbind, M_bind, mret, M_ret.
  rewrite (getitem_present _ _ _ Hu), (getitem_present _ _ _ Hp). simpl.
  rewrite (get_paths_run _ _ _ _ _ Hpaths). simpl.
  unfold ask. simpl.
  destruct (path_io_exists env real (world st)); simpl; [done|].
  unfold lift. rewrite Hperm. simpl.
  destruct (writable perm); [|done].
  unfold call. by destruct (path_io_mkdir env real (world st)) as [[[]|e] w].
Qed.

Lemma rmd_run self rest st v u real virtual :
  connection st !! "logged" = Some v ->
  connection st !! "user" = Some (VUser u) ->
  connection st !! "path_io" = Some VPathIO ->
  fst (get_paths self (PStr rest) st) = Done (real, virtual) ->
  ∃ perm, get_permissions u virtual = Done perm ∧
    rmd env self rest st =
    if path_io_exists env real (world st) && path_io_is_dir env real (world st)
       && writable perm
    then match path_io_rmdir env real (world st) with
         | (Done _, w) => (Done PyNone, with_world st w)
         | (Raise (OSError _), w) => (Done PyNone, with_world st w)
         | (Raise e, w) => (Raise e, with_world st w)
         end
    else (Done PyNone, st).
Proof.
  intros Hl Hu Hp Hpaths.
  destruct (get_permissions_total u virtual) as (perm & Hperm).
  exists perm. split; [done|]. unfold rmd.
  rewrite login_required_pass by (by eexists).
  unfold unpack_keywords, unpack, mbind, M_bind, mret, M_ret.
  rewrite (getitem_present _ _ _ Hu), (getitem_present _ _ _ Hp). simpl.
  rewrite (get_paths_run _ _ _ _ _ Hpaths). simpl.
  unfold ask. simpl.
  destruct (path_io_exists env real (world st)); simpl; [|done].
  destruct (path_io_is_dir env real (world st)); simpl; [|done].
  unfold lift. rewrite Hperm. simpl.
  destruct (writable perm); [|done].
  unfold try_rmdir, call. simpl.
  by destruct (path_io_rmdir env real (world st)) as [[[]|[]] w].
Qed.

(** X11. In a logged-in connection where the argument resolves, [rmd]
    calls [rmdir] only when the path exists, is a directory and the
    selected permission is writable; in every other case the file system
    is left as it was.  An [OSError] raised by [rmdir] is caught: [rmd]
    then ends normally, with the world as [rmdir] left it. *)
Theorem rmd_guards_and_catches self rest st v u real virtual :
  connection st !! "logged" = Some v ->
  connection st !! "user" = Some (VUser u) ->
  connection st !! "path_io" = Some VPathIO ->
  fst (get_paths self (PStr rest) st) = Done (real, virtual) ->
  ∃ perm, get_permissions u virtual = Done perm ∧
    (path_io_exists env real (world st) && path_io_is_dir env real (world st)
     && writable perm = false ->
     rmd env self rest st = (Done PyNone, st)) ∧
    (∀ strerror w,
       path_io_exists env real (world st) && path_io_is_dir env real (world st)
       && writable perm = true ->
       path_io_rmdir env real (world st) = (Raise (OSError strerror), w) ->
       rmd env self rest st = (Done PyNone, with_world st w)).
Proof.
  intros Hl Hu Hp Hpaths.
  destruct (rmd_run self rest st v u real virtual Hl Hu Hp Hpaths)
    as (perm & Hperm & Hrun).
  exists perm. split; [done|]. split.
  - intros Hguard. by rewrite Hrun, Hguard.
  - intros strerror w Hguard Hrm. by rewrite Hrun, Hguard, Hrm.
Qed.

Lemma returns_no_tuple_bind {A : Type} (m : M World A) (k : A -> M World pyret) :
  (∀ a, returns_no_tuple (k a)) -> returns_no_tuple (m ≫= k).
Proof.
  intros Hk st r st'. unfold mbind, M_bind.
  destruct (m st) as [[a|e] st1]; [apply Hk|discriminate].
Qed.

Lemma rmd_returns_no_tuple self rest st r st' :
  authenticated st -> rmd env self rest st = (Done r, st') -> r = PyNone.
Proof.
  intros Hauth. unfold rmd. rewrite login_required_pass by done.
  clear Hauth. revert st r st'.
  unfold unpack_keywords. apply returns_no_tuple_bind. intros kw.
  destruct kw as [|? [|? [|? ?]]];
    try (intros st r st'; unfold bad_keywords, raise; discriminate).
  apply returns_no_tuple_bind. intros [real virtual].
  apply returns_no_tuple_bind. intros _.
  apply returns_no_tuple_bind. intros [code info].
  intros st r st'. unfold mret, M_ret. by intros [= <- _].
Qed.

(** X12. In an authenticated connection the dispatcher never answers
    [RMD]: whatever the argument and the file system, running the method
    [rmd] ends in an exception (the [TypeError] of unpacking [None], or
    one raised on the way) and not one byte is written. *)
Theorem dispatch_rmd_never_replies getattr_ reader writer self rest ok st :
  authenticated st ->
  getattr_ "rmd" = Some (rmd env self) ->
  ∃ e st',
    dispatch_command getattr_ reader writer "rmd" rest ok st = (Raise e, st') ∧
    wire st' = wire st.
Proof.
  intros Hauth Hget. unfold dispatch_command. simpl. rewrite Hget.
  unfold mbind, M_bind.
  assert (Hwire : wire (snd (rmd env self rest st)) = wire st).
  { revert st Hauth. intros st _. revert st.
    change (preserves wire (rmd env self rest)).
    unfold rmd. preserves_all ltac:(intros; reflexivity). }
  pose proof (rmd_returns_no_tuple self rest st) as Hnone.
  destruct (rmd env self rest st) as [[r|e] st1]; simpl in *.
  - rewrite (Hnone r st1 Hauth eq_refl). by eexists _, _.
  - by eexists _, _.
Qed.

End directories.

(** ** MLST and MLSD *)

Section listings.
Context {World : Type} (env : Env World).
Implicit Types (st : State World) (self : Server).

(** [build_mlsx_string] reads [path_io] and the world and nothing else,
    and changes nothing. *)
Lemma build_mlsx_string_frame self path st st1 :
  connection st1 !! "path_io" = connection st !! "path_io" ->
  world st1 = world st ->
  build_mlsx_string env self path st1
  = (fst (build_mlsx_string env self path st), st1).
Proof.
  intros Hc Hw.
  unfold build_mlsx_string, unpack_keywords, unpack, mbind, M_bind, mret, M_ret.
  unfold getitem. rewrite Hc.
  destruct (connection st !! "path_io") as [v|]; [|done]. simpl.
  destruct v; simpl; try done.
  unfold ask, query. simpl. rewrite Hw.
  destruct (path_io_is_file env path (world st)); simpl; rewrite ?Hw.
  - by destruct (path_io_stat env path (world st)).
  - destruct (path_io_is_dir env path (world st)); simpl; rewrite ?Hw; [|done].
    by destruct (path_io_stat env path (world st)).
Qed.

Lemma build_mlsx_string_state self path st :
  snd (build_mlsx_string env self path st) = st.
Proof. by rewrite (build_mlsx_string_frame self path st st). Qed.

Lemma build_mlsx_string_unknown self path st :
  connection st !! "path_io" = Some VPathIO ->
  path_io_is_file env path (world st) = false ->
  path_io_is_dir env path (world st) = false ->
  fst (build_mlsx_string env self path st)
  = Raise (UnknownPathType (str path)).
Proof.
  intros Hp Hf Hd.
  unfold build_mlsx_string, unpack_keywords, unpack, mbind, M_bind, mret, M_ret.
  rewrite (getitem_present _ _ _ Hp). simpl. unfold ask, query. simpl.
  by rewrite Hf, Hd.
Qed.

(** X13. [build_mlsx_string] with the path-I/O capability in place: a
    path that is neither a file nor a directory raises [UnknownPathType]
    with the text of the path; a file counts as a file even when
    [is_dir] holds too; an exception of [stat] is passed on; otherwise the
    result is a list of facts holding [Type=file;] or [Type=dir;],
    followed by one space and the last component of the path.  The state
    is never changed. *)
Theorem build_mlsx_string_outcomes self path st :
  connection st !! "path_io" = Some VPathIO ->
  snd (build_mlsx_string env self path st) = st ∧
  (path_io_is_file env path (world st) = false ->
   path_io_is_dir env path (world st) = false ->
   fst (build_mlsx_string env self path st)
   = Raise (UnknownPathType (str path))) ∧
  (path_io_is_file env path (world st) || path_io_is_dir env path (world st)
   = true ->
   match path_io_stat env path (world st) with
   | Raise e => fst (build_mlsx_string env self path st) = Raise e
   | Done raw =>
       ∃ before after,
         fst (build_mlsx_string env self path st)
         = Done ((before
                  +:+ (if path_io_is_file env path (world st)
                       then "Type=file;" else "Type=dir;")
                  +:+ after) +:+ " " +:+ name path)
   end).
Proof.
  intros Hp. split; [apply build_mlsx_string_state|].
  unfold build_mlsx_string, unpack_keywords, unpack, mbind, M_bind, mret, M_ret.
  rewrite (getitem_present _ _ _ Hp). simpl. unfold ask, query. simpl.
  split.
  - intros -> ->. done.
  - intros Hkind.
    destruct (path_io_is_file env path (world st)); simpl in *.
    + destruct (path_io_stat env path (world st)) as [raw|e]; simpl; [|done].
      exists "", ("Size=" +:+ st_size raw +:+ ";Modify=" +:+ st_mtime raw
                  +:+ ";Create=" +:+ st_ctime raw +:+ ";").
      do 2 f_equal. by rewrite !append_assoc.
    + rewrite Hkind. simpl.
      destruct (path_io_stat env path (world st)) as [raw|e]; simpl; [|done].
      exists "", ("Size=" +:+ st_size raw +:+ ";Modify=" +:+ st_mtime raw
                  +:+ ";Create=" +:+ st_ctime raw +:+ ";").
      do 2 f_equal. by rewrite !append_assoc.
Qed.

(** X14. In a logged-in connection where the argument resolves to
    [(real, virtual)], [mlst] without a readable permission answers
    [550 permission denied] as a single line; with one it makes no
    existence test and answers the three lines [start], the fact string
    of [real], [end] under code 250 with the multi-line flag set, or
    raises what [build_mlsx_string] raises: [UnknownPathType] for a path
    that is neither a file nor a directory. *)
Theorem mlst_outcomes self rest st v u real virtual :
  connection st !! "logged" = Some v ->
  connection st !! "user" = Some (VUser u) ->
  connection st !! "path_io" = Some VPathIO ->
  fst (get_paths self (PStr rest) st) = Done (real, virtual) ->
  ∃ perm, get_permissions u virtual = Done perm ∧
    mlst env self rest st =
    (if readable perm
     then match fst (build_mlsx_string env self real st) with
          | Done s => (Done (Reply true "250" (IList ["start"; s; "end"])
                               (Some true)), st)
          | Raise e => (Raise e, st)
          end
     else (Done (Reply true "550" (IStr "permission denied") (Some false)), st)) ∧
    (readable perm = true ->
     path_io_is_file env real (world st) = false ->
     path_io_is_dir env real (world st) = false ->
     mlst env self rest st = (Raise (UnknownPathType (str real)), st)).
Proof.
  intros Hl Hu Hp Hpaths.
  destruct (get_permissions_total u virtual) as (perm & Hperm).
  exists perm. split; [done|].
  assert (Hrun : mlst env self rest st =
    if readable perm
    then match fst (build_mlsx_string env self real st) with
         | Done s => (Done (Reply true "250" (IList ["start"; s; "end"])
                              (Some true)), st)
         | Raise e => (Raise e, st)
         end
    else (Done (Reply true "550" (IStr "permission denied") (Some false)), st)).
  { unfold mlst. rewrite login_required_pass by (by eexists).
    unfold unpack_keywords at 1, unpack, mbind, M_bind, mret, M_ret.
    rewrite (getitem_present _ _ _ Hu), (getitem_present _ _ _ Hp). simpl.
    rewrite (get_paths_run _ _ _ _ _ Hpaths). simpl.
    unfold lift. rewrite Hperm. simpl.
    destruct (readable perm); [|done].
    pose proof (build_mlsx_string_state self real st) as Hst.
    destruct (build_mlsx_string env self real st) as [[s|e] st1];
      simpl in *; by subst. }
  split; [done|]. intros Hr Hf Hd. rewrite Hrun, Hr.
  by rewrite (build_mlsx_string_unknown self real st Hp Hf Hd).
Qed.

(** X15. In a connection past both gates of [mlsd], where the argument
    resolves to [(real, virtual)], a readable permission makes [mlsd]
    hand exactly one [mlsd_writer] for [real] to the event loop and
    answer [150] at once, with the connection, the world and the wire
    untouched; nothing is listed or tested before the reply.  Without a
    readable permission it answers [550 permission denied] and starts
    nothing. *)
Theorem mlsd_starts_one_writer self rest st v ps pc pio loop u real virtual :
  connection st !! "logged" = Some v ->
  connection st !! "passive_server" = Some ps ->
  connection st !! "passive_connection" = Some pc ->
  connection st !! "user" = Some (VUser u) ->
  connection st !! "path_io" = Some pio ->
  connection st !! "loop" = Some loop ->
  fst (get_paths self (PStr rest) st) = Done (real, virtual) ->
  ∃ perm, get_permissions u virtual = Done perm ∧
    mlsd self rest st =
    if readable perm
    then (Done (Reply true "150" (IStr "mlsd transer started") None),
          mkState (connection st) (world st) (wire st)
                  (tasks st ++ [MlsdWriter pio real]))
    else (Done (Reply true "550" (IStr "permission denied") None), st).
Proof.
  intros Hl Hps Hpc Hu Hp Hloop Hpaths.
  destruct (get_permissions_total u virtual) as (perm & Hperm).
  exists perm. split; [done|]. unfold mlsd.
  rewrite login_required_pass by (by eexists).
  unfold passive_required. rewrite fields_required_pass.
  - unfold unpack_keywords at 1, unpack, mbind, M_bind, mret, M_ret.
    rewrite (getitem_present _ _ _ Hu), (getitem_present _ _ _ Hp). simpl.
    rewrite (get_paths_run _ _ _ _ _ Hpaths). simpl.
    unfold lift. rewrite Hperm. simpl.
    destruct (readable perm); [|done].
    by rewrite (getitem_present _ _ _ Hloop).
  - intros n m Hin. apply elem_of_cons in Hin as [[= -> ->]|Hin]; [by eexists|].
    apply list_elem_of_singleton in Hin. injection Hin as -> ->. by eexists.
Qed.

End listings.

(** ** The background writer of MLSD *)

Section background_writer.
Context {World : Type} (env : Env World).
Implicit Types (st : State World) (self : Server).

Lemma closing_run {A : Type} writer (body : M World A) st :
  closing writer body st
  = (fst (body st), add_wire [Close writer] (snd (body st))).
Proof. unfold closing. by destruct (body st). Qed.

(** The lines written for the listed paths, one [write] per path. *)
Lemma for_build_run self data_writer paths lines st0 st :
  connection st !! "path_io" = connection st0 !! "path_io" ->
  world st = world st0 ->
  Forall2 (fun p s => fst (build_mlsx_string env self p st0) = Done s)
          paths lines ->
  for_ paths (fun path =>
    s ← build_mlsx_string env self path;
    emit (Write data_writer (s +:+ LF))) st
  = (Done tt, add_wire (map (fun s => Write data_writer (s +:+ LF)) lines) st).
Proof.
  intros Hc Hw Hall. revert st Hc Hw.
  induction Hall as [|p s paths lines Hp _ IH]; intros st Hc Hw; simpl.
  - by rewrite add_wire_nil.
  - unfold mbind, M_bind.
    rewrite (build_mlsx_string_frame env self p st0 st Hc Hw), Hp. simpl.
    change (emit (Write data_writer (s +:+ LF)) st)
      with (Done tt, add_wire [Write data_writer (s +:+ LF)] st).
    simpl. etransitivity.
    { apply (IH (add_wire [Write data_writer (s +:+ LF)] st)); done. }
    by rewrite add_wire_app.
Qed.

(** The last statements of [mlsd_writer]: the final reply on the command
    connection.  They only add to the wire. *)
Lemma mlsd_writer_tail st :
  ∃ o es,
    (command_connection ← getitem "command_connection";
     '(reader, writer) ← as_streams command_connection;
     write_response reader writer "200" (IStr "mlsd data transer done") false) st
    = (o, add_wire es st).
Proof.
  unfold mbind, M_bind, getitem.
  destruct (connection st !! "command_connection") as [v|].
  - destruct v;
      try (simpl; eexists _, []; by rewrite add_wire_nil).
    cbn -[write_response]. eexists _, _.
    by erewrite (write_response_plain _ _ _ _ []).
  - eexists _, []. by rewrite add_wire_nil.
Qed.

Lemma mlsd_writer_body_frame self (path_io : value) real_path data_writer st :
  let body :=
    (as_path_io path_io ;;
     paths ← query (path_io_list env real_path);
     for_ paths (fun path =>
       s ← build_mlsx_string env self path;
       emit (Write data_writer (s +:+ LF)))) in
  connection (snd (body st)) = connection st ∧
  world (snd (body st)) = world st ∧
  tasks (snd (body st)) = tasks st.
Proof.
  intros body.
  assert (H : preserves (fun st => (connection st, world st, tasks st)) body).
  { unfold body. preserves_all ltac:(intros; reflexivity). }
  specialize (H st). by injection H.
Qed.

(** X16. The data connection is used once and always closed: when
    [mlsd_writer] starts with a pair stored under [passive_connection],
    then however it ends (listing or [stat] may raise) the key is gone
    from the connection and nothing else in it has changed, the data
    writer has been closed, and the world and the task list are as they
    were; a writer started after it finds no connection and raises
    [KeyError]. *)
Theorem mlsd_writer_consumes_and_closes self path_io real_path st
    data_reader data_writer :
  connection st !! "passive_connection"
  = Some (VStreams data_reader data_writer) ->
  let st' := snd (mlsd_writer env self path_io real_path st) in
  connection st' = delete "passive_connection" (connection st) ∧
  Close data_writer ∈ wire st' ∧
  world st' = world st ∧ tasks st' = tasks st ∧
  ∀ path_io' real_path',
    mlsd_writer env self path_io' real_path' st'
    = (Raise (KeyError "passive_connection"), st').
Proof.
  intros Hpc st'.
  assert (Hshape :
    ∃ o st'', mlsd_writer env self path_io real_path st = (o, st'') ∧
      connection st'' = delete "passive_connection" (connection st) ∧
      Close data_writer ∈ wire st'' ∧
      world st'' = world st ∧ tasks st'' = tasks st).
  { unfold mlsd_writer.
    unfold mbind at 1, M_bind at 1. unfold pop at 1. rewrite Hpc.
    unfold mbind at 1, M_bind at 1.
    unfold as_streams at 1, mret at 1, M_ret at 1. cbv beta iota.
    unfold mbind at 1, M_bind at 1. rewrite closing_run.
    set (st0 := mkState (delete "passive_connection" (connection st))
                        (world st) (wire st) (tasks st)).
    destruct (mlsd_writer_body_frame self path_io real_path data_writer st0)
      as (Hc & Hw & Ht).
    match goal with
    | |- context [fst (?b st0)] => set (body := b) in *
    end.
    destruct (body st0) as [[[]|e] st1] eqn:Hbody;
      simpl in Hc, Hw, Ht; cbn [fst snd].
    - destruct (mlsd_writer_tail (add_wire [Close data_writer] st1))
        as (o & es & Htail).
      rewrite Htail. eexists _, _. split; [reflexivity|].
      simpl. repeat split; try done.
      rewrite !elem_of_app. left. right. apply list_elem_of_here.
    - eexists _, _. split; [reflexivity|].
      simpl. repeat split; try done.
      rewrite elem_of_app. right. apply list_elem_of_here. }
  destruct Hshape as (o & st'' & Hrun & Hc & Hclose & Hw & Ht).
  subst st'. rewrite Hrun. simpl.
  repeat split; try done.
  intros path_io' real_path'. unfold mlsd_writer.
  unfold mbind at 1, M_bind at 1. unfold pop.
  by rewrite Hc, lookup_delete_eq.
Qed.

(** X17. When the listing and every fact string succeed, [mlsd_writer]
    writes one line per listed path to the data writer, each ended by a
    line feed, then closes the data writer, then writes
    [200 mlsd data transer done] with CRLF to the command writer; the
    stored data connection is removed. *)
Theorem mlsd_writer_success self real_path st data_reader data_writer
    reader writer paths lines :
  connection st !! "passive_connection"
  = Some (VStreams data_reader data_writer) ->
  connection st !! "path_io" = Some VPathIO ->
  connection st !! "command_connection" = Some (VStreams reader writer) ->
  path_io_list env real_path (world st) = Done paths ->
  Forall2 (fun p s => fst (build_mlsx_string env self p st) = Done s)
          paths lines ->
  mlsd_writer env self VPathIO real_path st
  = (Done tt,
     mkState (delete "passive_connection" (connection st)) (world st)
             (wire st
              ++ map (fun s => Write data_writer (s +:+ LF)) lines
              ++ [Close data_writer;
                  Write writer ("200 mlsd data transer done" +:+ CRLF)])
             (tasks st)).
Proof.
  intros Hpc Hp Hcc Hlist Hall. unfold mlsd_writer.
  unfold mbind at 1, M_bind at 1. unfold pop at 1. rewrite Hpc.
  unfold mbind at 1, M_bind at 1.
  unfold as_streams at 1, mret at 1, M_ret at 1. cbv beta iota.
  unfold mbind at 1, M_bind at 1. rewrite closing_run.
  set (st0 := mkState (delete "passive_connection" (connection st))
                      (world st) (wire st) (tasks st)).
  assert (Hbody :
    (as_path_io VPathIO ;;
     paths ← query (path_io_list env real_path);
     for_ paths (fun path =>
       s ← build_mlsx_string env self path;
       emit (Write data_writer (s +:+ LF)))) st0
    = (Done tt,
       add_wire (map (fun s => Write data_writer (s +:+ LF)) lines) st0)).
  { unfold mbind at 1, M_bind at 1. simpl.
    unfold mbind at 1, M_bind at 1. unfold query. simpl. rewrite Hlist.
    apply (for_build_run self data_writer paths lines st); [|done|done].
    simpl. by rewrite lookup_delete_ne. }
  rewrite Hbody. cbn [fst snd].
  unfold mbind at 1, M_bind at 1, getitem at 1. simpl connection.
  rewrite lookup_delete_ne by done. rewrite Hcc.
  unfold mbind at 1, M_bind at 1.
  unfold as_streams at 1, mret at 1, M_ret at 1. cbv beta iota.
  erewrite (write_response_plain _ _ _ _ []); [|reflexivity].
  unfold add_wire, st0. simpl. do 2 f_equal.
  by rewrite <- !app_assoc.
Qed.

End background_writer.

(** ** The passive listener *)

Section passive.
Context {World : Type} (env : Env World).
Implicit Types (st : State World) (self : Server).

(** X18. The first data connection wins: an accept on a connection with
    nothing under [passive_connection] stores the pair; an accept that
    finds a pair stored closes the newcomer's writer and leaves the
    connection as it is.  So of two accepts in a row the first pair is
    kept and the second writer is closed. *)
Theorem accept_first_wins reader writer reader2 writer2 st :
  connection st !! "passive_connection" = None ->
  pasv_handler reader writer st
  = (Done tt, set_key "passive_connection" (VStreams reader writer) st) ∧
  pasv_handler reader2 writer2
    (set_key "passive_connection" (VStreams reader writer) st)
  = (Done tt,
     add_wire [Close writer2]
       (set_key "passive_connection" (VStreams reader writer) st)).
Proof.
  intros Hnone. unfold pasv_handler, mbind, M_bind, contains. split.
  - rewrite Hnone. rewrite bool_decide_false by (by intros [? ?]). done.
  - simpl. rewrite lookup_insert_eq.
    rewrite bool_decide_true by (by eexists). done.
Qed.

Lemma pasv_first_run self rest st r st1 :
  authenticated st ->
  pasv env self rest st = (Done r, st1) ->
  ∃ listener octets message,
    connection st1 !! "passive_server" = Some (VServer listener) ∧
    authenticated st1 ∧
    map_int (str_split "." (sock_host listener)) = Done octets ∧
    r = Reply true "227"
          (IList [message;
                  pasv_text (octets ++ [Z.shiftr (sock_port listener) 8;
                                        Z.land (sock_port listener) 255])])
          None.
Proof.
  intros Hauth. unfold pasv. rewrite login_required_pass by done.
  unfold mbind at 1, M_bind at 1. unfold contains.
  destruct (connection st !! "passive_server") as [ps|] eqn:Hps.
  - rewrite bool_decide_true by (by eexists). simpl.
    unfold mbind at 1, M_bind at 1, mret at 1, M_ret at 1.
    destruct ps as [| | | | | | |listener| |];
      try (unfold mbind, M_bind; rewrite (getitem_present _ _ _ Hps);
           simpl; discriminate).
    intros Hrun.
    apply (pasv_tail_run self st _ listener) in Hrun
      as (-> & octets & Hoct & ->); [|done].
    by exists listener, octets, "listen socket already exists".
  - rewrite bool_decide_false by (by intros [? ?]). simpl.
    unfold mbind at 1, M_bind at 1.
    unfold mbind at 1, M_bind at 1.
    unfold getitem at 1.
    destruct (connection st !! "server_host") as [server_host|]; [|discriminate].
    unfold mbind at 1, M_bind at 1. unfold call.
    destruct (net_start_server env server_host (world st)) as [[listener|e] w];
      [|discriminate].
    unfold mbind at 1, M_bind at 1, setitem at 1, mret at 1, M_ret at 1.
    intros Hrun.
    apply (pasv_tail_run self _ _ listener) in Hrun
      as (-> & octets & Hoct & ->); [|by apply lookup_insert_eq].
    exists listener, octets, "listen socket created".
    split; [by apply lookup_insert_eq|]. split; [|done].
    unfold authenticated in *. simpl. by rewrite lookup_insert_ne.
Qed.

(** X19. [PASV] is idempotent: after a first reply of [pasv] in an
    authenticated connection, a second [pasv] starts no other listener,
    changes nothing, and answers [listen socket already exists] followed
    by the very text the first reply advertised. *)
Theorem pasv_twice_same_address self rest rest2 st ok code message text list st1 :
  authenticated st ->
  pasv env self rest st = (Done (Reply ok code (IList [message; text]) list), st1) ->
  pasv env self rest2 st1
  = (Done (Reply true "227" (IList ["listen socket already exists"; text]) None),
     st1).
Proof.
  intros Hauth Hrun.
  destruct (pasv_first_run self rest st _ st1 Hauth Hrun)
    as (listener & octets & m & Hps & Hauth1 & Hoct & [= -> -> -> -> ->]).
  unfold pasv. rewrite login_required_pass by done.
  unfold mbind, M_bind, contains. rewrite Hps.
  rewrite bool_decide_true by (by eexists). simpl.
  rewrite (getitem_present _ _ _ Hps). simpl.
  unfold lift, pasv_nums. by rewrite Hoct.
Qed.

End passive.

(** ** Path resolution is lexical *)

Section lexical.
Context {World : Type}.
Implicit Types (st : State World) (self : Server).

(** X20. With a user selected and the current directory rooted at ["/"],
    [get_paths] joins a relative argument to the current directory, takes
    an argument rooted at ["/"] as it is, whatever the current directory,
    and raises [ValueError] for an argument that begins with exactly two
    slashes.  Components are taken as written: [".."] is one of them and
    is never resolved against the directory before it.  The real path is
    the user's base followed by the components of the virtual path. *)
Theorem get_paths_is_lexical self s st u names :
  connection st !! "user" = Some (VUser u) ->
  connection st !! "current_directory"
  = Some (VPath {| p_root := "/"; p_parts := "/" :: names |}) ->
  is_component ".." = true ∧
  match p_root (of_str s) with
  | "" =>
      fst (get_paths self (PStr s) st)
      = Done (truediv (base_path u)
                {| p_root := ""; p_parts := names ++ p_parts (of_str s) |},
              {| p_root := "/"; p_parts := "/" :: names ++ p_parts (of_str s) |})
  | "/" =>
      fst (get_paths self (PStr s) st)
      = Done (truediv (base_path u)
                {| p_root := ""; p_parts := tail (p_parts (of_str s)) |},
              of_str s)
  | _ => ∃ msg, fst (get_paths self (PStr s) st) = Raise (ValueError msg)
  end.
Proof.
  intros Hu Hcd. split; [done|].
  unfold get_paths, unpack_keywords, unpack, mbind, M_bind, mret, M_ret.
  rewrite (getitem_present _ _ _ Hu). simpl.
  destruct (of_str_shape s) as (root & comps & Hs & Hcase).
  rewrite Hs. unfold is_absolute. simpl.
  destruct Hcase as [->| [->| ->]]; simpl.
  - by rewrite (getitem_present _ _ _ Hcd).
  - done.
  - by eexists.
Qed.

End lexical.

(** ** Defaults that grant access *)

Lemma default_permissions_full_access (u : User) (path : Path) :
  permissions u = [Permission_default] ->
  get_permissions u path = Done Permission_default.
Proof.
  intros Hlist. unfold get_permissions. rewrite Hlist. simpl.
  destruct (is_parent Permission_default path) eqn:Hparent; simpl; [|done].
  by rewrite (remaining_of_parent path Permission_default Hparent).
Qed.

(** X21. A user built with no permission list, or with an empty one, has
    full access everywhere: [get_permissions] returns the default
    [Permission("/")], readable and writable, for every path. *)
Theorem no_permissions_is_full_access (login password : option string)
    (base_path home_path : pathlike) (perms : option (list Permission))
    (path : Path) :
  perms = None ∨ perms = Some [] ->
  get_permissions (User_init login password base_path home_path perms) path
  = Done Permission_default ∧
  readable Permission_default = true ∧ writable Permission_default = true.
Proof.
  intros Hperms. split; [|done].
  apply default_permissions_full_access. by destruct Hperms as [-> | ->].
Qed.

(** X22. A server built with an empty list of users accepts every name:
    [user] selects the default anonymous user, sets [logged], the current
    directory ["/"] and the user, and replies [230 anonymous login]; that
    user has full access. *)
Theorem no_users_is_anonymous_access {World : Type} (timeout : value)
    (rest : string) (st : State World) (path : Path) :
  user (Server_init [] timeout) rest st
  = (Done (Reply true "230" (IStr "anonymous login") None),
     set_key "user" (VUser User_default)
       (set_key "current_directory" (VPath (of_str "/"))
          (set_key "logged" (VBool true) st))) ∧
  get_permissions User_default path = Done Permission_default.
Proof.
  split; [done|]. by apply default_permissions_full_access.
Qed.

(** ** The current directory stays under the root *)

Lemma parent_rooted (p : Path) : rooted p -> rooted (parent p).
Proof.
  intros [names ->]. unfold parent. simpl.
  destruct names as [|x names]; simpl; [by exists []|].
  by exists (removelast (x :: names)).
Qed.

Lemma user_scan_elem_of (users : list User) (rest : string) (u : User) :
  user_scan users rest None = Some u -> u ∈ users.
Proof.
  rewrite user_scan_find. intros H. apply list_elem_of_In.
  destruct (List.find (fun u => eq_str (login u) rest) users) as [x|] eqn:E.
  - injection H as <-. by apply find_some in E as [? _].
  - by apply find_some in H as [? _].
Qed.

Section rooted_directories.
Context {World : Type} (env : Env World).
Implicit Types (st : State World) (self : Server).

Lemma login_required_missing {R : Type} (f : R -> M World pyret) rest st :
  connection st !! "logged" = None ->
  login_required f rest st = (Done (bad_sequence "not logged in"), st).
Proof.
  intros Hl.
  apply (fields_required_missing [] "logged" "not logged in" []); [|done].
  intros n m Hin. by apply elem_of_nil in Hin.
Qed.

(** What [get_paths] returns as the virtual path is rooted, given a rooted
    current directory. *)
Lemma get_paths_rooted self path st real virtual :
  directories_rooted st ->
  (∀ p, path = PPath p -> rooted p) ->
  fst (get_paths self path st) = Done (real, virtual) ->
  rooted virtual.
Proof.
  intros [Hcd _] Hpath.
  unfold get_paths, unpack_keywords, unpack, mbind, M_bind, mret, M_ret.
  unfold getitem at 1.
  destruct (connection st !! "user") as [v|]; [|discriminate]. simpl.
  destruct path as [s|p]; simpl.
  - destruct (of_str_shape s) as (root & comps & Hs & Hcase).
    rewrite Hs. unfold is_absolute. simpl.
    destruct Hcase as [->| [->| ->]]; simpl.
    + unfold getitem.
      destruct (connection st !! "current_directory") as [cd|] eqn:E;
        [|discriminate].
      destruct (Hcd cd eq_refl) as (p & -> & names & ->). simpl.
      destruct v; simpl; try discriminate.
      intros [= _ <-]. by eexists.
    + destruct v; simpl; try discriminate.
      intros [= _ <-]. by eexists.
    + destruct v; simpl; discriminate.
  - destruct (Hpath p eq_refl) as [names ->]. unfold is_absolute. simpl.
    destruct v; simpl; try discriminate.
    intros [= _ <-]. by eexists.
Qed.

(** [cwd] either leaves the state alone or stores the virtual path that
    [get_paths] returned. *)
Lemma cwd_state self path st :
  snd (cwd env self path st) = st ∨
  ∃ real virtual,
    fst (get_paths self path st) = Done (real, virtual) ∧
    snd (cwd env self path st) = set_key "current_directory" (VPath virtual) st.
Proof.
  destruct (connection st !! "logged") as [l|] eqn:Hl.
  - unfold cwd. rewrite login_required_pass by (by eexists).
    unfold unpack_keywords, unpack, mbind, M_bind, mret, M_ret, getitem.
    destruct (connection st !! "user") as [u|]; [|by left].
    destruct (connection st !! "path_io") as [pio|]; [|by left]. simpl.
    pose proof (get_paths_state self path st) as Hst.
    destruct (get_paths self path st) as [[[real virtual]|e] st1];
      simpl in Hst; subst st1; [|by left].
    destruct pio; simpl; try (by left).
    unfold ask. simpl.
    destruct (path_io_exists env real (world st)); simpl; [|by left].
    destruct (path_io_is_dir env real (world st)); simpl; [|by left].
    destruct u; simpl; try (by left).
    unfold lift. destruct (get_permissions _ virtual) as [perm|e]; simpl;
      [|by left].
    destruct (readable perm); simpl; [|by left].
    right. by exists real, virtual.
  - left. unfold cwd. by rewrite login_required_missing.
Qed.

Lemma cdup_state self rest st :
  snd (cdup env self rest st) = st ∨
  ∃ cd, connection st !! "current_directory" = Some (VPath cd) ∧
        cdup env self rest st = cwd env self (PPath (parent cd)) st.
Proof.
  destruct (connection st !! "logged") as [l|] eqn:Hl.
  - destruct (connection st !! "current_directory") as [v|] eqn:Hv.
    + destruct v; try (left; unfold cdup;
                       rewrite login_required_pass by (by eexists);
                       unfold unpack_keywords, unpack, mbind, M_bind, mret, M_ret;
                       by rewrite (getitem_present _ _ _ Hv)).
      right. eexists. split; [done|].
      unfold cdup. rewrite login_required_pass by (by eexists).
      unfold unpack_keywords, unpack, mbind, M_bind, mret, M_ret.
      by rewrite (getitem_present _ _ _ Hv).
    + left. unfold cdup. rewrite login_required_pass by (by eexists).
      unfold unpack_keywords, unpack, mbind, M_bind, mret, M_ret.
      by rewrite (getitem_absent _ _ Hv).
  - left. unfold cdup. by rewrite login_required_missing.
Qed.

Lemma directories_rooted_cwd self path st :
  directories_rooted st ->
  (∀ p, path = PPath p -> rooted p) ->
  directories_rooted (snd (cwd env self path st)).
Proof.
  intros Hst Hpath.
  destruct (cwd_state self path st) as [->|(real & virtual & Hp & ->)]; [done|].
  pose proof (get_paths_rooted self path st real virtual Hst Hpath Hp) as Hv.
  destruct Hst as [Hcd Hu]. split; simpl.
  - intros v. rewrite lookup_insert_eq. intros [= <-]. by eexists.
  - intros u. rewrite lookup_insert_ne by done. apply Hu.
Qed.

Lemma directories_rooted_login (u : User) st :
  rooted (home_path u) ->
  directories_rooted
    (set_key "user" (VUser u)
       (set_key "current_directory" (VPath (home_path u))
          (set_key "logged" (VBool true) st))).
Proof.
  intros Hhome. split; simpl.
  - intros v Hv. simplify_map_eq. by eexists.
  - intros u' Hv. by simplify_map_eq.
Qed.

(** X23. When the home of every configured user is a path under ["/"],
    every handler keeps the current directory a path under ["/"]: from a
    connection whose current directory (if any) and stored user's home
    are rooted, each handler, for each argument, ends in such a
    connection.  [cwd] stores only what resolved against ["/"], [cdup]
    the parent of a rooted path, and a login the user's home. *)
Theorem current_directory_stays_rooted self cmd rest st :
  Forall (fun u => rooted (home_path u)) (users self) ->
  directories_rooted st ->
  directories_rooted (snd (handler env self cmd rest st)).
Proof.
  intros Hhomes Hst.
  assert (Hframe : writes cmd "current_directory" = false ->
                   writes cmd "user" = false ->
                   directories_rooted (snd (handler env self cmd rest st))).
  { intros Hw1 Hw2. destruct Hst as [Hcd Hu]. split.
    - intros v.
      rewrite (handler_preserves_key env self cmd rest _ Hw1 st). apply Hcd.
    - intros u.
      rewrite (handler_preserves_key env self cmd rest _ Hw2 st). apply Hu. }
  destruct cmd; try (by apply Hframe); simpl.
  - rewrite user_run.
    destruct (user_scan (users self) rest None) as [u|] eqn:Hscan; [|done].
    assert (Hhome : rooted (home_path u)).
    { rewrite Forall_forall in Hhomes. apply Hhomes.
      by apply (user_scan_elem_of _ rest). }
    destruct (is_None (login u)); simpl.
    + by apply directories_rooted_login.
    + destruct Hst as [Hcd Hu]. split; simpl.
      * intros v. rewrite lookup_insert_ne by done. apply Hcd.
      * intros u'. rewrite lookup_insert_eq. by intros [= <-].
  - destruct (pass_state self rest st) as [->|(u & Hu & Hpw)]; [done|].
    rewrite (pass_run self rest st u Hu).
    apply eq_str_true in Hpw. rewrite Hpw. simpl.
    apply directories_rooted_login. destruct Hst as [_ Hhome]. by apply Hhome.
  - apply directories_rooted_cwd; [done|]. by intros p.
  - destruct (cdup_state self rest st) as [->|(cd & Hcd & ->)]; [done|].
    apply directories_rooted_cwd; [done|].
    intros p [= <-]. apply parent_rooted.
    destruct Hst as [Hroot _]. destruct (Hroot _ Hcd) as (p & [= <-] & Hp). done.
Qed.

(** X24. A successful [CWD] is what [PWD] shows next: in a logged-in
    connection where the argument resolves to [(real, virtual)], when
    [cwd] replies 250 the following [pwd] replies 257 with the text of
    [virtual] between double quotes, and changes nothing. *)
Theorem cwd_then_pwd self rest rest2 st v u real virtual lines st1 :
  connection st !! "logged" = Some v ->
  connection st !! "user" = Some (VUser u) ->
  connection st !! "path_io" = Some VPathIO ->
  fst (get_paths self rest st) = Done (real, virtual) ->
  cwd env self rest st = (Done (Reply true "250" lines None), st1) ->
  pwd self rest2 st1
  = (Done (Reply true "257" (IStr (dquote +:+ str virtual +:+ dquote)) None),
     st1).
Proof.
  intros Hl Hu Hp Hpaths.
  rewrite (cwd_run env self rest st v u Hl Hu Hp).
  rewrite (get_paths_run _ _ _ _ _ Hpaths).
  destruct (negb (path_io_exists env real (world st))); [discriminate|].
  destruct (negb (path_io_is_dir env real (world st))); [discriminate|].
  destruct (get_permissions u virtual) as [perm|e]; [|discriminate].
  destruct (readable perm); [|discriminate].
  intros [= _ <-]. unfold pwd.
  rewrite login_required_pass.
  - unfold unpack_keywords, unpack, mbind, M_bind, mret, M_ret, getitem. simpl.
    by rewrite lookup_insert_eq.
  - unfold authenticated. simpl. rewrite lookup_insert_ne by done. by eexists.
Qed.

End rooted_directories.

(** ** A permission for the path itself *)

Lemma is_parent_itself (p : Permission) :
  is_parent p (perm_path p) = true ∧ depth_below (perm_path p) p = 0.
Proof.
  unfold is_parent, depth_below, relative_to, list_eqb.
  rewrite firstn_all, skipn_all. split; [|done].
  destruct (List.length (abs_parts (perm_path p)) =? 0)%nat eqn:E.
  - unfold abs_parts in *.
    destruct (nonempty (p_root (perm_path p))); [discriminate|done].
  - by rewrite bool_decide_eq_true_2.
Qed.

(** X25. A permission listed for the path itself wins over every
    ancestor: when some permission of the user has exactly the queried
    path, [get_permissions] returns a listed permission that leaves no
    component of the path remaining, and it is the first such one in
    list order (never the default, never a shallower ancestor). *)
Theorem exact_permission_wins (self : User) (path : Path) (q : Permission) :
  q ∈ permissions self -> perm_path q = path ->
  ∃ perm i, get_permissions self path = Done perm ∧
            permissions self !! i = Some perm ∧
            remaining path perm = Done 0 ∧
            ∀ j x, j < i -> permissions self !! j = Some x ->
                   remaining path x ≠ Done 0.
Proof.
  intros Hq <-. unfold get_permissions.
  destruct (is_parent_itself q) as [Hpar Hdepth].
  destruct (py_min_filter (fun p => is_parent p (perm_path q))
              (remaining (perm_path q)) (depth_below (perm_path q))
              (permissions self) Permission_default)
    as (r & Hr & Hcase).
  { intros x _ Hx. by apply remaining_of_parent. }
  destruct Hcase as [[_ Hnone]|(i & Hi & HP & Hmin)].
  { specialize (Hnone q Hq). simpl in Hnone. congruence. }
  apply list_elem_of_lookup_1 in Hq as [k Hk].
  destruct (Hmin k q Hk Hpar) as [Hle _].
  exists r, i. split; [done|]. split; [done|]. split.
  - rewrite (remaining_of_parent _ _ HP). f_equal. lia.
  - intros j x Hj Hx Hrem.
    pose proof (remaining_is_parent _ _ _ Hrem) as Hpx.
    destruct (Hmin j x Hx Hpx) as [_ Hlt]. specialize (Hlt Hj).
    rewrite (remaining_of_parent _ _ Hpx) in Hrem. injection Hrem as Hrem. lia.
Qed.

(** ** The theorems on the small concrete world *)

Module examples.
Import toy.

(** Two permissions on [/pub]: the first of the two deepest wins. *)
Example get_permissions_tie :
  get_permissions
    (User_init (Some "carol") None (PStr ".") (PStr "/")
       (Some [Permission_init (PStr "/") true true;
              Permission_init (PStr "/pub") false false;
              Permission_init (PStr "/pub") true true]))
    (of_str "/pub/f")
  = Done (Permission_init (PStr "/pub") false false).
Proof. reflexivity. Qed.


Lemma gates_short_circuit_witness :
  (connection (fresh server_named) !! "user" = None ∧
   user_required unreachable_body "" (fresh server_named)
   = (Done (Reply true "503"
              (IStr "bad sequence of commands (no user (use USER firstly))")
              None), fresh server_named)) ∧
  (connection (fresh server_named) !! "logged" = None ∧
   login_required unreachable_body "" (fresh server_named)
   = (Done (Reply true "503"
              (IStr "bad sequence of commands (not logged in)") None),
      fresh server_named)) ∧
  (connection logged_in !! "passive_server" = None ∧
   passive_required unreachable_body "" logged_in
   = (Done (Reply true "503"
              (IStr "bad sequence of commands (no listen socket created (use PASV firstly))")
              None), logged_in)) ∧
  (is_Some (connection listening !! "passive_server") ∧
   connection listening !! "passive_connection" = None ∧
   passive_required unreachable_body "" listening
   = (Done (Reply true "503"
              (IStr "bad sequence of commands (no passive connection created (connect firstly))")
              None), listening)).
Proof.
  assert (H1 : connection (fresh server_named) !! "user" = None)
    by (vm_compute; reflexivity).
  assert (H2 : connection (fresh server_named) !! "logged" = None)
    by (vm_compute; reflexivity).
  assert (H3 : connection logged_in !! "passive_server" = None)
    by (vm_compute; reflexivity).
  assert (H4 : is_Some (connection listening !! "passive_server"))
    by (eexists; vm_compute; reflexivity).
  assert (H5 : connection listening !! "passive_connection" = None)
    by (vm_compute; reflexivity).
  split; [|split; [|split]].
  - split; [exact H1|].
    exact (proj1 (gates_short_circuit unreachable_body "" (fresh server_named)) H1).
  - split; [exact H2|].
    exact (proj1 (proj2 (gates_short_circuit unreachable_body ""
                           (fresh server_named))) H2).
  - split; [exact H3|].
    exact (proj1 (proj2 (proj2 (gates_short_circuit unreachable_body ""
                                  logged_in))) H3).
  - split; [exact H4|]. split; [exact H5|].
    exact (proj2 (proj2 (proj2 (gates_short_circuit unreachable_body ""
                                  listening))) H4 H5).
Defined.



Lemma cdup_is_cwd_of_parent_witness :
  connection in_pub !! "logged" = Some (VBool true) ∧
  connection in_pub !! "current_directory" = Some (VPath (of_str "/pub")) ∧
  cdup env server_named "" in_pub
  = cwd env server_named (PPath (parent (of_str "/pub"))) in_pub.
Proof.
  assert (H1 : connection in_pub !! "logged" = Some (VBool true))
    by (vm_compute; reflexivity).
  assert (H2 : connection in_pub !! "current_directory"
               = Some (VPath (of_str "/pub")))
    by (vm_compute; reflexivity).
  split; [exact H1|]. split; [exact H2|].
  exact (cdup_is_cwd_of_parent env server_named "" in_pub (VBool true)
           (of_str "/pub") H1 H2).
Defined.

(** After [CDUP] from [/pub] the current directory is [/]. *)
Example cdup_from_pub :
  fst (cdup env server_named "" in_pub) = Done (Reply true "250" (IStr "") None) ∧
  connection (snd (cdup env server_named "" in_pub)) !! "current_directory"
  = Some (VPath (of_str "/")).
Proof. split; vm_compute; reflexivity. Qed.

Lemma write_response_framing_witness :
  (wrap_with_container (IList ["listen socket created"; "(127,0,0,1,195,80)"])
   ≠ [] ∧
   ∃ written,
     write_response 0 1 "227"
       (IList ["listen socket created"; "(127,0,0,1,195,80)"]) false
       (fresh server_named)
     = (Done tt, add_wire (map (Write 1) written) (fresh server_named)) ∧
     List.length written = 2 ∧ framed "227" written) ∧
  (2 ≤ List.length (wrap_with_container (IList ["start"; "x"; "end"])) ∧
   ∃ first interior final,
     write_response 0 1 "250" (IList ["start"; "x"; "end"]) true
       (fresh server_named)
     = (Done tt, add_wire (map (Write 1) (first :: interior ++ [final]))
                   (fresh server_named)) ∧
     List.length (first :: interior ++ [final]) = 3 ∧
     starts_with "250-" first = true ∧
     Forall (fun l => starts_with " " l = true) interior ∧
     starts_with "250 " final = true).
Proof.
  assert (H1 : wrap_with_container
                 (IList ["listen socket created"; "(127,0,0,1,195,80)"]) ≠ [])
    by discriminate.
  assert (H2 : 2 ≤ List.length (wrap_with_container (IList ["start"; "x"; "end"])))
    by (simpl; lia).
  split.
  - split; [exact H1|].
    exact (proj1 (write_response_framing 0 1 "227"
                    (IList ["listen socket created"; "(127,0,0,1,195,80)"])
                    false (fresh server_named)) eq_refl H1).
  - split; [exact H2|].
    exact (proj2 (write_response_framing 0 1 "250"
                    (IList ["start"; "x"; "end"]) true (fresh server_named))
             eq_refl H2).
Defined.

(** The three-line reply of [mlst], written with the multi-line flag:
    its second line opens with a space, not with [250-]. *)
Lemma write_response_multi_not_framed :
  written_lines
    (wire (snd (write_response 0 1 "250" (IList ["start"; "x"; "end"]) true
                  (fresh server_named))))
  = ["250-start" +:+ CRLF; " x" +:+ CRLF; "250 end" +:+ CRLF] ∧
  ¬ framed "250"
      (written_lines
         (wire (snd (write_response 0 1 "250" (IList ["start"; "x"; "end"])
                       true (fresh server_named))))).
Proof.
  assert (Hw : written_lines
                 (wire (snd (write_response 0 1 "250"
                               (IList ["start"; "x"; "end"]) true
                               (fresh server_named))))
               = ["250-start" +:+ CRLF; " x" +:+ CRLF; "250 end" +:+ CRLF])
    by (vm_compute; reflexivity).
  split; [exact Hw|]. rewrite Hw.
  intros (earlier & final & Heq & _ & Hall).
  change ["250-start" +:+ CRLF; " x" +:+ CRLF; "250 end" +:+ CRLF]
    with (["250-start" +:+ CRLF; " x" +:+ CRLF] ++ ["250 end" +:+ CRLF]) in Heq.
  apply app_inj_tail in Heq as [<- _].
  apply Forall_cons_1 in Hall as [_ Hall].
  apply Forall_cons_1 in Hall as [Hx _].
  vm_compute in Hx. discriminate.
Qed.

Lemma user_selects_and_replies_witness :
  user_scan (users server_both) "alice" None = Some alice ∧
  user_scan (users server_both) "bob" None = Some anonymous ∧
  user_scan (users server_named) "bob" None = None ∧
  user server_both "alice" (fresh server_both)
  = (Done (Reply true "331" (IStr "require password") None),
     set_key "user" (VUser alice) (fresh server_both)) ∧
  user server_both "bob" (fresh server_both)
  = (Done (Reply true "230" (IStr "anonymous login") None),
     set_key "user" (VUser anonymous)
       (set_key "current_directory" (VPath (of_str "/"))
          (set_key "logged" (VBool true) (fresh server_both)))) ∧
  user server_named "bob" (fresh server_named)
  = (Done (Reply false "530" (IStr "no such username") None),
     fresh server_named).
Proof.
  destruct (user_selects_and_replies server_both "alice" (fresh server_both))
    as (Ha & _ & Hra).
  destruct (user_selects_and_replies server_both "bob" (fresh server_both))
    as (Hb & _ & Hrb).
  destruct (user_selects_and_replies server_named "bob" (fresh server_named))
    as (Hc & _ & Hrc).
  split; [exact Ha|]. split; [exact Hb|]. split; [exact Hc|].
  split; [exact Hra|]. split; [exact Hrb|]. exact Hrc.
Defined.


Lemma rmd_success_returns_None_witness :
  connection logged_in !! "logged" = Some (VBool true) ∧
  connection logged_in !! "user" = Some (VUser alice) ∧
  connection logged_in !! "path_io" = Some VPathIO ∧
  fst (get_paths server_named (PStr "tmp") logged_in)
  = Done (of_str "tmp", of_str "/tmp") ∧
  path_io_exists env (of_str "tmp") (world logged_in) = true ∧
  path_io_is_dir env (of_str "tmp") (world logged_in) = true ∧
  get_permissions alice (of_str "/tmp") = Done (Permission_init (PStr "/") true true) ∧
  writable (Permission_init (PStr "/") true true) = true ∧
  path_io_rmdir env (of_str "tmp") (world logged_in) = (Done tt, world_without_tmp) ∧
  rmd env server_named "tmp" logged_in
  = (Done PyNone,
     mkState (connection logged_in) world_without_tmp (wire logged_in)
             (tasks logged_in)).
Proof.
  assert (H1 : connection logged_in !! "logged" = Some (VBool true))
    by (vm_compute; reflexivity).
  assert (H2 : connection logged_in !! "user" = Some (VUser alice))
    by (vm_compute; reflexivity).
  assert (H3 : connection logged_in !! "path_io" = Some VPathIO)
    by (vm_compute; reflexivity).
  assert (H4 : fst (get_paths server_named (PStr "tmp") logged_in)
               = Done (of_str "tmp", of_str "/tmp"))
    by (vm_compute; reflexivity).
  assert (H5 : path_io_exists env (of_str "tmp") (world logged_in) = true)
    by (vm_compute; reflexivity).
  assert (H6 : path_io_is_dir env (of_str "tmp") (world logged_in) = true)
    by (vm_compute; reflexivity).
  assert (H7 : get_permissions alice (of_str "/tmp")
               = Done (Permission_init (PStr "/") true true))
    by (vm_compute; reflexivity).
  assert (H8 : writable (Permission_init (PStr "/") true true) = true)
    by reflexivity.
  assert (H9 : path_io_rmdir env (of_str "tmp") (world logged_in)
               = (Done tt, world_without_tmp))
    by (vm_compute; reflexivity).
  repeat (split; [assumption|]).
  exact (rmd_success_returns_None env server_named "tmp" logged_in
           (VBool true) alice (of_str "tmp") (of_str "/tmp")
           (Permission_init (PStr "/") true true) world_without_tmp
           H1 H2 H3 H4 H5 H6 H7 H8 H9).
Defined.

Lemma continue_flag_witness :
  (QUIT = QUIT ∧
   handler env server_named QUIT "" logged_in
   = (Done (Reply false "221" (IStr "bye") None), logged_in)) ∧
  (USER = USER ∧
   handler env server_named USER "bob" (fresh server_named)
   = (Done (Reply false "530" (IStr "no such username") None),
      fresh server_named)) ∧
  (PASS ≠ QUIT ∧ PASS ≠ USER ∧
   handler env server_named PASS "wrong"
     (snd (user server_named "alice" (fresh server_named)))
   = (Done (Reply true "530" (IStr "wrong password") None),
      snd (user server_named "alice" (fresh server_named))) ∧
   true = true).
Proof.
  assert (H1 : PASS ≠ QUIT) by discriminate.
  assert (H2 : PASS ≠ USER) by discriminate.
  assert (H3 : handler env server_named PASS "wrong"
                 (snd (user server_named "alice" (fresh server_named)))
               = (Done (Reply true "530" (IStr "wrong password") None),
                  snd (user server_named "alice" (fresh server_named))))
    by (vm_compute; reflexivity).
  split; [|split].
  - split; [reflexivity|].
    exact (proj1 (continue_flag env server_named QUIT "" logged_in) eq_refl).
  - split; [reflexivity|].
    exact (proj1 (proj2 (continue_flag env server_named USER "bob"
                           (fresh server_named))) eq_refl).
  - split; [exact H1|]. split; [exact H2|]. split; [exact H3|].
    exact (proj2 (proj2 (continue_flag env server_named PASS "wrong"
                           (snd (user server_named "alice" (fresh server_named)))))
             H1 H2 true "530" (IStr "wrong password") None _ H3).
Defined.

(** [USER bob] on a server that only knows [alice]: the reply is 530 and
    the flag that keeps the session loop running is [False]. *)
Lemma user_unknown_ends_session :
  USER ≠ QUIT ∧
  List.find (fun u => eq_str (login u) "bob") (users server_named) = None ∧
  List.find (fun u => is_None (login u)) (users server_named) = None ∧
  handler env server_named USER "bob" (fresh server_named)
  = (Done (Reply false "530" (IStr "no such username") None),
     fresh server_named) ∧
  ¬ continues (handler env server_named USER "bob").
Proof.
  assert (Hrun : handler env server_named USER "bob" (fresh server_named)
                 = (Done (Reply false "530" (IStr "no such username") None),
                    fresh server_named))
    by (vm_compute; reflexivity).
  split; [discriminate|]. split; [reflexivity|]. split; [reflexivity|].
  split; [exact Hrun|].
  intros Hc. specialize (Hc _ _ _ _ _ _ Hrun). discriminate.
Qed.

Lemma logged_is_never_removed_witness :
  authenticated connected ∧
  authenticated (snd (handler env server_named USER "alice" connected)) ∧
  authenticated (snd (handler env server_named PASS "wrong" connected)) ∧
  authenticated (snd (handler env server_named MLSD "pub" connected)) ∧
  authenticated (snd (mlsd_writer env server_named VPathIO (of_str "pub")
                        connected)) ∧
  authenticated (snd (pasv_handler 9 10 connected)) ∧
  (user_scan (users server_named) "alice" None = Some alice ∧
   login alice = Some "alice" ∧
   ∃ st', user server_named "alice" connected
          = (Done (Reply true "331" (IStr "require password") None), st') ∧
          connection st' !! "user" = Some (VUser alice) ∧
          authenticated st') ∧
  (connection connected !! "user" = Some (VUser alice) ∧
   eq_str (password alice) "wrong" = false ∧
   pass_ server_named "wrong" connected
   = (Done (Reply true "530" (IStr "wrong password") None), connected)).
Proof.
  assert (H : authenticated connected)
    by (eexists; vm_compute; reflexivity).
  assert (Hscan : user_scan (users server_named) "alice" None = Some alice)
    by reflexivity.
  assert (Hname : login alice = Some "alice") by reflexivity.
  assert (Hu : connection connected !! "user" = Some (VUser alice))
    by (vm_compute; reflexivity).
  assert (Hpw : eq_str (password alice) "wrong" = false)
    by reflexivity.
  destruct (logged_is_never_removed env server_named connected H)
    as (Hh & Hw & Ha & Huser & Hpass).
  split; [exact H|].
  split; [exact (Hh USER "alice")|].
  split; [exact (Hh PASS "wrong")|].
  split; [exact (Hh MLSD "pub")|].
  split; [exact (Hw VPathIO (of_str "pub"))|].
  split; [exact (Ha 9 10)|].
  split.
  - split; [exact Hscan|]. split; [exact Hname|].
    exact (Huser "alice" alice "alice" Hscan Hname).
  - split; [exact Hu|]. split; [exact Hpw|]. exact (Hpass "wrong" alice Hu Hpw).
Defined.

(** *** The dispatcher *)

Lemma dispatch_single_line_witness :
  methods server_named (if String.eqb "pwd" "pass" then "pass_" else "pwd")
  = Some (handler env server_named PWD) ∧
  handler env server_named PWD "" logged_in
  = (Done (Reply true "257" (IStr (dquote +:+ "/" +:+ dquote)) None),
     logged_in) ∧
  dispatch_command (methods server_named) 0 1 "pwd" "" true logged_in
  = (Done true,
     add_wire [Write 1 (("257" +:+ " " +:+ (dquote +:+ "/" +:+ dquote))
                        +:+ CRLF)] logged_in).
Proof.
  assert (H1 : methods server_named
                 (if String.eqb "pwd" "pass" then "pass_" else "pwd")
               = Some (handler env server_named PWD)) by reflexivity.
  assert (H2 : handler env server_named PWD "" logged_in
               = (Done (Reply true "257" (IStr (dquote +:+ "/" +:+ dquote))
                          None), logged_in)) by (vm_compute; reflexivity).
  split; [exact H1|]. split; [exact H2|].
  exact (dispatch_single_line (methods server_named) 0 1 "pwd" "" true
           (handler env server_named PWD) true "257"
           (dquote +:+ "/" +:+ dquote) logged_in logged_in H1 H2).
Defined.

Lemma dispatch_unknown_command_witness :
  methods server_named (if String.eqb "noop" "pass" then "pass_" else "noop")
  = None ∧
  dispatch_command (methods server_named) 0 1 "noop" "" true logged_in
  = (Done true,
     add_wire [Write 1
                 (("502" +:+ " " +:+ "'"
                   +:+ (if String.eqb "noop" "pass" then "pass_" else "noop")
                   +:+ "' not implemented") +:+ CRLF)] logged_in).
Proof.
  assert (H1 : methods server_named
                 (if String.eqb "noop" "pass" then "pass_" else "noop")
               = None) by reflexivity.
  split; [exact H1|].
  exact (dispatch_unknown_command (methods server_named) 0 1 "noop" "" true
           logged_in H1).
Defined.

Lemma dispatch_reserved_command_raises_witness :
  authenticated logged_in ∧
  (STOR, "stor") ∈ [(RNFR, "rnfr"); (RNTO, "rnto"); (DELE, "dele");
                    (STOR, "stor"); (RETR, "retr"); (ABOR, "abor")] ∧
  methods server_named "stor" = Some (handler env server_named STOR) ∧
  dispatch_command (methods server_named) 0 1 "stor" "f" true logged_in
  = (Raise (TypeError "'NoneType' object is not iterable"), logged_in).
Proof.
  assert (H1 : authenticated logged_in) by (eexists; vm_compute; reflexivity).
  assert (H2 : (STOR, "stor") ∈ [(RNFR, "rnfr"); (RNTO, "rnto");
                                 (DELE, "dele"); (STOR, "stor");
                                 (RETR, "retr"); (ABOR, "abor")]).
  { do 3 apply list_elem_of_further. apply list_elem_of_here. }
  assert (H3 : methods server_named "stor"
               = Some (handler env server_named STOR)) by reflexivity.
  split; [exact H1|]. split; [exact H2|]. split; [exact H3|].
  exact (dispatch_reserved_command_raises env (methods server_named) 0 1
           server_named STOR "stor" "f" true logged_in H1 H2 H3).
Defined.

(** *** What the handlers touch *)

Lemma handlers_read_only_witness :
  (CWD ≠ MKD ∧ CWD ≠ RMD ∧ CWD ≠ PASV ∧
   world (snd (handler env server_named CWD "pub" logged_in))
   = world logged_in) ∧
  (CWD ≠ MLSD ∧
   tasks (snd (handler env server_named CWD "pub" logged_in))
   = tasks logged_in).
Proof.
  assert (H1 : CWD ≠ MKD) by discriminate.
  assert (H2 : CWD ≠ RMD) by discriminate.
  assert (H3 : CWD ≠ PASV) by discriminate.
  assert (H4 : CWD ≠ MLSD) by discriminate.
  split.
  - split; [exact H1|]. split; [exact H2|]. split; [exact H3|].
    exact (proj1 (handlers_read_only env server_named CWD "pub" logged_in)
             H1 H2 H3).
  - split; [exact H4|].
    exact (proj2 (handlers_read_only env server_named CWD "pub" logged_in) H4).
Defined.

Lemma handlers_write_set_witness :
  (writes CWD "logged" = false ∧
   connection (snd (handler env server_named CWD "pub" logged_in)) !! "logged"
   = connection logged_in !! "logged") ∧
  ("path_io" ∈ "passive_connection" :: dispatcher_keys ∧
   connection (snd (handler env server_named PASV "" logged_in)) !! "path_io"
   = connection logged_in !! "path_io").
Proof.
  assert (H1 : writes CWD "logged" = false) by (vm_compute; reflexivity).
  assert (H2 : "path_io" ∈ "passive_connection" :: dispatcher_keys).
  { unfold dispatcher_keys.
    repeat first [apply list_elem_of_here | apply list_elem_of_further]. }
  split.
  - split; [exact H1|].
    exact (proj1 (handlers_write_set env server_named CWD "pub" logged_in
                    "logged") H1).
  - split; [exact H2|].
    exact (proj2 (handlers_write_set env server_named PASV "" logged_in
                    "path_io") H2).
Defined.

(** *** Logging in *)

Lemma only_login_authenticates_witness :
  ¬ authenticated (fresh server_both) ∧
  authenticated (snd (handler env server_both USER "bob" (fresh server_both))) ∧
  ((USER = USER ∧
    ∃ u, user_scan (users server_both) "bob" None = Some u ∧ login u = None) ∨
   (USER = PASS ∧
    ∃ u, connection (fresh server_both) !! "user" = Some (VUser u) ∧
         password u = Some "bob")).
Proof.
  assert (H1 : ¬ authenticated (fresh server_both)).
  { intros [x Hx]. vm_compute in Hx. discriminate. }
  assert (H2 : authenticated
                 (snd (handler env server_both USER "bob" (fresh server_both))))
    by (eexists; vm_compute; reflexivity).
  split; [exact H1|]. split; [exact H2|].
  exact (only_login_authenticates env server_both USER "bob"
           (fresh server_both) H1 H2).
Defined.

Lemma user_then_pass_witness :
  user_scan (users server_named) "alice" None = Some alice ∧
  is_Some (login alice) ∧
  password alice = Some "secret" ∧
  let st1 := snd (user server_named "alice" (fresh server_named)) in
  fst (user server_named "alice" (fresh server_named))
  = Done (Reply true "331" (IStr "require password") None) ∧
  (authenticated st1 <-> authenticated (fresh server_named)) ∧
  (∃ st2,
     pass_ server_named "secret" st1
     = (Done (Reply true "230" (IStr "normal login") None), st2) ∧
     connection st2 !! "logged" = Some (VBool true) ∧
     connection st2 !! "user" = Some (VUser alice) ∧
     connection st2 !! "current_directory" = Some (VPath (home_path alice))) ∧
  ("guess" ≠ "secret" ->
   pass_ server_named "guess" st1
   = (Done (Reply true "530" (IStr "wrong password") None), st1)).
Proof.
  assert (H1 : user_scan (users server_named) "alice" None = Some alice)
    by reflexivity.
  assert (H2 : is_Some (login alice)) by (eexists; reflexivity).
  assert (H3 : password alice = Some "secret") by reflexivity.
  split; [exact H1|]. split; [exact H2|]. split; [exact H3|].
  exact (user_then_pass server_named "alice" "secret" "guess"
           (fresh server_named) alice H1 H2 H3).
Defined.

Lemma pass_without_password_witness :
  connection (snd (user server_carol "carol" (fresh server_carol))) !! "user"
  = Some (VUser carol) ∧
  password carol = None ∧
  pass_ server_carol "" (snd (user server_carol "carol" (fresh server_carol)))
  = (Done (Reply true "530" (IStr "wrong password") None),
     snd (user server_carol "carol" (fresh server_carol))).
Proof.
  assert (H1 : connection (snd (user server_carol "carol"
                                  (fresh server_carol))) !! "user"
               = Some (VUser carol)) by (vm_compute; reflexivity).
  assert (H2 : password carol = None) by reflexivity.
  split; [exact H1|]. split; [exact H2|].
  exact (pass_without_password server_carol ""
           (snd (user server_carol "carol" (fresh server_carol))) carol H1 H2).
Defined.

(** *** Directories *)

Lemma mkd_checks_in_order_witness :
  connection logged_in !! "logged" = Some (VBool true) ∧
  connection logged_in !! "user" = Some (VUser alice) ∧
  connection logged_in !! "path_io" = Some VPathIO ∧
  fst (get_paths server_named (PStr "new") logged_in)
  = Done (of_str "new", of_str "/new") ∧
  ∃ perm, get_permissions alice (of_str "/new") = Done perm ∧
    mkd env server_named "new" logged_in =
    if path_io_exists env (of_str "new") (world logged_in)
    then (Done (Reply true "550" (IStr "path already exists") None), logged_in)
    else if writable perm
    then match path_io_mkdir env (of_str "new") (world logged_in) with
         | (Done _, w) =>
             (Done (Reply true "257" (IStr "") None),
              mkState (connection logged_in) w (wire logged_in)
                      (tasks logged_in))
         | (Raise e, w) =>
             (Raise e,
              mkState (connection logged_in) w (wire logged_in)
                      (tasks logged_in))
         end
    else (Done (Reply true "550" (IStr "permission denied") None), logged_in).
Proof.
  assert (H1 : connection logged_in !! "logged" = Some (VBool true))
    by (vm_compute; reflexivity).
  assert (H2 : connection logged_in !! "user" = Some (VUser alice))
    by (vm_compute; reflexivity).
  assert (H3 : connection logged_in !! "path_io" = Some VPathIO)
    by (vm_compute; reflexivity).
  assert (H4 : fst (get_paths server_named (PStr "new") logged_in)
               = Done (of_str "new", of_str "/new"))
    by (vm_compute; reflexivity).
  split; [exact H1|]. split; [exact H2|]. split; [exact H3|].
  split; [exact H4|].
  exact (mkd_checks_in_order env server_named "new" logged_in (VBool true)
           alice (of_str "new") (of_str "/new") H1 H2 H3 H4).
Defined.

Lemma rmd_guards_and_catches_witness :
  connection logged_in !! "logged" = Some (VBool true) ∧
  connection logged_in !! "user" = Some (VUser alice) ∧
  connection logged_in !! "path_io" = Some VPathIO ∧
  fst (get_paths server_named (PStr "pub/f") logged_in)
  = Done (of_str "pub/f", of_str "/pub/f") ∧
  ∃ perm, get_permissions alice (of_str "/pub/f") = Done perm ∧
    (path_io_exists env (of_str "pub/f") (world logged_in)
     && path_io_is_dir env (of_str "pub/f") (world logged_in)
     && writable perm = false ∧
     rmd env server_named "pub/f" logged_in = (Done PyNone, logged_in)).
Proof.
  assert (H1 : connection logged_in !! "logged" = Some (VBool true))
    by (vm_compute; reflexivity).
  assert (H2 : connection logged_in !! "user" = Some (VUser alice))
    by (vm_compute; reflexivity).
  assert (H3 : connection logged_in !! "path_io" = Some VPathIO)
    by (vm_compute; reflexivity).
  assert (H4 : fst (get_paths server_named (PStr "pub/f") logged_in)
               = Done (of_str "pub/f", of_str "/pub/f"))
    by (vm_compute; reflexivity).
  split; [exact H1|]. split; [exact H2|]. split; [exact H3|].
  split; [exact H4|].
  destruct (rmd_guards_and_catches env server_named "pub/f" logged_in
              (VBool true) alice (of_str "pub/f") (of_str "/pub/f")
              H1 H2 H3 H4) as (perm & Hperm & Hguard & _).
  exists perm. split; [exact Hperm|].
  assert (H5 : path_io_exists env (of_str "pub/f") (world logged_in)
               && path_io_is_dir env (of_str "pub/f") (world logged_in)
               && writable perm = false) by (vm_compute; reflexivity).
  split; [exact H5|]. exact (Hguard H5).
Defined.

Lemma dispatch_rmd_never_replies_witness :
  authenticated logged_in ∧
  methods server_named "rmd" = Some (rmd env server_named) ∧
  ∃ e st',
    dispatch_command (methods server_named) 0 1 "rmd" "tmp" true logged_in
    = (Raise e, st') ∧
    wire st' = wire logged_in.
Proof.
  assert (H1 : authenticated logged_in) by (eexists; vm_compute; reflexivity).
  assert (H2 : methods server_named "rmd" = Some (rmd env server_named))
    by reflexivity.
  split; [exact H1|]. split; [exact H2|].
  exact (dispatch_rmd_never_replies env (methods server_named) 0 1
           server_named "tmp" true logged_in H1 H2).
Defined.

(** *** Listings *)

Lemma build_mlsx_string_outcomes_witness :
  connection logged_in !! "path_io" = Some VPathIO ∧
  path_io_is_file env (of_str "pub/f") (world logged_in)
  || path_io_is_dir env (of_str "pub/f") (world logged_in) = true ∧
  snd (build_mlsx_string env server_named (of_str "pub/f") logged_in)
  = logged_in ∧
  match path_io_stat env (of_str "pub/f") (world logged_in) with
  | Raise e =>
      fst (build_mlsx_string env server_named (of_str "pub/f") logged_in)
      = Raise e
  | Done raw =>
      ∃ before after,
        fst (build_mlsx_string env server_named (of_str "pub/f") logged_in)
        = Done ((before
                 +:+ (if path_io_is_file env (of_str "pub/f") (world logged_in)
                      then "Type=file;" else "Type=dir;")
                 +:+ after) +:+ " " +:+ name (of_str "pub/f"))
  end.
Proof.
  assert (H1 : connection logged_in !! "path_io" = Some VPathIO)
    by (vm_compute; reflexivity).
  assert (H2 : path_io_is_file env (of_str "pub/f") (world logged_in)
               || path_io_is_dir env (of_str "pub/f") (world logged_in) = true)
    by (vm_compute; reflexivity).
  split; [exact H1|]. split; [exact H2|].
  destruct (build_mlsx_string_outcomes env server_named (of_str "pub/f")
              logged_in H1) as (Hstate & _ & Hkind).
  split; [exact Hstate|]. exact (Hkind H2).
Defined.

Lemma mlst_outcomes_witness :
  connection logged_in !! "logged" = Some (VBool true) ∧
  connection logged_in !! "user" = Some (VUser alice) ∧
  connection logged_in !! "path_io" = Some VPathIO ∧
  fst (get_paths server_named (PStr "gone") logged_in)
  = Done (of_str "gone", of_str "/gone") ∧
  ∃ perm, get_permissions alice (of_str "/gone") = Done perm ∧
    readable perm = true ∧
    path_io_is_file env (of_str "gone") (world logged_in) = false ∧
    path_io_is_dir env (of_str "gone") (world logged_in) = false ∧
    mlst env server_named "gone" logged_in
    = (Raise (UnknownPathType (str (of_str "gone"))), logged_in).
Proof.
  assert (H1 : connection logged_in !! "logged" = Some (VBool true))
    by (vm_compute; reflexivity).
  assert (H2 : connection logged_in !! "user" = Some (VUser alice))
    by (vm_compute; reflexivity).
  assert (H3 : connection logged_in !! "path_io" = Some VPathIO)
    by (vm_compute; reflexivity).
  assert (H4 : fst (get_paths server_named (PStr "gone") logged_in)
               = Done (of_str "gone", of_str "/gone"))
    by (vm_compute; reflexivity).
  split; [exact H1|]. split; [exact H2|]. split; [exact H3|].
  split; [exact H4|].
  destruct (mlst_outcomes env server_named "gone" logged_in (VBool true)
              alice (of_str "gone") (of_str "/gone") H1 H2 H3 H4)
    as (perm & Hperm & _ & Hunknown).
  exists perm. split; [exact Hperm|].
  assert (Hp : perm = Permission_init (PStr "/") true true).
  { assert (Hc : get_permissions alice (of_str "/gone")
                 = Done (Permission_init (PStr "/") true true))
      by (vm_compute; reflexivity).
    rewrite Hc in Hperm. by injection Hperm. }
  assert (H5 : readable perm = true) by (rewrite Hp; reflexivity).
  assert (H6 : path_io_is_file env (of_str "gone") (world logged_in) = false)
    by (vm_compute; reflexivity).
  assert (H7 : path_io_is_dir env (of_str "gone") (world logged_in) = false)
    by (vm_compute; reflexivity).
  split; [exact H5|]. split; [exact H6|]. split; [exact H7|].
  exact (Hunknown H5 H6 H7).
Defined.

Lemma mlsd_starts_one_writer_witness :
  connection connected !! "logged" = Some (VBool true) ∧
  connection connected !! "passive_server"
  = Some (VServer (mkListener "127.0.0.1" 50000)) ∧
  connection connected !! "passive_connection" = Some (VStreams 7 8) ∧
  connection connected !! "user" = Some (VUser alice) ∧
  connection connected !! "path_io" = Some VPathIO ∧
  connection connected !! "loop" = Some VLoop ∧
  fst (get_paths server_named (PStr "pub") connected)
  = Done (of_str "pub", of_str "/pub") ∧
  ∃ perm, get_permissions alice (of_str "/pub") = Done perm ∧
    mlsd server_named "pub" connected =
    if readable perm
    then (Done (Reply true "150" (IStr "mlsd transer started") None),
          mkState (connection connected) (world connected) (wire connected)
                  (tasks connected ++ [MlsdWriter VPathIO (of_str "pub")]))
    else (Done (Reply true "550" (IStr "permission denied") None), connected).
Proof.
  assert (H1 : connection connected !! "logged" = Some (VBool true))
    by (vm_compute; reflexivity).
  assert (H2 : connection connected !! "passive_server"
               = Some (VServer (mkListener "127.0.0.1" 50000)))
    by (vm_compute; reflexivity).
  assert (H3 : connection connected !! "passive_connection"
               = Some (VStreams 7 8)) by (vm_compute; reflexivity).
  assert (H4 : connection connected !! "user" = Some (VUser alice))
    by (vm_compute; reflexivity).
  assert (H5 : connection connected !! "path_io" = Some VPathIO)
    by (vm_compute; reflexivity).
  assert (H6 : connection connected !! "loop" = Some VLoop)
    by (vm_compute; reflexivity).
  assert (H7 : fst (get_paths server_named (PStr "pub") connected)
               = Done (of_str "pub", of_str "/pub"))
    by (vm_compute; reflexivity).
  split; [exact H1|]. split; [exact H2|]. split; [exact H3|].
  split; [exact H4|]. split; [exact H5|]. split; [exact H6|].
  split; [exact H7|].
  exact (mlsd_starts_one_writer server_named "pub" connected (VBool true)
           (VServer (mkListener "127.0.0.1" 50000)) (VStreams 7 8) VPathIO
           VLoop alice (of_str "pub") (of_str "/pub")
           H1 H2 H3 H4 H5 H6 H7).
Defined.

(** *** The background writer *)

Lemma mlsd_writer_consumes_and_closes_witness :
  connection connected !! "passive_connection" = Some (VStreams 7 8) ∧
  let st' := snd (mlsd_writer env server_named VPathIO (of_str "pub")
                    connected) in
  connection st' = delete "passive_connection" (connection connected) ∧
  Close 8 ∈ wire st' ∧
  world st' = world connected ∧ tasks st' = tasks connected ∧
  ∀ path_io' real_path',
    mlsd_writer env server_named path_io' real_path' st'
    = (Raise (KeyError "passive_connection"), st').
Proof.
  assert (H1 : connection connected !! "passive_connection"
               = Some (VStreams 7 8)) by (vm_compute; reflexivity).
  split; [exact H1|].
  exact (mlsd_writer_consumes_and_closes env server_named VPathIO
           (of_str "pub") connected 7 8 H1).
Defined.

Lemma mlsd_writer_success_witness :
  connection connected !! "passive_connection" = Some (VStreams 7 8) ∧
  connection connected !! "path_io" = Some VPathIO ∧
  connection connected !! "command_connection" = Some (VStreams 0 1) ∧
  path_io_list env (of_str "pub") (world connected) = Done [of_str "pub/f"] ∧
  Forall2 (fun p s => fst (build_mlsx_string env server_named p connected)
                      = Done s)
          [of_str "pub/f"] ["Type=file;Size=0;Modify=0.0;Create=0.0; f"] ∧
  mlsd_writer env server_named VPathIO (of_str "pub") connected
  = (Done tt,
     mkState (delete "passive_connection" (connection connected))
             (world connected)
             (wire connected
              ++ map (fun s => Write 8 (s +:+ LF))
                     ["Type=file;Size=0;Modify=0.0;Create=0.0; f"]
              ++ [Close 8;
                  Write 1 ("200 mlsd data transer done" +:+ CRLF)])
             (tasks connected)).
Proof.
  assert (H1 : connection connected !! "passive_connection"
               = Some (VStreams 7 8)) by (vm_compute; reflexivity).
  assert (H2 : connection connected !! "path_io" = Some VPathIO)
    by (vm_compute; reflexivity).
  assert (H3 : connection connected !! "command_connection"
               = Some (VStreams 0 1)) by (vm_compute; reflexivity).
  assert (H4 : path_io_list env (of_str "pub") (world connected)
               = Done [of_str "pub/f"]) by (vm_compute; reflexivity).
  assert (H5 : Forall2
                 (fun p s => fst (build_mlsx_string env server_named p
                                    connected) = Done s)
                 [of_str "pub/f"]
                 ["Type=file;Size=0;Modify=0.0;Create=0.0; f"]).
  { constructor; [vm_compute; reflexivity|constructor]. }
  split; [exact H1|]. split; [exact H2|]. split; [exact H3|].
  split; [exact H4|]. split; [exact H5|].
  exact (mlsd_writer_success env server_named (of_str "pub") connected 7 8
           0 1 [of_str "pub/f"]
           ["Type=file;Size=0;Modify=0.0;Create=0.0; f"] H1 H2 H3 H4 H5).
Defined.

(** *** Passive mode *)

Lemma accept_first_wins_witness :
  connection listening !! "passive_connection" = None ∧
  pasv_handler 7 8 listening
  = (Done tt, set_key "passive_connection" (VStreams 7 8) listening) ∧
  pasv_handler 9 10 (set_key "passive_connection" (VStreams 7 8) listening)
  = (Done tt,
     add_wire [Close 10]
       (set_key "passive_connection" (VStreams 7 8) listening)).
Proof.
  assert (H1 : connection listening !! "passive_connection" = None)
    by (vm_compute; reflexivity).
  split; [exact H1|].
  exact (accept_first_wins 7 8 9 10 listening H1).
Defined.

Lemma pasv_twice_same_address_witness :
  authenticated logged_in ∧
  pasv env server_named "" logged_in
  = (Done (Reply true "227"
             (IList ["listen socket created"; "(127,0,0,1,195,80)"]) None),
     listening) ∧
  pasv env server_named "" listening
  = (Done (Reply true "227"
             (IList ["listen socket already exists"; "(127,0,0,1,195,80)"])
             None),
     listening).
Proof.
  assert (H1 : authenticated logged_in) by (eexists; vm_compute; reflexivity).
  assert (H2 : pasv env server_named "" logged_in
               = (Done (Reply true "227"
                          (IList ["listen socket created";
                                  "(127,0,0,1,195,80)"]) None),
                  listening)) by (vm_compute; reflexivity).
  split; [exact H1|]. split; [exact H2|].
  exact (pasv_twice_same_address env server_named "" "" logged_in true "227"
           "listen socket created" "(127,0,0,1,195,80)" None listening H1 H2).
Defined.

(** *** Paths *)

Lemma get_paths_is_lexical_witness :
  connection in_pub !! "user" = Some (VUser alice) ∧
  connection in_pub !! "current_directory"
  = Some (VPath {| p_root := "/"; p_parts := "/" :: ["pub"] |}) ∧
  fst (get_paths server_named (PStr "../x") in_pub)
  = Done ({| p_root := ""; p_parts := ["pub"; ".."; "x"] |},
          {| p_root := "/"; p_parts := ["/"; "pub"; ".."; "x"] |}).
Proof.
  assert (H1 : connection in_pub !! "user" = Some (VUser alice))
    by (vm_compute; reflexivity).
  assert (H2 : connection in_pub !! "current_directory"
               = Some (VPath {| p_root := "/"; p_parts := "/" :: ["pub"] |}))
    by (vm_compute; reflexivity).
  split; [exact H1|]. split; [exact H2|].
  exact (proj2 (get_paths_is_lexical server_named "../x" in_pub alice ["pub"]
                  H1 H2)).
Defined.

Lemma no_permissions_is_full_access_witness :
  ((None : option (list Permission)) = None ∨
   (None : option (list Permission)) = Some []) ∧
  get_permissions (User_init (Some "carol") None (PStr ".") (PStr "/") None)
    (of_str "/pub/f")
  = Done Permission_default ∧
  readable Permission_default = true ∧ writable Permission_default = true.
Proof.
  assert (H1 : (None : option (list Permission)) = None ∨
               (None : option (list Permission)) = Some [])
    by (left; reflexivity).
  split; [exact H1|].
  exact (no_permissions_is_full_access (Some "carol") None (PStr ".")
           (PStr "/") None (of_str "/pub/f") H1).
Defined.

Lemma current_directory_stays_rooted_witness :
  Forall (fun u => rooted (home_path u)) (users server_named) ∧
  directories_rooted in_pub ∧
  directories_rooted (snd (handler env server_named CDUP "" in_pub)).
Proof.
  assert (H1 : Forall (fun u => rooted (home_path u)) (users server_named)).
  { constructor; [by exists []|constructor]. }
  assert (H2 : directories_rooted in_pub).
  { assert (Hcd : connection in_pub !! "current_directory"
                  = Some (VPath (of_str "/pub"))) by (vm_compute; reflexivity).
    assert (Hu : connection in_pub !! "user" = Some (VUser alice))
      by (vm_compute; reflexivity).
    split.
    - intros v Hv. rewrite Hcd in Hv. injection Hv as <-.
      exists (of_str "/pub"). split; [reflexivity|]. by exists ["pub"].
    - intros u Hv. rewrite Hu in Hv. injection Hv as <-. by exists []. }
  split; [exact H1|]. split; [exact H2|].
  exact (current_directory_stays_rooted env server_named CDUP "" in_pub H1 H2).
Defined.

Lemma cwd_then_pwd_witness :
  connection logged_in !! "logged" = Some (VBool true) ∧
  connection logged_in !! "user" = Some (VUser alice) ∧
  connection logged_in !! "path_io" = Some VPathIO ∧
  fst (get_paths server_named (PStr "pub") logged_in)
  = Done (of_str "pub", of_str "/pub") ∧
  cwd env server_named (PStr "pub") logged_in
  = (Done (Reply true "250" (IStr "") None), in_pub) ∧
  pwd server_named "" in_pub
  = (Done (Reply true "257" (IStr (dquote +:+ str (of_str "/pub") +:+ dquote))
             None), in_pub).
Proof.
  assert (H1 : connection logged_in !! "logged" = Some (VBool true))
    by (vm_compute; reflexivity).
  assert (H2 : connection logged_in !! "user" = Some (VUser alice))
    by (vm_compute; reflexivity).
  assert (H3 : connection logged_in !! "path_io" = Some VPathIO)
    by (vm_compute; reflexivity).
  assert (H4 : fst (get_paths server_named (PStr "pub") logged_in)
               = Done (of_str "pub", of_str "/pub"))
    by (vm_compute; reflexivity).
  assert (H5 : cwd env server_named (PStr "pub") logged_in
               = (Done (Reply true "250" (IStr "") None), in_pub))
    by (vm_compute; reflexivity).
  split; [exact H1|]. split; [exact H2|]. split; [exact H3|].
  split; [exact H4|]. split; [exact H5|].
  exact (cwd_then_pwd env server_named (PStr "pub") "" logged_in (VBool true)
           alice (of_str "pub") (of_str "/pub") (IStr "") in_pub
           H1 H2 H3 H4 H5).
Defined.

Lemma exact_permission_wins_witness :
  Permission_init (PStr "/pub") true false ∈ permissions alice ∧
  perm_path (Permission_init (PStr "/pub") true false) = of_str "/pub" ∧
  ∃ perm i, get_permissions alice (of_str "/pub") = Done perm ∧
            permissions alice !! i = Some perm ∧
            remaining (of_str "/pub") perm = Done 0 ∧
            ∀ j x, j < i -> permissions alice !! j = Some x ->
                   remaining (of_str "/pub") x ≠ Done 0.
Proof.
  assert (H1 : Permission_init (PStr "/pub") true false ∈ permissions alice).
  { apply list_elem_of_further. apply list_elem_of_here. }
  assert (H2 : perm_path (Permission_init (PStr "/pub") true false)
               = of_str "/pub") by reflexivity.
  split; [exact H1|]. split; [exact H2|].
  exact (exact_permission_wins alice (of_str "/pub")
           (Permission_init (PStr "/pub") true false) H1 H2).
Defined.


End examples.
